(** * The inquiry endpoint of motor-capacitor-landing

    A shallow embedding of [api/submit-inquiry.js] (the handler with
    validation, sanitisation and configuration from the environment) and of
    [submit-inquiry.js] (the earlier handler without them), followed by the
    properties of the two that the specification states.

    Conventions of the embedding:
    - a JavaScript string is the list of its UTF-16 code units ([list N]);
      [str] turns an ASCII literal of the source into such a list;
    - a JavaScript value as it can arrive in a parsed request body is a
      [jsval]; a number is kept as the text [Number::toString] gives for it,
      which is all the two handlers can observe of a number (its truth value
      and its text);
    - [process.env], the request headers and JSON objects are finite maps
      from property names to values ([gmap]);
    - [null] returned by a validator is [None];
    - the handlers return their response together with the trace of the
      calls that the specification talks about (validator calls and
      outbound [fetch] requests); [console] output is not part of the model. *)

From Stdlib Require Import ZArith NArith Lia DecimalString.
From stdpp Require Import base decidable option list strings gmap.

#[local] Set Warnings "-register-all".
#[local] Open Scope Z_scope.

(** ** Strings *)

Abbreviation jsstring := (list N).

(** An ASCII literal of the source as a list of code units. *)
Definition str (s : string) : jsstring :=
  map Ascii.N_of_ascii (String.list_ascii_of_string s).

(** Literals that hold the double quote are written with a backquote in its
    place (a backquote cannot occur inside the template literals they come
    from). *)
Definition tpl (s : string) : jsstring :=
  map (fun c => if N.eqb c 96 then 34%N else c) (str s).

Definition ch_lf : N := 10.
Definition ch_dquote : N := 34.
Definition ch_amp : N := 38.
Definition ch_squote : N := 39.
Definition ch_comma : N := 44.
Definition ch_dot : N := 46.
Definition ch_slash : N := 47.
Definition ch_lt : N := 60.
Definition ch_gt : N := 62.
Definition ch_at : N := 64.

(** ECMAScript's WhiteSpace and LineTerminator code units: what
    [String.prototype.trim] strips and what [\s] matches. *)
Definition is_space (c : N) : bool :=
  (bool_decide (c ∈ [9; 10; 11; 12; 13; 32; 160; 5760; 8232; 8233; 8239;
                     8287; 12288; 65279]%N)
   || ((8192 <=? c)%N && (c <=? 8202)%N)).

Fixpoint trimStart (s : jsstring) : jsstring :=
  match s with
  | c :: t => if is_space c then trimStart t else s
  | [] => []
  end.

Definition trimEnd (s : jsstring) : jsstring := rev (trimStart (rev s)).

(** [String.prototype.trim] *)
Definition trim (s : jsstring) : jsstring := trimEnd (trimStart s).

(** [s.replace(/c/g, r)] for a pattern of one character [c] and a
    replacement [r] without dollar patterns. *)
Fixpoint replaceAll (c : N) (r : jsstring) (s : jsstring) : jsstring :=
  match s with
  | [] => []
  | x :: t => (if N.eqb x c then r else [x]) ++ replaceAll c r t
  end.

(** [s.startsWith(p)] *)
Fixpoint startsWith (s p : jsstring) : bool :=
  match p, s with
  | [], _ => true
  | a :: p', b :: s' => N.eqb a b && startsWith s' p'
  | _ :: _, [] => false
  end.

(** [s.endsWith(p)] *)
Definition endsWith (s p : jsstring) : bool := startsWith (rev s) (rev p).

(** [s.includes(p)]: [p] occurs in [s] as a substring. *)
Fixpoint includes_str (s p : jsstring) : bool :=
  startsWith s p
  || match s with
     | [] => false
     | _ :: t => includes_str t p
     end.

(** [s.split(c)] for a separator of one character; the result has at least
    one element. *)
Fixpoint split (c : N) (s : jsstring) : list jsstring :=
  match s with
  | [] => [[]]
  | x :: t =>
      if N.eqb x c then [] :: split c t
      else match split c t with
           | w :: ws => (x :: w) :: ws
           | [] => [[x]]
           end
  end.

(** [parts.join(sep)] on strings. *)
Fixpoint join (sep : jsstring) (parts : list jsstring) : jsstring :=
  match parts with
  | [] => []
  | [p] => p
  | p :: ps => p ++ sep ++ join sep ps
  end.

(** ** Values *)

Inductive jsval : Type :=
| JUndefined
| JNull
| JBool (b : bool)
| JNum (text : jsstring)
| JStr (s : jsstring)
| JArr (elems : list jsval)
| JObj (props : gmap jsstring jsval).

(** ** Validation and sanitisation utilities ([Validator]) *)

Module Validator.

(** [sanitizeHtml(str)]: six replacements in the order of the source. *)
Definition sanitizeHtml (v : jsval) : jsstring :=
  match v with
  | JStr s =>
      replaceAll ch_slash (str "&#x2F;")
        (replaceAll ch_squote (str "&#x27;")
           (replaceAll ch_dquote (str "&quot;")
              (replaceAll ch_gt (str "&gt;")
                 (replaceAll ch_lt (str "&lt;")
                    (replaceAll ch_amp (str "&amp;") s)))))
  | _ => []
  end.

(** The regular expressions needed for [emailRegex], over code units. *)
Inductive class_item : Type :=
| ClassSpace             (* \s *)
| ClassChar (c : N).     (* a single character *)

Inductive regex : Type :=
| RVoid                                 (* matches nothing *)
| REps                                  (* the empty string *)
| RChar (c : N)                         (* a literal character *)
| RNotIn (items : list class_item)      (* [^...] *)
| RSeq (r1 r2 : regex)                  (* r1 r2 *)
| RStar (r : regex).                    (* r* *)

(** [r+] *)
Definition RPlus (r : regex) : regex := RSeq r (RStar r).

Definition item_matches (c : N) (i : class_item) : bool :=
  match i with
  | ClassSpace => is_space c
  | ClassChar d => N.eqb c d
  end.

Fixpoint nullable (r : regex) : bool :=
  match r with
  | RVoid => false
  | REps => true
  | RChar _ => false
  | RNotIn _ => false
  | RSeq r1 r2 => nullable r1 && nullable r2
  | RStar _ => true
  end.

(** What is left of [r] after reading [c]. As alternation is not among the
    constructors, the residual of a sequence whose head is nullable is kept
    as a list of alternatives by [derivs]. *)
Fixpoint deriv (c : N) (r : regex) : list regex :=
  match r with
  | RVoid => []
  | REps => []
  | RChar d => if N.eqb c d then [REps] else []
  | RNotIn items => if existsb (item_matches c) items then [] else [REps]
  | RSeq r1 r2 =>
      map (fun r1' => RSeq r1' r2) (deriv c r1)
      ++ (if nullable r1 then deriv c r2 else [])
  | RStar r1 => map (fun r1' => RSeq r1' (RStar r1)) (deriv c r1)
  end.

Definition derivs (c : N) (rs : list regex) : list regex :=
  flat_map (deriv c) rs.

Fixpoint matches_from (rs : list regex) (s : jsstring) : bool :=
  match s with
  | [] => existsb nullable rs
  | c :: t => matches_from (derivs c rs) t
  end.

(** [/^r$/.test(s)]: the whole of [s] matches [r]. *)
Definition test_anchored (r : regex) (s : jsstring) : bool :=
  matches_from [r] s.

(** [/^[^\s@]+@[^\s@]+\.[^\s@]+$/] *)
Definition emailRegex : regex :=
  let atom := RPlus (RNotIn [ClassSpace; ClassChar ch_at]) in
  RSeq atom (RSeq (RChar ch_at) (RSeq atom (RSeq (RChar ch_dot) atom))).

Definition isValidEmail (email : jsstring) : bool :=
  test_anchored emailRegex email.

(** [isValidLength(str, min, max)] *)
Definition isValidLength (v : jsval) (min max : Z) : bool :=
  match v with
  | JStr s => (min <=? Z.of_nat (length s)) && (Z.of_nat (length s) <=? max)
  | _ => false
  end.

(** [v.trim()] where the source has established that [v] is a string. *)
Definition trim_of (v : jsval) : jsstring :=
  match v with
  | JStr s => trim s
  | _ => []
  end.

Definition validateName (name : jsval) : option jsstring :=
  if negb (isValidLength name 1 100) then None
  else Some (sanitizeHtml (JStr (trim_of name))).

Definition validateCompany (company : jsval) : option jsstring :=
  if negb (isValidLength company 1 200) then None
  else Some (sanitizeHtml (JStr (trim_of company))).

Definition validateEmail (email : jsval) : option jsstring :=
  if negb (isValidLength email 5 255) then None
  else
    let trimmed := trim_of email in
    if negb (isValidEmail trimmed) then None
    else Some (sanitizeHtml (JStr trimmed)).

Definition validateCountry (country : jsval) : option jsstring :=
  if negb (isValidLength country 1 100) then None
  else Some (sanitizeHtml (JStr (trim_of country))).

Definition validateMessage (message : jsval) : option jsstring :=
  if negb (isValidLength message 10 5000) then None
  else Some (sanitizeHtml (JStr (trim_of message))).

Definition validProducts : list jsstring := [str "CBB60"; str "CBB61"].

(** [arr.includes(p)] for an array [arr] of strings: only a string equal to
    one of them is the same value. *)
Definition includes (arr : list jsstring) (p : jsval) : bool :=
  match p with
  | JStr s => bool_decide (s ∈ arr)
  | _ => false
  end.

Definition validateProducts (products : jsval) : option (list jsstring) :=
  match products with
  | JArr ps =>
      if bool_decide (length ps = 0%nat) then None
      else
        let sanitized :=
          map sanitizeHtml (List.filter (includes validProducts) ps) in
        if bool_decide (0 < length sanitized)%nat then Some sanitized
        else None
  | _ => None
  end.

End Validator.

(** ** The runtime around a handler *)

(** The TypeErrors the engine itself can raise in the two handlers. Their
    messages are the engine's, see [rt_message]. *)
Inductive type_error : Type :=
| CannotDestructure (v : jsval)          (* const { ... } = null/undefined *)
| CannotReadProperty (v : jsval) (key : jsstring)   (* null.key *)
| CannotConvertToPrimitive (v : jsval).  (* `${v}` with no usable toString *)

Inductive exn : Type :=
| TypeError (e : type_error)
| Error (message : jsstring).            (* new Error(message), rejections *)

(** The answer of the mail provider to one request, as the Fetch API shows
    it: [up_text] and [up_json] are what reading the body as text and as JSON
    gives, either of which can be a rejection. *)
Record upstream_response : Type := {
  up_ok : bool;
  up_status : N;
  up_statusText : jsstring;
  up_headers : list (jsstring * jsstring);
  up_text : exn + jsstring;
  up_json : exn + jsval;
}.

(** The object given to [JSON.stringify] as the body of the outbound call. *)
Record email_payload : Type := {
  em_from : jsstring;
  em_to : list jsstring;
  em_subject : jsstring;
  em_html : jsstring;
  em_reply_to : jsval;
}.

Record fetch_request : Type := {
  fr_url : jsstring;
  fr_method : jsstring;
  fr_authorization : jsstring;
  fr_content_type : jsstring;
  fr_body : email_payload;
}.

(** What a handler gets from outside of the request: the mail provider
    behind [fetch], the clock, and the engine's wording of its TypeErrors. *)
Record runtime : Type := {
  rt_fetch : fetch_request -> exn + upstream_response;
  rt_now : jsstring;                     (* new Date().toISOString() *)
  rt_message : type_error -> jsstring;
}.

Record request : Type := {
  method : jsstring;
  req_headers : gmap jsstring jsstring;
  req_body : jsval;
}.

Record response : Type := {
  status : N;
  res_headers : list (jsstring * jsval);
  body : option jsval;                   (* None: ended without a body *)
}.

Inductive field : Type :=
| Name | Company | Email | Country | Products | Message.

Inductive event : Type :=
| EvValidate (f : field) (v : jsval)     (* a call of the field's validator *)
| EvFetch (rq : fetch_request).          (* an outbound call *)

Record outcome : Type := {
  resp : response;
  trace : list event;
}.

(** An object literal. *)
Definition obj (props : list (jsstring * jsval)) : jsval :=
  JObj (list_to_map props).

(** [res.status(code).json(value)] and [res.status(code).end()] after the
    headers [hs] were set. *)
Definition json (hs : list (jsstring * jsval)) (code : N) (value : jsval)
  : response :=
  {| status := code; res_headers := hs; body := Some value |}.

Definition end_ (hs : list (jsstring * jsval)) (code : N) : response :=
  {| status := code; res_headers := hs; body := None |}.

(** [v.key] for the keys the handlers read ([name], [company], [email],
    [country], [products], [message], [id]): none of them is a property of
    the prototypes of strings, numbers, booleans or arrays, so only an
    object can have them. [None] when [v] is [null] or [undefined]. *)
Definition get_prop (v : jsval) (key : jsstring) : option jsval :=
  match v with
  | JUndefined | JNull => None
  | JObj props => Some (default JUndefined (props !! key))
  | _ => Some JUndefined
  end.

(** Computations of the [try] block: the calls made so far and either the
    exception thrown or a value. *)
Definition M (A : Type) : Type := list event * (exn + A).

Definition ret {A} (a : A) : M A := ([], inr a).
Definition throw {A} (e : exn) : M A := ([], inl e).
Definition emit (ev : event) : M unit := ([ev], inr tt).
(** [await p] for a promise that has settled as [r]. *)
Definition await {A} (r : exn + A) : M A := ([], r).

Definition bind {A B} (m : M A) (k : A -> M B) : M B :=
  match m with
  | (t, inl e) => (t, inl e)
  | (t, inr a) => let '(t', r) := k a in (t ++ t', r)
  end.

Notation "'let*' x := m 'in' k" := (bind m (fun x => k))
  (at level 10, x name, m at level 100, k at level 200).

Definition fetch (rt : runtime) (rq : fetch_request) : M upstream_response :=
  let* _ := emit (EvFetch rq) in await (rt_fetch rt rq).

(** [const { name, company, email, country, products, message } = b] *)
Definition destructure (b : jsval)
  : M (jsval * jsval * jsval * jsval * jsval * jsval) :=
  match get_prop b (str "name"), get_prop b (str "company"),
        get_prop b (str "email"), get_prop b (str "country"),
        get_prop b (str "products"), get_prop b (str "message") with
  | Some name, Some company, Some email, Some country, Some products,
    Some message => ret (name, company, email, country, products, message)
  | _, _, _, _, _, _ => throw (TypeError (CannotDestructure b))
  end.

(** One line of a template literal, with the newline that ends it. *)
Definition line (s : string) : jsstring := tpl s ++ [ch_lf].

(** The template literal [emailHTML]; it is the same text in both files but
    for the seven interpolated expressions. *)
Definition emailHTML
  (name company email country productsList message now : jsstring)
  : jsstring :=
  concat [
      line "";
      line "            <!DOCTYPE html>";
      line "            <html>";
      line "            <head>";
      line "                <style>";
      line "                    body { font-family: Arial, sans-serif; line-height: 1.6; color: #333; }";
      line "                    .container { max-width: 600px; margin: 0 auto; padding: 20px; }";
      line "                    .header { background: linear-gradient(135deg, #c41e3a 0%, #a01830 100%); color: white; padding: 20px; text-align: center; border-radius: 8px 8px 0 0; }";
      line "                    .content { background: #f9fafb; padding: 30px; border: 1px solid #e5e7eb; }";
      line "                    .field { margin-bottom: 15px; }";
      line "                    .label { font-weight: bold; color: #1a1a2e; }";
      line "                    .value { margin-top: 5px; color: #6b7280; }";
      line "                    .footer { text-align: center; margin-top: 20px; font-size: 12px; color: #9ca3af; }";
      line "                </style>";
      line "            </head>";
      line "            <body>";
      line "                <div class=`container`>";
      line "                    <div class=`header`>";
      line "                        <h2>New Inquiry from Landing Page</h2>";
      line "                    </div>";
      line "                    <div class=`content`>";
      line "                        <div class=`field`>";
      line "                            <div class=`label`>Name:</div>";
      tpl "                            <div class=`value`>"; name; line "</div>";
      line "                        </div>";
      line "                        <div class=`field`>";
      line "                            <div class=`label`>Company:</div>";
      tpl "                            <div class=`value`>"; company; line "</div>";
      line "                        </div>";
      line "                        <div class=`field`>";
      line "                            <div class=`label`>Email:</div>";
      tpl "                            <div class=`value`>"; email; line "</div>";
      line "                        </div>";
      line "                        <div class=`field`>";
      line "                            <div class=`label`>Country:</div>";
      tpl "                            <div class=`value`>"; country; line "</div>";
      line "                        </div>";
      line "                        <div class=`field`>";
      line "                            <div class=`label`>Product Interest:</div>";
      tpl "                            <div class=`value`>"; productsList; line "</div>";
      line "                        </div>";
      line "                        <div class=`field`>";
      line "                            <div class=`label`>Message / Requirement:</div>";
      tpl "                            <div class=`value`>"; message; line "</div>";
      line "                        </div>";
      line "                        <div class=`field`>";
      line "                            <div class=`label`>Submitted at:</div>";
      tpl "                            <div class=`value`>"; now; line "</div>";
      line "                        </div>";
      line "                    </div>";
      line "                    <div class=`footer`>";
      line "                        <p>Motor Run Capacitor Manufacturer Landing Page</p>";
      line "                    </div>";
      line "                </div>";
      line "            </body>";
      line "            </html>";
      tpl "        "
  ].

Definition resend_url : jsstring := str "https://api.resend.com/emails".

Definition allow_methods : jsstring :=
  str "GET,OPTIONS,PATCH,DELETE,POST,PUT".
Definition allow_headers : jsstring :=
  str "X-CSRF-Token, X-Requested-With, Accept, Accept-Version, Content-Length, Content-MD5, Content-Type, Date, X-Api-Version".

(** A validator call, recorded in the trace. *)
Definition call {A} (f : field) (validator : jsval -> A) (v : jsval) : M A :=
  let* _ := emit (EvValidate f v) in ret (validator v).

(** [!r] for the result [r] of a text validator: [null] and the empty
    string are falsy. *)
Definition falsy_text (r : option jsstring) : bool :=
  match r with
  | Some (_ :: _) => false
  | _ => true
  end.

(** [!r] for the result [r] of [validateProducts]: an array is truthy. *)
Definition falsy_list (r : option (list jsstring)) : bool :=
  match r with
  | Some _ => false
  | None => true
  end.

(** ** [api/submit-inquiry.js] *)

Module Api.

(** A variable of [process.env] as the tests [!X] and [X || fallback] see
    it: unset and empty are the same. *)
Definition env_get (env : gmap jsstring jsstring) (key : jsstring)
  : option jsstring :=
  match env !! key with
  | Some (c :: s) => Some (c :: s)
  | _ => None
  end.

Definition getAllowedOrigins (env : gmap jsstring jsstring)
  : list jsstring :=
  match env_get env (str "ALLOWED_ORIGINS") with
  | None => []
  | Some allowedOriginsEnv => map trim (split ch_comma allowedOriginsEnv)
  end.

Definition isOriginAllowed (origin : jsstring) (allowedOrigins : list jsstring)
  : bool :=
  if bool_decide (length allowedOrigins = 0%nat) then true
  else
    existsb
      (fun allowed =>
         if bool_decide (allowed = str "*") then true
         else if endsWith allowed (str "*") then
           let prefix := removelast allowed in     (* allowed.slice(0, -1) *)
           startsWith origin prefix
         else bool_decide (origin = allowed))
      allowedOrigins.

(** The [res.setHeader] calls of the CORS part, in their order. *)
Definition cors_headers (req : request) (allowedOrigins : list jsstring)
  : list (jsstring * jsval) :=
  let origin := req_headers req !! str "origin" in
  (match origin with
   | Some (c :: o) =>
       if isOriginAllowed (c :: o) allowedOrigins then
         [(str "Access-Control-Allow-Origin", JStr (c :: o))]
       else if bool_decide (length allowedOrigins = 0%nat) then
         [(str "Access-Control-Allow-Origin", JStr (str "*"))]
       else []
   | _ =>
       if bool_decide (length allowedOrigins = 0%nat) then
         [(str "Access-Control-Allow-Origin", JStr (str "*"))]
       else []
   end)
  ++ [(str "Access-Control-Allow-Credentials", JBool true);
      (str "Access-Control-Allow-Methods", JStr allow_methods);
      (str "Access-Control-Allow-Headers", JStr allow_headers)].

(** The error text of each field's validation failure. *)
Definition error_message (f : field) : jsstring :=
  match f with
  | Name =>
      str "Invalid name. Please provide a valid name (1-100 characters)."
  | Company =>
      str "Invalid company name. Please provide a valid company name (1-200 characters)."
  | Email => str "Invalid email address. Please provide a valid email."
  | Country =>
      str "Invalid country. Please provide a valid country (1-100 characters)."
  | Products => str "Please select at least one product (CBB60 or CBB61)."
  | Message =>
      str "Invalid message. Please provide a message (10-5000 characters)."
  end.

(** [{ success: false, error: text }] *)
Definition failure (text : jsstring) : jsval :=
  obj [(str "success", JBool false); (str "error", JStr text)].

Definition configuration_error : jsval :=
  failure (str "Server configuration error").

Definition processing_error : jsval :=
  failure (str "An error occurred while processing your request. Please try again later.").

Definition success : jsval :=
  obj [(str "success", JBool true);
       (str "message", JStr (str "Inquiry submitted successfully"))].

(** The string a validator result holds, once it is known not to be
    [null]. *)
Definition text_of (r : option jsstring) : jsstring := default [] r.

(** The body of the [try] block. *)
Definition try_block (rt : runtime)
  (RESEND_API_KEY TO_EMAIL FROM_EMAIL : jsstring)
  (hs : list (jsstring * jsval)) (req : request) : M response :=
  let* fields := destructure (req_body req) in
  let '(name, company, email, country, products, message) := fields in
  let* sanitizedName := call Name Validator.validateName name in
  let* sanitizedCompany := call Company Validator.validateCompany company in
  let* sanitizedEmail := call Email Validator.validateEmail email in
  let* sanitizedCountry := call Country Validator.validateCountry country in
  let* sanitizedProducts := call Products Validator.validateProducts products in
  let* sanitizedMessage := call Message Validator.validateMessage message in
  if falsy_text sanitizedName then
    ret (json hs 400 (failure (error_message Name)))
  else if falsy_text sanitizedCompany then
    ret (json hs 400 (failure (error_message Company)))
  else if falsy_text sanitizedEmail then
    ret (json hs 400 (failure (error_message Email)))
  else if falsy_text sanitizedCountry then
    ret (json hs 400 (failure (error_message Country)))
  else if falsy_list sanitizedProducts then
    ret (json hs 400 (failure (error_message Products)))
  else if falsy_text sanitizedMessage then
    ret (json hs 400 (failure (error_message Message)))
  else
    let productsList := join (str ", ") (default [] sanitizedProducts) in
    let emailHTML :=
      emailHTML (text_of sanitizedName) (text_of sanitizedCompany)
        (text_of sanitizedEmail) (text_of sanitizedCountry) productsList
        (replaceAll ch_lf (str "<br>") (text_of sanitizedMessage))
        (rt_now rt) in
    let fromEmail :=
      if includes_str FROM_EMAIL (str "resend.dev") then FROM_EMAIL
      else str "Motor Run Capacitor <" ++ FROM_EMAIL ++ str ">" in
    let emailPayload :=
      {| em_from := fromEmail;
         em_to := [TO_EMAIL];
         em_subject :=
           str "New Inquiry: " ++ text_of sanitizedName ++ str " from "
           ++ text_of sanitizedCompany;
         em_html := emailHTML;
         em_reply_to := JStr (text_of sanitizedEmail) |} in
    let* resendResponse :=
      fetch rt
        {| fr_url := resend_url;
           fr_method := str "POST";
           fr_authorization := str "Bearer " ++ RESEND_API_KEY;
           fr_content_type := str "application/json";
           fr_body := emailPayload |} in
    if negb (up_ok resendResponse) then
      (let* errorText := await (up_text resendResponse) in
       (* resendResponse.json().catch(() => null) cannot throw *)
       throw (Error (str "Failed to send email")))
    else
      (let* resendData := await (up_json resendResponse) in
       ret (json hs 200 success)).

(** [module.exports] *)
Definition handler (rt : runtime) (env : gmap jsstring jsstring)
  (req : request) : outcome :=
  let FROM_EMAIL :=
    default (str "noreply@eperscapacitor.com")
      (env_get env (str "FROM_EMAIL")) in
  let allowedOrigins := getAllowedOrigins env in
  match env_get env (str "RESEND_API_KEY") with
  | None => {| resp := json [] 500 configuration_error; trace := [] |}
  | Some RESEND_API_KEY =>
      match env_get env (str "TO_EMAIL") with
      | None => {| resp := json [] 500 configuration_error; trace := [] |}
      | Some TO_EMAIL =>
          let hs := cors_headers req allowedOrigins in
          if bool_decide (method req = str "OPTIONS") then
            {| resp := end_ hs 200; trace := [] |}
          else if negb (bool_decide (method req = str "POST")) then
            {| resp := json hs 405
                         (obj [(str "error", JStr (str "Method not allowed"))]);
               trace := [] |}
          else
            match try_block rt RESEND_API_KEY TO_EMAIL FROM_EMAIL hs req with
            | (t, inr r) => {| resp := r; trace := t |}
            | (t, inl error) =>
                {| resp := json hs 500 processing_error; trace := t |}
            end
      end
  end.

End Api.

(** ** [submit-inquiry.js], the earlier handler *)

Module Legacy.

(** [!!v] *)
Definition truthy (v : jsval) : bool :=
  match v with
  | JUndefined | JNull => false
  | JBool b => b
  | JNum text => negb (bool_decide (text ∈ [str "0"; str "NaN"]))
  | JStr s => negb (bool_decide (s = []))
  | JArr _ | JObj _ => true
  end.

Section Elements.
Context {A B : Type} (f : A -> exn + B).

(** [f] on every element from left to right, up to the first exception. *)
Fixpoint each (l : list A) : exn + list B :=
  match l with
  | [] => inr []
  | x :: t =>
      match f x with
      | inl e => inl e
      | inr y =>
          match each t with
          | inl e => inl e
          | inr ys => inr (y :: ys)
          end
      end
  end.
End Elements.

(** [ToString(v)], as a template literal applies it. An object parsed from
    JSON has no callable property of its own: with a property [toString] of
    its own it cannot be converted, without one [Object.prototype.toString]
    answers. An array answers with [join(",")], in which [null] and
    [undefined] elements give the empty string. *)
Fixpoint ToString (v : jsval) : exn + jsstring :=
  match v with
  | JUndefined => inr (str "undefined")
  | JNull => inr (str "null")
  | JBool true => inr (str "true")
  | JBool false => inr (str "false")
  | JNum text => inr text
  | JStr s => inr s
  | JArr elems =>
      match
        each (fun x => match x with
                       | JUndefined | JNull => inr []
                       | _ => ToString x
                       end) elems
      with
      | inl e => inl e
      | inr parts => inr (join (str ",") parts)
      end
  | JObj props =>
      match props !! str "toString" with
      | Some _ => inl (TypeError (CannotConvertToPrimitive v))
      | None => inr (str "[object Object]")
      end
  end.

(** [elems.join(sep)] on an array of values. *)
Definition array_join (sep : jsstring) (elems : list jsval)
  : exn + jsstring :=
  match
    each (fun x => match x with
                   | JUndefined | JNull => inr []
                   | _ => ToString x
                   end) elems
  with
  | inl e => inl e
  | inr parts => inr (join sep parts)
  end.

(** The decimal text of a status code. *)
Definition decimal (n : N) : jsstring :=
  str (DecimalString.NilEmpty.string_of_uint (N.to_uint n)).

Definition api_key : jsstring := str "re_Wb6wExws_6bZtSDtaNp85tJTZt7Q8apVm".
Definition sender : jsstring :=
  str "Motor Run Capacitor <noreply@eperscapacitor.com>".
Definition recipient : jsstring := str "sales@eperscapacitor.com".

Definition cors_headers : list (jsstring * jsval) :=
  [(str "Access-Control-Allow-Credentials", JBool true);
   (str "Access-Control-Allow-Origin", JStr (str "*"));
   (str "Access-Control-Allow-Methods", JStr allow_methods);
   (str "Access-Control-Allow-Headers", JStr allow_headers)].

(** [error.message] *)
Definition message_of (rt : runtime) (error : exn) : jsstring :=
  match error with
  | TypeError e => rt_message rt e
  | Error message => message
  end.

(** The body of the [try] block. *)
Definition try_block (rt : runtime) (hs : list (jsstring * jsval))
  (req : request) : M response :=
  let* fields := destructure (req_body req) in
  let '(name, company, email, country, products, message) := fields in
  if negb (truthy name) || negb (truthy company) || negb (truthy email)
     || negb (truthy country) || negb (truthy products)
     || negb (truthy message) then
    ret (json hs 400
           (obj [(str "error", JStr (str "Missing required fields"));
                 (str "received",
                  obj [(str "name", name); (str "company", company);
                       (str "email", email); (str "country", country);
                       (str "products", products);
                       (str "message", message)])]))
  else
    let* productsList :=
      match products with
      | JArr elems =>
          let* joined := await (array_join (str ", ") elems) in
          ret (JStr joined)
      | _ => ret products
      end in
    let* name_text := await (ToString name) in
    let* company_text := await (ToString company) in
    let* email_text := await (ToString email) in
    let* country_text := await (ToString country) in
    let* products_text := await (ToString productsList) in
    let* message_text := await (ToString message) in
    let emailHTML :=
      emailHTML name_text company_text email_text country_text products_text
        message_text (rt_now rt) in
    let* resendResponse :=
      fetch rt
        {| fr_url := resend_url;
           fr_method := str "POST";
           fr_authorization := str "Bearer " ++ api_key;
           fr_content_type := str "application/json";
           fr_body :=
             {| em_from := sender;
                em_to := [recipient];
                em_subject :=
                  str "New Inquiry: " ++ name_text ++ str " from "
                  ++ company_text;
                em_html := emailHTML;
                em_reply_to := email |} |} in
    if negb (up_ok resendResponse) then
      (let* errorText := await (up_text resendResponse) in
       throw (Error (str "Resend API failed: "
                     ++ decimal (up_status resendResponse) ++ str " - "
                     ++ errorText)))
    else
      (let* resendData := await (up_json resendResponse) in
       match get_prop resendData (str "id") with
       | None => throw (TypeError (CannotReadProperty resendData (str "id")))
       | Some id =>
           ret (json hs 200
                  (obj [(str "success", JBool true);
                        (str "message",
                         JStr (str "Inquiry submitted successfully"));
                        (str "emailId", id)]))
       end).

(** [module.exports] *)
Definition handler (rt : runtime) (req : request) : outcome :=
  let hs := cors_headers in
  if bool_decide (method req = str "OPTIONS") then
    {| resp := end_ hs 200; trace := [] |}
  else if negb (bool_decide (method req = str "POST")) then
    {| resp := json hs 405
                 (obj [(str "error", JStr (str "Method not allowed"));
                       (str "received", JStr (method req))]);
       trace := [] |}
  else
    match try_block rt hs req with
    | (t, inr r) => {| resp := r; trace := t |}
    | (t, inl error) =>
        {| resp :=
             json hs 500
               (obj [(str "success", JBool false);
                     (str "error",
                      JStr (match message_of rt error with
                            | [] => str "Failed to process inquiry"
                            | m => m
                            end))]);
           trace := t |}
    end.

End Legacy.

(** * Properties *)

(** ** Vocabulary of the properties *)

Import Validator.

(** The characters [sanitizeHtml] replaces, and what it puts for each. *)
Definition raw_chars : list N := [ch_lt; ch_gt; ch_dquote; ch_squote; ch_slash].
Definition special_chars : list N := ch_amp :: raw_chars.
Definition entities : list jsstring :=
  [str "&amp;"; str "&lt;"; str "&gt;"; str "&quot;"; str "&#x27;";
   str "&#x2F;"].

(** A string is HTML-escaped: none of the characters less-than,
    greater-than, double quote, apostrophe and slash occurs in it,
    and wherever [&] occurs one of the six entities starts. *)
Definition html_escaped (s : jsstring) : Prop :=
  (forall c, c ∈ raw_chars -> c ∉ s)
  /\ (forall pre post, s = pre ++ ch_amp :: post ->
        exists e rest, e ∈ entities /\ ch_amp :: post = e ++ rest).

(** What [sanitizeHtml] puts for one character. *)
Definition escape (c : N) : jsstring :=
  if N.eqb c ch_amp then str "&amp;"
  else if N.eqb c ch_lt then str "&lt;"
  else if N.eqb c ch_gt then str "&gt;"
  else if N.eqb c ch_dquote then str "&quot;"
  else if N.eqb c ch_squote then str "&#x27;"
  else if N.eqb c ch_slash then str "&#x2F;"
  else [c].

(** The strings a regular expression denotes. *)
Inductive lang : regex -> jsstring -> Prop :=
| lang_eps : lang REps []
| lang_char c : lang (RChar c) [c]
| lang_notin items c :
    existsb (item_matches c) items = false -> lang (RNotIn items) [c]
| lang_seq r1 r2 s1 s2 :
    lang r1 s1 -> lang r2 s2 -> lang (RSeq r1 r2) (s1 ++ s2)
| lang_star_nil r : lang (RStar r) []
| lang_star_more r s1 s2 :
    lang r s1 -> lang (RStar r) s2 -> lang (RStar r) (s1 ++ s2).

(** A character that is neither white space nor the at sign. *)
Definition plain (c : N) : Prop := is_space c = false /\ c <> ch_at.

(** The shape [emailRegex] accepts: [local@head.tail] with the three parts
    non-empty and made of plain characters (the two parts of the domain may
    hold further dots). *)
Definition email_shape (t : jsstring) : Prop :=
  exists l d1 d2,
    t = l ++ ch_at :: d1 ++ ch_dot :: d2
    /\ l <> [] /\ d1 <> [] /\ d2 <> []
    /\ Forall plain l /\ Forall plain d1 /\ Forall plain d2.

(** The character class of [emailRegex]. *)
Definition plain_class : regex := RNotIn [ClassSpace; ClassChar ch_at].

(** The condition on the trimmed value that the specification words for
    [validateEmail], read in the way most favourable to it: exactly one at
    sign, a non-empty part without white space on each side of it, and a dot
    somewhere in the part after it. *)
Definition claimed_email_condition (t : jsstring) : Prop :=
  exists l d,
    t = l ++ ch_at :: d /\ l <> [] /\ d <> []
    /\ Forall plain l /\ Forall plain d /\ ch_dot ∈ d.

(** The six fields in the order in which the handler checks them. *)
Definition fields_in_order : list field :=
  [Name; Company; Email; Country; Products; Message].

(** The property of the body that holds field [f]. *)
Definition field_key (f : field) : jsstring :=
  match f with
  | Name => str "name"
  | Company => str "company"
  | Email => str "email"
  | Country => str "country"
  | Products => str "products"
  | Message => str "message"
  end.

(** The value of field [f] in the body [b]; [undefined] when absent. *)
Definition field_of (b : jsval) (f : field) : jsval :=
  default JUndefined (get_prop b (field_key f)).

(** The handler's test on the result of the validator of field [f]. *)
Definition rejects (f : field) (v : jsval) : bool :=
  match f with
  | Name => falsy_text (validateName v)
  | Company => falsy_text (validateCompany v)
  | Email => falsy_text (validateEmail v)
  | Country => falsy_text (validateCountry v)
  | Products => falsy_list (validateProducts v)
  | Message => falsy_text (validateMessage v)
  end.

(** The six validator calls on the fields of [b]. *)
Definition validation_trace (b : jsval) : list event :=
  map (fun f => EvValidate f (field_of b f)) fields_in_order.

(** [m] after the calls [t]. *)
Definition after {A} (t : list event) (m : M A) : M A := (t ++ m.1, m.2).

(** Example requests and surroundings for the concrete instances. *)
Definition provider_ok : upstream_response :=
  {| up_ok := true; up_status := 200; up_statusText := str "OK";
     up_headers := [];
     up_text := inr (tpl "{`id`:`49a3999c`}");
     up_json := inr (obj [(str "id", JStr (str "49a3999c"))]) |}.

Definition provider_refuses : upstream_response :=
  {| up_ok := false; up_status := 403; up_statusText := str "Forbidden";
     up_headers := [(str "x-request-id", str "7f3c")];
     up_text := inr (tpl "{`message`:`The domain is not verified`}");
     up_json := inr (obj [(str "message",
                           JStr (str "The domain is not verified"))]) |}.

Definition runtime_with (answer : upstream_response) : runtime :=
  {| rt_fetch := fun _ => inr answer;
     rt_now := str "2025-01-01T00:00:00.000Z";
     rt_message := fun _ => str "TypeError" |}.

Definition env_configured : gmap jsstring jsstring :=
  list_to_map [(str "RESEND_API_KEY", str "re_test_key");
               (str "TO_EMAIL", str "sales@example.com")].

Definition request_of (m : string) (b : jsval) : request :=
  {| method := str m; req_headers := ∅; req_body := b |}.

(** Scenario A of the specification. *)
Definition body_jane : jsval :=
  obj [(str "name", JStr (str "Jane Doe"));
       (str "company", JStr (str "Acme Corp"));
       (str "email", JStr (str "jane@acme.com"));
       (str "country", JStr (str "USA"));
       (str "products", JArr [JStr (str "CBB60")]);
       (str "message", JStr (str "Please send a quote for 50 units."))].

(** The outbound call of the earlier handler, with everything but the
    subject, the HTML body and the reply address written in its source. *)
Definition legacy_request (subject html : jsstring) (reply_to : jsval)
  : fetch_request :=
  {| fr_url := resend_url;
     fr_method := str "POST";
     fr_authorization := str "Bearer re_Wb6wExws_6bZtSDtaNp85tJTZt7Q8apVm";
     fr_content_type := str "application/json";
     fr_body :=
       {| em_from := str "Motor Run Capacitor <noreply@eperscapacitor.com>";
          em_to := [str "sales@eperscapacitor.com"];
          em_subject := subject;
          em_html := html;
          em_reply_to := reply_to |} |}.

(** A body whose name is white space only and which has no company. *)
Definition body_blank_name : jsval :=
  obj [(str "name", JStr (str "   "));
       (str "email", JStr (str "jane@acme.com"));
       (str "country", JStr (str "USA"));
       (str "products", JArr [JStr (str "CBB60")]);
       (str "message", JStr (str "Please send a quote for 50 units."))].

(** Scenarios B and D of the specification in one body: the email is
    checked before the products. *)
Definition body_bad_email : jsval :=
  obj [(str "name", JStr (str "Jane Doe"));
       (str "company", JStr (str "Acme Corp"));
       (str "email", JStr (str "not-an-email"));
       (str "country", JStr (str "USA"));
       (str "products", JArr [JStr (str "UNKNOWN")]);
       (str "message", JStr (str "Please send a quote for 50 units."))].

(** A request that both handlers accept, with markup in two fields. *)
Definition body_markup : jsval :=
  obj [(str "name", JStr (str "<b>Jane</b>"));
       (str "company", JStr (str "Acme & Co"));
       (str "email", JStr (str "jane@acme.com"));
       (str "country", JStr (str "USA"));
       (str "products", JArr [JStr (str "CBB60")]);
       (str "message", JStr (str "Please send a quote for 50 units."))].

(** Vocabulary of the further properties. *)

(** A string of white space only (the empty string is one). *)
Definition all_space (s : jsstring) : Prop :=
  Forall (fun c => is_space c = true) s.

(** The shape of a trimmed string: empty, or with a first and a last
    character that are not white space. *)
Definition trimmed (m : jsstring) : Prop :=
  m = []
  \/ (exists c t, m = c :: t /\ is_space c = false)
     /\ (exists t c, m = t ++ [c] /\ is_space c = false).

(** An entry of the allow-list admits an origin: it is the lone star, or it
    ends with a star and the origin starts with what precedes the star, or
    it is the origin itself. *)
Definition admits (origin allowed : jsstring) : Prop :=
  allowed = str "*"
  \/ (exists p rest, allowed = p ++ str "*" /\ origin = p ++ rest)
  \/ origin = allowed.

(** The header that allows an origin, if the response has one. *)
Definition allow_origin (hs : list (jsstring * jsval)) : option jsval :=
  snd <$> List.find
            (fun h => bool_decide (h.1 = str "Access-Control-Allow-Origin"))
            hs.

(** The outbound call of the handler of [api/] for the six accepted
    values. *)
Definition api_request (key to sender now : jsstring)
  (name company email country : jsstring) (products : list jsstring)
  (message : jsstring) : fetch_request :=
  {| fr_url := resend_url;
     fr_method := str "POST";
     fr_authorization := str "Bearer " ++ key;
     fr_content_type := str "application/json";
     fr_body :=
       {| em_from :=
            if includes_str sender (str "resend.dev") then sender
            else str "Motor Run Capacitor <" ++ sender ++ str ">";
          em_to := [to];
          em_subject :=
            str "New Inquiry: " ++ name ++ str " from " ++ company;
          em_html :=
            emailHTML name company email country (join (str ", ") products)
              (replaceAll ch_lf (str "<br>") message) now;
          em_reply_to := JStr email |} |}.

(** The request the handler of [api/] sends for the body [b], from the
    results of the six validators. *)
Definition api_request_of (rt : runtime) (env : gmap jsstring jsstring)
  (key to : jsstring) (b : jsval) : fetch_request :=
  api_request key to
    (default (str "noreply@eperscapacitor.com")
       (Api.env_get env (str "FROM_EMAIL")))
    (rt_now rt)
    (Api.text_of (validateName (field_of b Name)))
    (Api.text_of (validateCompany (field_of b Company)))
    (Api.text_of (validateEmail (field_of b Email)))
    (Api.text_of (validateCountry (field_of b Country)))
    (default [] (validateProducts (field_of b Products)))
    (Api.text_of (validateMessage (field_of b Message))).

(** How the [try] block of the handler of [api/] ends after its outbound
    call was answered (or not) by [answer]. *)
Definition after_fetch (hs : list (jsstring * jsval))
  (answer : exn + upstream_response) : exn + response :=
  match answer with
  | inl e => inl e
  | inr a =>
      if up_ok a then
        match up_json a with
        | inl e => inl e
        | inr _ => inr (json hs 200 Api.success)
        end
      else
        match up_text a with
        | inl e => inl e
        | inr _ => inl (Error (str "Failed to send email"))
        end
  end.

(** The request with its headers taken away. *)
Definition without_headers (req : request) : request :=
  {| method := method req; req_headers := ∅; req_body := req_body req |}.

(** The response of the [try] block or of its [catch]. *)
Definition settle (hs : list (jsstring * jsval)) (r : exn + response)
  : response :=
  match r with
  | inr x => x
  | inl _ => json hs 500 Api.processing_error
  end.

(** A variable of the environment is unset or empty. *)
Definition unset (env : gmap jsstring jsstring) (key : jsstring) : Prop :=
  env !! key = None \/ env !! key = Some [].

(** The response of the [catch] of the earlier handler to the exception
    [e]. *)
Definition legacy_catch (rt : runtime) (e : exn) : response :=
  json Legacy.cors_headers 500
    (obj [(str "success", JBool false);
          (str "error",
           JStr (match Legacy.message_of rt e with
                 | [] => str "Failed to process inquiry"
                 | m => m
                 end))]).

(** The body of the earlier handler's answer to a request with a field
    that is not truthy: the error and the six values as received. *)
Definition legacy_missing (b : jsval) : jsval :=
  obj [(str "error", JStr (str "Missing required fields"));
       (str "received",
        obj [(str "name", field_of b Name);
             (str "company", field_of b Company);
             (str "email", field_of b Email);
             (str "country", field_of b Country);
             (str "products", field_of b Products);
             (str "message", field_of b Message)])].

(** The body of the earlier handler's answer once the mail provider
    accepted the call and answered with the identifier [id]. *)
Definition legacy_success (id : jsval) : jsval :=
  obj [(str "success", JBool true);
       (str "message", JStr (str "Inquiry submitted successfully"));
       (str "emailId", id)].

(** How the [try] block of the earlier handler ends after its outbound
    call was answered (or not) by [answer]. *)
Definition legacy_after_fetch (answer : exn + upstream_response)
  : exn + response :=
  match answer with
  | inl e => inl e
  | inr a =>
      if up_ok a then
        match up_json a with
        | inl e => inl e
        | inr data =>
            match get_prop data (str "id") with
            | None => inl (TypeError (CannotReadProperty data (str "id")))
            | Some id => inr (json Legacy.cors_headers 200 (legacy_success id))
            end
        end
      else
        match up_text a with
        | inl e => inl e
        | inr text =>
            inl (Error (str "Resend API failed: "
                        ++ Legacy.decimal (up_status a) ++ str " - " ++ text))
        end
  end.

(** The response of the [try] block of the earlier handler or of its
    [catch]. *)
Definition legacy_settle (rt : runtime) (r : exn + response) : response :=
  match r with
  | inr x => x
  | inl e => legacy_catch rt e
  end.

(** ** Checks of the model on examples *)

Example sanitize_ex :
  Validator.sanitizeHtml (JStr (str "<a href='x'>T&J</a>"))
  = str "&lt;a href=&#x27;x&#x27;&gt;T&amp;J&lt;&#x2F;a&gt;".
Proof. reflexivity. Qed.

Example email_ex1 : Validator.isValidEmail (str "jane@acme.com") = true.
Proof. reflexivity. Qed.
Example email_ex2 : Validator.isValidEmail (str "not-an-email") = false.
Proof. reflexivity. Qed.
Example email_ex3 : Validator.isValidEmail (str "a@b.c.d") = true.
Proof. reflexivity. Qed.
Example email_ex4 : Validator.isValidEmail (str "ab@c.") = false.
Proof. reflexivity. Qed.
Example email_ex5 : Validator.isValidEmail (str "a@@b.c") = false.
Proof. reflexivity. Qed.
Example trim_ex : trim (str "  a b  ") = str "a b".
Proof. reflexivity. Qed.
Example split_ex : split ch_comma (str "a,,b") = [str "a"; []; str "b"].
Proof. reflexivity. Qed.

Example emailHTML_ex_length :
  length (emailHTML [] [] [] [] [] [] []) = 2700%nat.
Proof. reflexivity. Qed.

(** Scenario A: a valid body is answered 200 after one outbound call whose
    reply address is the submitted email. *)
Example scenario_A :
  let out := Api.handler (runtime_with provider_ok) env_configured
               (request_of "POST" body_jane) in
  status (resp out) = 200%N
  /\ body (resp out) = Some Api.success
  /\ exists rq, trace out = validation_trace body_jane ++ [EvFetch rq]
               /\ em_reply_to (fr_body rq) = JStr (str "jane@acme.com")
               /\ em_subject (fr_body rq)
                  = str "New Inquiry: Jane Doe from Acme Corp"
               /\ em_to (fr_body rq) = [str "sales@example.com"]
               /\ em_from (fr_body rq)
                  = str "Motor Run Capacitor <noreply@eperscapacitor.com>".
Proof.
  cbv zeta. repeat apply conj; try (vm_compute; reflexivity).
  eexists {| fr_url := _ |}. cbn [fr_body em_reply_to em_subject em_to em_from].
  repeat apply conj; vm_compute; reflexivity.
Qed.

(** Scenario C: a message of five characters is answered 400 with the
    error of the message field. *)
Example scenario_C :
  resp (Api.handler (runtime_with provider_ok) env_configured
          (request_of "POST"
             (obj [(str "name", JStr (str "Jane Doe"));
                   (str "company", JStr (str "Acme Corp"));
                   (str "email", JStr (str "jane@acme.com"));
                   (str "country", JStr (str "USA"));
                   (str "products", JArr [JStr (str "CBB60")]);
                   (str "message", JStr (str "Hello"))])))
  = json [(str "Access-Control-Allow-Origin", JStr (str "*"));
          (str "Access-Control-Allow-Credentials", JBool true);
          (str "Access-Control-Allow-Methods", JStr allow_methods);
          (str "Access-Control-Allow-Headers", JStr allow_headers)]
      400 (Api.failure (Api.error_message Message)).
Proof. vm_compute. reflexivity. Qed.

(** Scenario F: with an allow-list that does not hold the origin of the
    request no origin is allowed in the response, and the request is
    processed all the same. *)
Example scenario_F :
  let env := <[str "ALLOWED_ORIGINS" := str "https://a.example, https://b.example/*"]>
               env_configured in
  let req := {| method := str "POST";
                req_headers := {[ str "origin" := str "https://evil.example" ]};
                req_body := body_jane |} in
  resp (Api.handler (runtime_with provider_ok) env req)
  = json [(str "Access-Control-Allow-Credentials", JBool true);
          (str "Access-Control-Allow-Methods", JStr allow_methods);
          (str "Access-Control-Allow-Headers", JStr allow_headers)]
      200 Api.success
  /\ Api.isOriginAllowed (str "https://b.example/page")
       (Api.getAllowedOrigins env) = true.
Proof. cbv zeta. split; vm_compute; reflexivity. Qed.

(** The earlier handler hands the text of the provider's answer on to the
    caller. *)
Example legacy_leaks_provider_text :
  body (resp (Legacy.handler (runtime_with provider_refuses)
                (request_of "POST" body_jane)))
  = Some (obj [(str "success", JBool false);
               (str "error",
                JStr (str "Resend API failed: 403 - "
                      ++ tpl "{`message`:`The domain is not verified`}"))]).
Proof. vm_compute. reflexivity. Qed.

#[local] Arguments sanitizeHtml : simpl never.
#[local] Arguments escape : simpl never.

(** ** Replacement and escaping *)

Lemma replaceAll_app c r s t :
  replaceAll c r (s ++ t) = replaceAll c r s ++ replaceAll c r t.
Proof.
  induction s as [|x s IH]; simpl; [done|].
  by rewrite IH, (assoc_L (++)).
Qed.

Lemma replaceAll_other c r x : x <> c -> replaceAll c r [x] = [x].
Proof.
  intros Hx. simpl. by destruct (N.eqb_spec x c).
Qed.

Lemma sanitizeHtml_one c : sanitizeHtml (JStr [c]) = escape c.
Proof.
  unfold sanitizeHtml, escape.
  destruct (N.eqb_spec c ch_amp) as [->|Hamp]; [done|].
  rewrite (replaceAll_other ch_amp) by done.
  destruct (N.eqb_spec c ch_lt) as [->|Hlt]; [done|].
  rewrite (replaceAll_other ch_lt) by done.
  destruct (N.eqb_spec c ch_gt) as [->|Hgt]; [done|].
  rewrite (replaceAll_other ch_gt) by done.
  destruct (N.eqb_spec c ch_dquote) as [->|Hdq]; [done|].
  rewrite (replaceAll_other ch_dquote) by done.
  destruct (N.eqb_spec c ch_squote) as [->|Hsq]; [done|].
  rewrite (replaceAll_other ch_squote) by done.
  destruct (N.eqb_spec c ch_slash) as [->|Hsl]; [done|].
  by rewrite (replaceAll_other ch_slash).
Qed.

Lemma sanitizeHtml_app s t :
  sanitizeHtml (JStr (s ++ t)) = sanitizeHtml (JStr s) ++ sanitizeHtml (JStr t).
Proof. unfold sanitizeHtml. by rewrite !replaceAll_app. Qed.

Lemma sanitizeHtml_cons c s :
  sanitizeHtml (JStr (c :: s)) = escape c ++ sanitizeHtml (JStr s).
Proof.
  change (c :: s) with ([c] ++ s).
  by rewrite sanitizeHtml_app, sanitizeHtml_one.
Qed.

Lemma sanitizeHtml_nil : sanitizeHtml (JStr []) = [].
Proof. done. Qed.

(** The cases of [escape]. *)
Lemma escape_cases c :
  ((c ∉ special_chars) /\ escape c = [c])
  \/ ((c ∈ special_chars)
      /\ exists tail, (ch_amp :: tail) ∈ entities /\ escape c = ch_amp :: tail
                   /\ (ch_amp ∉ tail) /\ Forall (fun x => x ∉ tail) raw_chars).
Proof.
  unfold escape.
  destruct (N.eqb_spec c ch_amp) as [->|Hamp];
    [right; split; [compute_done|eexists; repeat split; compute_done]|].
  destruct (N.eqb_spec c ch_lt) as [->|Hlt];
    [right; split; [compute_done|eexists; repeat split; compute_done]|].
  destruct (N.eqb_spec c ch_gt) as [->|Hgt];
    [right; split; [compute_done|eexists; repeat split; compute_done]|].
  destruct (N.eqb_spec c ch_dquote) as [->|Hdq];
    [right; split; [compute_done|eexists; repeat split; compute_done]|].
  destruct (N.eqb_spec c ch_squote) as [->|Hsq];
    [right; split; [compute_done|eexists; repeat split; compute_done]|].
  destruct (N.eqb_spec c ch_slash) as [->|Hsl];
    [right; split; [compute_done|eexists; repeat split; compute_done]|].
  left. split; [|done].
  unfold special_chars, raw_chars.
  rewrite !not_elem_of_cons. repeat split; try done. apply not_elem_of_nil.
Qed.

Lemma escape_length c : (1 <= length (escape c))%nat.
Proof.
  destruct (escape_cases c) as [[_ ->]|(_ & tail & _ & -> & _)]; simpl; lia.
Qed.

Lemma sanitizeHtml_length s :
  (length s <= length (sanitizeHtml (JStr s)))%nat.
Proof.
  induction s as [|c s IH]; [done|].
  rewrite sanitizeHtml_cons, length_app. pose proof (escape_length c).
  simpl. lia.
Qed.

Lemma sanitizeHtml_grows s :
  ch_amp ∈ s -> (length s < length (sanitizeHtml (JStr s)))%nat.
Proof.
  induction s as [|c s IH]; [by intros ?%elem_of_nil|].
  rewrite sanitizeHtml_cons, length_app.
  intros [<-|Hin]%elem_of_cons.
  - pose proof (sanitizeHtml_length s). simpl. lia.
  - pose proof (escape_length c). specialize (IH Hin). simpl. lia.
Qed.

Lemma sanitizeHtml_plain s :
  Forall (fun c => c ∉ special_chars) s -> sanitizeHtml (JStr s) = s.
Proof.
  induction 1 as [|c s Hc _ IH]; [done|].
  rewrite sanitizeHtml_cons, IH.
  by destruct (escape_cases c) as [[_ ->]|[? _]].
Qed.

Lemma sanitizeHtml_has_amp s :
  Exists (fun c => c ∈ special_chars) s -> ch_amp ∈ sanitizeHtml (JStr s).
Proof.
  induction 1 as [c s Hc|c s _ IH]; rewrite sanitizeHtml_cons.
  - destruct (escape_cases c) as [[? _]|(_ & tail & _ & -> & _)]; [done|].
    simpl. left.
  - apply elem_of_app. by right.
Qed.

Lemma replaceAll_absent c r s : c ∉ s -> replaceAll c r s = s.
Proof.
  induction s as [|x s IH]; [done|].
  intros [Hx Hs]%not_elem_of_cons. simpl.
  destruct (N.eqb_spec x c) as [->|_]; [done|].
  by rewrite IH.
Qed.

Lemma replaceAll_elem c r s x : x ∈ replaceAll c r s -> x ∈ r \/ x ∈ s.
Proof.
  induction s as [|y s IH]; simpl; [by intros ?%elem_of_nil|].
  intros [Hx|Hx]%elem_of_app.
  - destruct (N.eqb y c); [by left|]. right.
    apply list_elem_of_singleton in Hx as ->. left.
  - destruct (IH Hx); [by left|]. right. by right.
Qed.

Lemma sanitizeHtml_no_raw s c :
  c ∈ raw_chars -> c ∉ sanitizeHtml (JStr s).
Proof.
  intros Hc. induction s as [|x s IH]; [by intros ?%elem_of_nil|].
  rewrite sanitizeHtml_cons. intros [Hin|Hin]%elem_of_app; [|done].
  destruct (escape_cases x) as [[Hx Heq]|(_ & tail & _ & Heq & _ & Hraw)];
    rewrite Heq in Hin.
  - apply list_elem_of_singleton in Hin as ->.
    apply Hx. by right.
  - apply elem_of_cons in Hin as [->|Hin].
    { assert (ch_amp ∉ raw_chars) by compute_done. done. }
    rewrite Forall_forall in Hraw. by apply (Hraw c).
Qed.

Lemma amp_after_tail tail pre post rest :
  ch_amp ∉ tail -> pre ++ ch_amp :: post = tail ++ rest ->
  exists pre', pre = tail ++ pre' /\ rest = pre' ++ ch_amp :: post.
Proof.
  revert pre. induction tail as [|a tail IH]; intros pre Hno Heq.
  - by exists pre.
  - apply not_elem_of_cons in Hno as [Ha Hno].
    destruct pre as [|p pre]; simplify_eq/=.
    destruct (IH pre Hno ltac:(done)) as (pre' & -> & ->).
    by exists pre'.
Qed.

Lemma sanitizeHtml_amp s pre post :
  sanitizeHtml (JStr s) = pre ++ ch_amp :: post ->
  exists e rest, e ∈ entities /\ ch_amp :: post = e ++ rest.
Proof.
  revert pre. induction s as [|c s IH]; intros pre.
  { rewrite sanitizeHtml_nil. by destruct pre. }
  rewrite sanitizeHtml_cons.
  destruct (escape_cases c) as [[Hc ->]|(_ & tail & Hent & -> & Hno & _)].
  - destruct pre as [|p pre]; intros Heq; simplify_eq/=.
    + exfalso. apply Hc. left.
    + by eapply IH.
  - destruct pre as [|p pre]; intros Heq; simplify_eq/=.
    + by exists (ch_amp :: tail), (sanitizeHtml (JStr s)).
    + destruct (amp_after_tail tail pre post _ Hno ltac:(done))
        as (pre' & -> & Hs).
      by eapply IH.
Qed.

Lemma sanitizeHtml_escaped v : html_escaped (sanitizeHtml v).
Proof.
  destruct v as [| | | |s| |];
    try (split; [intros c _ ?%elem_of_nil; done|by intros [] ? ?]).
  split.
  - intros c Hc. by apply sanitizeHtml_no_raw.
  - intros pre post. apply sanitizeHtml_amp.
Qed.

Lemma sanitizeHtml_twice s :
  sanitizeHtml (JStr (sanitizeHtml (JStr s)))
  = replaceAll ch_amp (str "&amp;") (sanitizeHtml (JStr s)).
Proof.
  set (t := sanitizeHtml (JStr s)).
  assert (Hraw : forall c, c ∈ raw_chars ->
            c ∉ replaceAll ch_amp (str "&amp;") t).
  { intros c Hc [Hin|Hin]%replaceAll_elem.
    - assert (Hent : Forall (fun x => x ∉ str "&amp;") raw_chars)
        by compute_done.
      rewrite Forall_forall in Hent. by apply (Hent c).
    - by apply (sanitizeHtml_no_raw s c). }
  unfold sanitizeHtml at 1.
  rewrite (replaceAll_absent ch_lt) by (apply Hraw; compute_done).
  rewrite (replaceAll_absent ch_gt) by (apply Hraw; compute_done).
  rewrite (replaceAll_absent ch_dquote) by (apply Hraw; compute_done).
  rewrite (replaceAll_absent ch_squote) by (apply Hraw; compute_done).
  by rewrite (replaceAll_absent ch_slash) by (apply Hraw; compute_done).
Qed.

Lemma sanitizeHtml_fixed_iff s :
  sanitizeHtml (JStr (sanitizeHtml (JStr s))) = sanitizeHtml (JStr s)
  <-> Forall (fun c => c ∉ special_chars) s.
Proof.
  split.
  - intros Heq. apply dec_stable. intros Hex%not_Forall_Exists; [|apply _].
    assert (Hex' : Exists (fun c => c ∈ special_chars) s).
    { eapply Exists_impl; [done|]. intros c Hc. by apply dec_stable. }
    apply sanitizeHtml_has_amp, sanitizeHtml_grows in Hex'.
    rewrite Heq in Hex'. lia.
  - intros Hs. by rewrite !(sanitizeHtml_plain s Hs).
Qed.

(** ** The matcher decides the language *)

Lemma nullable_lang r : nullable r = true <-> lang r [].
Proof.
  split.
  - induction r as [| | | |r1 IH1 r2 IH2|r IH]; simpl; try done.
    + intros _. constructor.
    + intros [H1 H2]%andb_prop.
      change (@nil N) with (@nil N ++ []). constructor; auto.
    + intros _. constructor.
  - intros H. remember [] as s eqn:Hs.
    induction H as [| | |r1 r2 s1 s2 _ IH1 _ IH2| |]; simpl; try done.
    apply app_eq_nil in Hs as [-> ->].
    by rewrite IH1, IH2.
Qed.

Lemma lang_deriv r c s :
  lang r (c :: s) -> exists r', r' ∈ deriv c r /\ lang r' s.
Proof.
  intros H. remember (c :: s) as w eqn:Hw. revert c s Hw.
  induction H as [|d|items d Hd|r1 r2 s1 s2 H1 IH1 H2 IH2|
                  |r s1 s2 H1 IH1 H2 IH2]; intros c s Hw; try done.
  - simplify_eq. exists REps. simpl. rewrite N.eqb_refl.
    split; [left|constructor].
  - simplify_eq. exists REps. simpl. rewrite Hd.
    split; [left|constructor].
  - destruct s1 as [|x s1]; simpl in Hw.
    + destruct (IH2 c s Hw) as (r' & Hin & Hl).
      exists r'. split; [|done]. simpl.
      apply nullable_lang in H1 as ->.
      apply elem_of_app. by right.
    + simplify_eq. destruct (IH1 c s1 eq_refl) as (r' & Hin & Hl).
      exists (RSeq r' r2). split; [|by constructor]. simpl.
      apply elem_of_app. left.
      apply (list_elem_of_fmap_2 (fun r1' => RSeq r1' r2)). done.
  - destruct s1 as [|x s1]; simpl in Hw.
    + by apply IH2.
    + simplify_eq. destruct (IH1 c s1 eq_refl) as (r' & Hin & Hl).
      exists (RSeq r' (RStar r)). split; [|by constructor]. simpl.
      apply (list_elem_of_fmap_2 (fun r1' => RSeq r1' (RStar r))). done.
Qed.

Lemma deriv_lang r c r' s :
  r' ∈ deriv c r -> lang r' s -> lang r (c :: s).
Proof.
  revert r' s.
  induction r as [| |d|items|r1 IH1 r2 IH2|r IH]; intros r' s; simpl.
  - by intros ?%elem_of_nil.
  - by intros ?%elem_of_nil.
  - destruct (N.eqb_spec c d) as [->|_]; [|by intros ?%elem_of_nil].
    intros ->%list_elem_of_singleton Hl. inversion Hl; subst. constructor.
  - destruct (existsb (item_matches c) items) eqn:Hc;
      [by intros ?%elem_of_nil|].
    intros ->%list_elem_of_singleton Hl. inversion Hl; subst.
    by constructor.
  - intros [Hin|Hin]%elem_of_app Hl.
    + apply list_elem_of_fmap in Hin as (r1' & -> & Hin).
      inversion Hl as [| | |? ? s1 s2 Hl1 Hl2| |]; subst.
      change (c :: s1 ++ s2) with ((c :: s1) ++ s2).
      constructor; [|done]. by eapply IH1.
    + destruct (nullable r1) eqn:Hn; [|by apply elem_of_nil in Hin].
      change (c :: s) with ([] ++ c :: s).
      constructor; [by apply nullable_lang|]. by eapply IH2.
  - intros Hin Hl.
    apply list_elem_of_fmap in Hin as (r1' & -> & Hin).
    inversion Hl as [| | |? ? s1 s2 Hl1 Hl2| |]; subst.
    change (c :: s1 ++ s2) with ((c :: s1) ++ s2).
    constructor; [|done]. by eapply IH.
Qed.

Lemma matches_from_lang rs s :
  matches_from rs s = true <-> exists r, r ∈ rs /\ lang r s.
Proof.
  revert rs. induction s as [|c s IH]; intros rs; simpl.
  - rewrite existsb_exists. split.
    + intros (r & Hin & Hn). exists r.
      split; [by apply list_elem_of_In|by apply nullable_lang].
    + intros (r & Hin & Hl). exists r.
      split; [by apply list_elem_of_In|by apply nullable_lang].
  - rewrite IH. unfold derivs. split.
    + intros (r' & Hin & Hl).
      apply list_elem_of_In, in_flat_map in Hin as (r & Hr & Hin).
      exists r. split; [by apply list_elem_of_In|].
      eapply deriv_lang; [|done]. by apply list_elem_of_In.
    + intros (r & Hin & Hl).
      apply lang_deriv in Hl as (r' & Hr' & Hl).
      exists r'. split; [|done].
      apply list_elem_of_In, in_flat_map. exists r.
      split; by apply list_elem_of_In.
Qed.

Lemma test_anchored_lang r s : test_anchored r s = true <-> lang r s.
Proof.
  unfold test_anchored. rewrite matches_from_lang. split.
  - by intros (r' & ->%list_elem_of_singleton & Hl).
  - intros Hl. exists r. split; [left|done].
Qed.

(** ** The language of [emailRegex] *)

Lemma lang_seq_inv r1 r2 s :
  lang (RSeq r1 r2) s <->
  exists s1 s2, s = s1 ++ s2 /\ lang r1 s1 /\ lang r2 s2.
Proof.
  split.
  - inversion 1; subst. eauto.
  - intros (s1 & s2 & -> & ? & ?). by constructor.
Qed.

Lemma lang_char_inv c s : lang (RChar c) s <-> s = [c].
Proof.
  split; [by inversion 1|intros ->; constructor].
Qed.

Lemma plain_class_matches c :
  existsb (item_matches c) [ClassSpace; ClassChar ch_at] = false <-> plain c.
Proof.
  unfold plain. simpl. rewrite orb_false_r, orb_false_iff.
  by rewrite N.eqb_neq.
Qed.

Lemma lang_plain_class s :
  lang plain_class s <-> exists c, s = [c] /\ plain c.
Proof.
  split.
  - inversion 1; subst. eexists. split; [done|]. by apply plain_class_matches.
  - intros (c & -> & Hc). constructor. by apply plain_class_matches.
Qed.

Lemma lang_star_plain s : lang (RStar plain_class) s <-> Forall plain s.
Proof.
  split.
  - intros H. remember (RStar plain_class) as r eqn:Hr.
    induction H as [| | | | |r s1 s2 H1 _ H2 IH2]; try done.
    simplify_eq. apply lang_plain_class in H1 as (c & -> & Hc).
    constructor; [done|]. by apply IH2.
  - induction 1 as [|c s Hc _ IH]; [constructor|].
    change (c :: s) with ([c] ++ s).
    constructor; [|done]. apply lang_plain_class. eauto.
Qed.

Lemma lang_plus_plain s :
  lang (RPlus plain_class) s <-> s <> [] /\ Forall plain s.
Proof.
  unfold RPlus. rewrite lang_seq_inv. split.
  - intros (s1 & s2 & -> & (c & -> & Hc)%lang_plain_class
              & Hs%lang_star_plain).
    split; [done|by constructor].
  - intros [Hne Hs]. destruct Hs as [|c s Hc Hs]; [done|].
    exists [c], s. split; [done|]. split.
    + apply lang_plain_class. eauto.
    + by apply lang_star_plain.
Qed.

Lemma emailRegex_lang t : lang emailRegex t <-> email_shape t.
Proof.
  unfold emailRegex, email_shape. fold plain_class.
  rewrite lang_seq_inv. split.
  - intros (l & rest1 & -> & [Hl1 Hl2]%lang_plus_plain & H).
    apply lang_seq_inv in H as (a & rest2 & -> & ->%lang_char_inv & H).
    apply lang_seq_inv in H as (d1 & rest3 & -> & [Hd1 Hd1']%lang_plus_plain & H).
    apply lang_seq_inv in H as (a & d2 & -> & ->%lang_char_inv
                                & [Hd2 Hd2']%lang_plus_plain).
    by exists l, d1, d2.
  - intros (l & d1 & d2 & -> & Hl & Hd1 & Hd2 & Fl & Fd1 & Fd2).
    exists l, (ch_at :: d1 ++ ch_dot :: d2).
    split; [done|]. split; [by apply lang_plus_plain|].
    apply lang_seq_inv. exists [ch_at], (d1 ++ ch_dot :: d2).
    split; [done|]. split; [by apply lang_char_inv|].
    apply lang_seq_inv. exists d1, (ch_dot :: d2).
    split; [done|]. split; [by apply lang_plus_plain|].
    apply lang_seq_inv. exists [ch_dot], d2.
    split; [done|]. split; [by apply lang_char_inv|by apply lang_plus_plain].
Qed.

Lemma isValidEmail_shape t : isValidEmail t = true <-> email_shape t.
Proof.
  unfold isValidEmail. by rewrite test_anchored_lang, emailRegex_lang.
Qed.

(** ** The validators *)

Lemma isValidLength_str s lo hi :
  isValidLength (JStr s) lo hi
  = bool_decide (lo <= Z.of_nat (length s) <= hi).
Proof.
  simpl. case_bool_decide as H.
  - apply andb_true_iff. rewrite !Z.leb_le. lia.
  - apply andb_false_iff. rewrite !Z.leb_gt. lia.
Qed.

(** A validator of the shape shared by name, company, country, message. *)
Lemma text_validator_spec validate lo hi :
  (forall v, validate v =
             if negb (isValidLength v lo hi) then None
             else Some (sanitizeHtml (JStr (trim_of v)))) ->
  forall s,
    (lo <= Z.of_nat (length s) <= hi ->
     validate (JStr s) = Some (sanitizeHtml (JStr (trim s))))
    /\ (Z.of_nat (length s) < lo \/ hi < Z.of_nat (length s) ->
        validate (JStr s) = None).
Proof.
  intros Hdef s. rewrite Hdef, isValidLength_str.
  split; intros H; case_bool_decide; simpl; try done; lia.
Qed.

Lemma text_validator_escaped validate lo hi :
  (forall v, validate v =
             if negb (isValidLength v lo hi) then None
             else Some (sanitizeHtml (JStr (trim_of v)))) ->
  forall v r, validate v = Some r -> html_escaped r.
Proof.
  intros Hdef v r. rewrite Hdef.
  destruct (isValidLength v lo hi); simpl; [|done].
  intros [= <-]. apply sanitizeHtml_escaped.
Qed.

Lemma validateEmail_str s :
  validateEmail (JStr s) =
  if bool_decide (5 <= Z.of_nat (length s) <= 255) then
    if isValidEmail (trim s) then Some (sanitizeHtml (JStr (trim s)))
    else None
  else None.
Proof.
  unfold validateEmail. rewrite isValidLength_str.
  case_bool_decide; simpl; [|done]. by destruct (isValidEmail (trim s)).
Qed.

Lemma validateEmail_some v r :
  validateEmail v = Some r <->
  exists s, v = JStr s /\ 5 <= Z.of_nat (length s) <= 255
            /\ email_shape (trim s) /\ r = sanitizeHtml (JStr (trim s)).
Proof.
  split.
  - destruct v as [| | | |s| |]; try done.
    rewrite validateEmail_str. case_bool_decide as Hlen; [|done].
    destruct (isValidEmail (trim s)) eqn:He; [|done].
    intros [= <-]. exists s. by rewrite <- isValidEmail_shape.
  - intros (s & -> & Hlen & Hshape%isValidEmail_shape & ->).
    rewrite validateEmail_str, bool_decide_true by done. by rewrite Hshape.
Qed.

Lemma includes_validProducts p :
  includes validProducts p = true ->
  p = JStr (str "CBB60") \/ p = JStr (str "CBB61").
Proof.
  destruct p as [| | | |s| |]; simpl; try done.
  intros Hin%bool_decide_eq_true. unfold validProducts in Hin.
  apply elem_of_cons in Hin as [->|Hin]; [by left|].
  apply list_elem_of_singleton in Hin as ->. by right.
Qed.

Lemma sanitizeHtml_whitelisted ps :
  map JStr (map sanitizeHtml (List.filter (includes validProducts) ps))
  = List.filter (includes validProducts) ps.
Proof.
  induction ps as [|p ps IH]; [done|]. simpl.
  destruct (includes validProducts p) eqn:Hp; [|done].
  simpl. rewrite IH. f_equal.
  by destruct (includes_validProducts p Hp) as [-> | ->].
Qed.

Lemma validateProducts_array ps :
  validateProducts (JArr ps) =
  match List.filter (includes validProducts) ps with
  | [] => None
  | _ :: _ => Some (map sanitizeHtml (List.filter (includes validProducts) ps))
  end.
Proof.
  unfold validateProducts. case_bool_decide as Hlen.
  - by destruct ps.
  - by destruct (List.filter (includes validProducts) ps).
Qed.

(** ** The claims about the validators *)

(** C1. Every value that one of the six field validators accepts is
    HTML-escaped: the returned string (for products, each returned string)
    holds none of the characters less-than, greater-than, double quote,
    apostrophe and slash, and every ampersand in it starts one of the six
    entities that escaping introduces. *)
Theorem validated_text_is_escaped :
  (forall v r, validateName v = Some r -> html_escaped r)
  /\ (forall v r, validateCompany v = Some r -> html_escaped r)
  /\ (forall v r, validateEmail v = Some r -> html_escaped r)
  /\ (forall v r, validateCountry v = Some r -> html_escaped r)
  /\ (forall v r, validateMessage v = Some r -> html_escaped r)
  /\ (forall v rs, validateProducts v = Some rs -> Forall html_escaped rs).
Proof.
  repeat apply conj.
  - by apply (text_validator_escaped validateName 1 100).
  - by apply (text_validator_escaped validateCompany 1 200).
  - intros v r (s & _ & _ & _ & ->)%validateEmail_some.
    apply sanitizeHtml_escaped.
  - by apply (text_validator_escaped validateCountry 1 100).
  - by apply (text_validator_escaped validateMessage 10 5000).
  - intros v rs. destruct v as [| | | | |ps|]; try done.
    rewrite validateProducts_array.
    destruct (List.filter _ ps) as [|q qs]; [done|].
    intros [= <-]. constructor; [apply sanitizeHtml_escaped|].
    induction qs as [|p qs IH]; constructor; [|done].
    apply sanitizeHtml_escaped.
Qed.

Lemma validated_text_is_escaped_witness :
  validateName (JStr (str " <b>Tom & Co</b> "))
  = Some (str "&lt;b&gt;Tom &amp; Co&lt;&#x2F;b&gt;")
  /\ html_escaped (str "&lt;b&gt;Tom &amp; Co&lt;&#x2F;b&gt;").
Proof.
  split; [reflexivity|].
  apply (proj1 validated_text_is_escaped (JStr (str " <b>Tom & Co</b> "))).
  reflexivity.
Defined.

(** C2, as the specification states it, fails: the length check is made on
    the value as received, before it is trimmed. A message whose trimmed
    length is 9 (one below the minimum) is accepted when a leading space
    brings its length to 10, and a message whose trimmed length is 5000 (the
    maximum) is rejected when a leading space brings its length to 5001. *)
Lemma trimmed_length_check_counterexample :
  Z.of_nat (length (trim (str " aaaaaaaaa"))) = 9
  /\ validateMessage (JStr (str " aaaaaaaaa")) = Some (str "aaaaaaaaa")
  /\ Z.of_nat (length (trim (32%N :: replicate (Z.to_nat 5000) 97%N))) = 5000
  /\ validateMessage (JStr (32%N :: replicate (Z.to_nat 5000) 97%N)) = None.
Proof. repeat apply conj; vm_compute; reflexivity. Qed.

(** C2, amended. For every text field the length check is applied to the
    value as received, inclusive on both bounds, and trimming comes after
    it: a string whose length lies within the bounds of the field passes
    the check (and, but for email, is accepted as its trimmed and escaped
    value; an email goes on to the format check on the trimmed value), and a
    string whose length is below the minimum or above the maximum is
    rejected. In particular lengths equal to a bound pass and lengths one
    beyond a bound fail. *)
Theorem length_check_on_received_value (s : jsstring) :
  let n := Z.of_nat (length s) in
  ((1 <= n <= 100 ->
    validateName (JStr s) = Some (sanitizeHtml (JStr (trim s))))
   /\ (n < 1 \/ 100 < n -> validateName (JStr s) = None))
  /\ ((1 <= n <= 200 ->
       validateCompany (JStr s) = Some (sanitizeHtml (JStr (trim s))))
      /\ (n < 1 \/ 200 < n -> validateCompany (JStr s) = None))
  /\ ((5 <= n <= 255 ->
       validateEmail (JStr s) =
       if isValidEmail (trim s) then Some (sanitizeHtml (JStr (trim s)))
       else None)
      /\ (n < 5 \/ 255 < n -> validateEmail (JStr s) = None))
  /\ ((1 <= n <= 100 ->
       validateCountry (JStr s) = Some (sanitizeHtml (JStr (trim s))))
      /\ (n < 1 \/ 100 < n -> validateCountry (JStr s) = None))
  /\ ((10 <= n <= 5000 ->
       validateMessage (JStr s) = Some (sanitizeHtml (JStr (trim s))))
      /\ (n < 10 \/ 5000 < n -> validateMessage (JStr s) = None)).
Proof.
  intros n. repeat apply conj.
  - by apply (text_validator_spec validateName 1 100).
  - by apply (text_validator_spec validateName 1 100).
  - by apply (text_validator_spec validateCompany 1 200).
  - by apply (text_validator_spec validateCompany 1 200).
  - intros Hn. by rewrite validateEmail_str, bool_decide_true.
  - intros Hn. rewrite validateEmail_str, bool_decide_false; [done|].
    unfold n in Hn. lia.
  - by apply (text_validator_spec validateCountry 1 100).
  - by apply (text_validator_spec validateCountry 1 100).
  - by apply (text_validator_spec validateMessage 10 5000).
  - by apply (text_validator_spec validateMessage 10 5000).
Qed.

Lemma length_check_on_received_value_witness :
  validateMessage (JStr (str "0123456789")) = Some (str "0123456789")
  /\ validateMessage (JStr (str "012345678")) = None
  /\ validateMessage (JStr (replicate (Z.to_nat 5000) 97%N))
     = Some (sanitizeHtml (JStr (trim (replicate (Z.to_nat 5000) 97%N))))
  /\ validateMessage (JStr (replicate (Z.to_nat 5001) 97%N)) = None.
Proof.
  repeat apply conj.
  - destruct (length_check_on_received_value (str "0123456789"))
      as (_ & _ & _ & _ & Hin & _).
    apply Hin. vm_compute. split; discriminate.
  - destruct (length_check_on_received_value (str "012345678"))
      as (_ & _ & _ & _ & _ & Hout).
    apply Hout. left. reflexivity.
  - destruct (length_check_on_received_value
                (replicate (Z.to_nat 5000) 97%N))
      as (_ & _ & _ & _ & Hin & _).
    apply Hin. rewrite length_replicate. lia.
  - destruct (length_check_on_received_value
                (replicate (Z.to_nat 5001) 97%N))
      as (_ & _ & _ & _ & _ & Hout).
    apply Hout. right. rewrite length_replicate. lia.
Defined.

(** C6, as the specification states it, fails: a dot anywhere in the part
    after the at sign is not enough. The five characters [ab@c.] and
    [ab@.c] have one at sign, a non-empty part without white space on each
    side of it and a dot in the second part, and both are rejected. *)
Lemma validateEmail_counterexample :
  claimed_email_condition (trim (str "ab@c."))
  /\ Z.of_nat (length (str "ab@c.")) = 5
  /\ validateEmail (JStr (str "ab@c.")) = None
  /\ claimed_email_condition (trim (str "ab@.c"))
  /\ validateEmail (JStr (str "ab@.c")) = None.
Proof.
  repeat apply conj; try reflexivity.
  - exists (str "ab"), (str "c.").
    repeat apply conj; try done; try compute_done;
      repeat constructor; done.
  - exists (str "ab"), (str ".c").
    repeat apply conj; try done; try compute_done;
      repeat constructor; done.
Qed.

(** C6, amended. [validateEmail] accepts a value exactly when it is a string
    of length 5 to 255 whose trimmed value has the shape [local@head.tail]:
    no white space and exactly one at sign, with [local], [head] and [tail]
    non-empty, so that the part after the at sign holds a dot that is
    neither its first nor its last character. On acceptance it returns the
    trimmed, HTML-escaped value; otherwise it returns null. *)
Theorem validateEmail_accepts_exactly (v : jsval) :
  (forall r,
     validateEmail v = Some r <->
     exists s, v = JStr s /\ 5 <= Z.of_nat (length s) <= 255
               /\ email_shape (trim s)
               /\ r = sanitizeHtml (JStr (trim s)))
  /\ (validateEmail v = None <->
      ~ exists s, v = JStr s /\ 5 <= Z.of_nat (length s) <= 255
                  /\ email_shape (trim s)).
Proof.
  split; [apply validateEmail_some|].
  split.
  - intros Hnone (s & -> & Hlen & Hshape).
    assert (validateEmail (JStr s) = Some (sanitizeHtml (JStr (trim s))))
      as Hsome by (apply validateEmail_some; eauto).
    congruence.
  - intros Hno. destruct (validateEmail v) as [r|] eqn:He; [|done].
    apply validateEmail_some in He as (s & -> & Hlen & Hshape & _).
    destruct Hno. eauto.
Qed.

Lemma validateEmail_accepts_exactly_witness :
  validateEmail (JStr (str "  jane.o'hara@acme.co.uk "))
  = Some (str "jane.o&#x27;hara@acme.co.uk")
  /\ validateEmail (JStr (str "not-an-email")) = None.
Proof.
  split.
  - apply (proj1 (validateEmail_accepts_exactly _)).
    exists (str "  jane.o'hara@acme.co.uk ").
    repeat apply conj; try reflexivity; try done.
    exists (str "jane.o'hara"), (str "acme"), (str "co.uk").
    repeat apply conj; try done; repeat constructor; done.
  - apply (proj2 (validateEmail_accepts_exactly _)).
    intros (s & [= <-] & _ & (l & d1 & d2 & Heq & _)).
    assert (Hat : ch_at ∈ trim (str "not-an-email")).
    { rewrite Heq. apply elem_of_app. right. left. }
    revert Hat. compute_done.
Defined.

(** C7. [validateProducts] rejects every value that is not a non-empty
    array. Of an array it keeps the entries that are one of the two
    whitelisted strings and drops the others without an error of their own;
    when nothing is kept the field is rejected, just as the empty array is;
    otherwise the kept entries are returned, unchanged and in their order. *)
Theorem validateProducts_whitelist :
  (forall v, (forall ps, v <> JArr ps) -> validateProducts v = None)
  /\ validateProducts (JArr []) = None
  /\ (forall p, includes validProducts p = true <->
                p = JStr (str "CBB60") \/ p = JStr (str "CBB61"))
  /\ (forall ps, List.filter (includes validProducts) ps = [] ->
                 validateProducts (JArr ps) = validateProducts (JArr []))
  /\ (forall ps, List.filter (includes validProducts) ps <> [] ->
                 exists rs, validateProducts (JArr ps) = Some rs
                            /\ map JStr rs
                               = List.filter (includes validProducts) ps).
Proof.
  repeat apply conj.
  - intros v Hv. destruct v; try done. by destruct (Hv elems).
  - done.
  - intros p. split; [apply includes_validProducts|].
    by intros [-> | ->].
  - intros ps Hf. by rewrite validateProducts_array, Hf.
  - intros ps Hf. rewrite validateProducts_array.
    destruct (List.filter (includes validProducts) ps) as [|q qs] eqn:Hq;
      [done|].
    eexists. split; [done|].
    rewrite <- Hq. apply sanitizeHtml_whitelisted.
Qed.

Lemma validateProducts_whitelist_witness :
  (exists rs,
     validateProducts
       (JArr [JStr (str "CBB61"); JStr (str "UNKNOWN"); JNum (str "60");
              JStr (str "CBB60")]) = Some rs
     /\ map JStr rs = [JStr (str "CBB61"); JStr (str "CBB60")])
  /\ validateProducts (JArr [JStr (str "UNKNOWN")])
     = validateProducts (JArr []).
Proof.
  split.
  - apply (proj2 (proj2 (proj2 (proj2 validateProducts_whitelist)))
             [JStr (str "CBB61"); JStr (str "UNKNOWN"); JNum (str "60");
              JStr (str "CBB60")]).
    vm_compute. discriminate.
  - apply (proj1 (proj2 (proj2 (proj2 validateProducts_whitelist)))
             [JStr (str "UNKNOWN")]).
    reflexivity.
Defined.

(** C8, as the specification states it, fails: the ampersand of an entity
    is escaped again by a second application. *)
Lemma sanitizeHtml_twice_counterexample :
  sanitizeHtml (JStr (str "<")) = str "&lt;"
  /\ sanitizeHtml (JStr (sanitizeHtml (JStr (str "<")))) = str "&amp;lt;".
Proof. split; reflexivity. Qed.

(** C8, amended. On a string that [sanitizeHtml] has produced, a second
    application leaves the five characters less-than, greater-than, double
    quote, apostrophe and slash alone (none is left) and only replaces every
    ampersand again. So the second application gives the same string exactly
    when the original string holds none of the six characters that
    [sanitizeHtml] replaces, in which case the first application already
    leaves it unchanged. *)
Theorem sanitizeHtml_second_application (s : jsstring) :
  sanitizeHtml (JStr (sanitizeHtml (JStr s)))
  = replaceAll ch_amp (str "&amp;") (sanitizeHtml (JStr s))
  /\ (sanitizeHtml (JStr (sanitizeHtml (JStr s))) = sanitizeHtml (JStr s)
      <-> Forall (fun c => c ∉ special_chars) s)
  /\ (Forall (fun c => c ∉ special_chars) s -> sanitizeHtml (JStr s) = s).
Proof.
  split; [apply sanitizeHtml_twice|].
  split; [apply sanitizeHtml_fixed_iff|apply sanitizeHtml_plain].
Qed.

Lemma sanitizeHtml_second_application_witness :
  sanitizeHtml (JStr (sanitizeHtml (JStr (str "Jane Doe"))))
  = sanitizeHtml (JStr (str "Jane Doe"))
  /\ sanitizeHtml (JStr (str "Jane Doe")) = str "Jane Doe".
Proof.
  assert (H : Forall (fun c => c ∉ special_chars) (str "Jane Doe"))
    by compute_done.
  split.
  - apply (proj1 (proj2 (sanitizeHtml_second_application _))), H.
  - apply (proj2 (proj2 (sanitizeHtml_second_application _))), H.
Defined.

(** ** The monad of the [try] block *)

Lemma bind_ret {A B} (a : A) (k : A -> M B) : bind (ret a) k = k a.
Proof. unfold bind, ret. by destruct (k a). Qed.

Lemma after_pair {A} t t' (r : exn + A) : after t (t', r) = (t ++ t', r).
Proof. done. Qed.

Lemma after_after {A} t t' (m : M A) :
  after t (after t' m) = after (t ++ t') m.
Proof. unfold after. simpl. by rewrite (assoc_L (++)). Qed.

Lemma bind_call {A B} f (validator : jsval -> A) v (k : A -> M B) :
  bind (call f validator v) k = after [EvValidate f v] (k (validator v)).
Proof.
  unfold call, emit, ret, bind, after. simpl. by destruct (k (validator v)).
Qed.

Lemma destructure_fields b :
  b <> JUndefined -> b <> JNull ->
  destructure b =
  ret (field_of b Name, field_of b Company, field_of b Email,
       field_of b Country, field_of b Products, field_of b Message).
Proof.
  intros Hu Hn. unfold destructure, field_of.
  by destruct b.
Qed.

Section PostRequest.
Context (rt : runtime) (env : gmap jsstring jsstring) (req : request).
Context (key to : jsstring).
Hypothesis Hkey : Api.env_get env (str "RESEND_API_KEY") = Some key.
Hypothesis Hto : Api.env_get env (str "TO_EMAIL") = Some to.

Let hs := Api.cors_headers req (Api.getAllowedOrigins env).
Let sender :=
  default (str "noreply@eperscapacitor.com")
    (Api.env_get env (str "FROM_EMAIL")).

Lemma handler_post :
  method req = str "POST" ->
  Api.handler rt env req =
  match Api.try_block rt key to sender hs req with
  | (t, inr r) => {| resp := r; trace := t |}
  | (t, inl _) =>
      {| resp := json hs 500 Api.processing_error; trace := t |}
  end.
Proof.
  intros Hm. unfold Api.handler. rewrite Hkey, Hto, Hm.
  rewrite bool_decide_false by done.
  by rewrite bool_decide_true by done.
Qed.

Lemma try_block_rejected f :
  req_body req <> JUndefined -> req_body req <> JNull ->
  List.find (fun f => rejects f (field_of (req_body req) f))
    fields_in_order = Some f ->
  Api.try_block rt key to sender hs req =
  (validation_trace (req_body req),
   inr (json hs 400 (Api.failure (Api.error_message f)))).
Proof.
  intros Hu Hn Hfind. unfold Api.try_block.
  rewrite destructure_fields, bind_ret by done.
  cbv beta iota. rewrite !bind_call.
  unfold fields_in_order in Hfind. simpl in Hfind.
  repeat match type of Hfind with
         | (if ?c then _ else _) = _ =>
             let E := fresh "E" in
             destruct c eqn:E; [injection Hfind as <-|]
         end; try done;
    repeat match goal with
           | H : falsy_text _ = _ |- _ => rewrite H
           | H : falsy_list _ = _ |- _ => rewrite H
           end; unfold ret; by rewrite !after_pair.
Qed.
End PostRequest.

Lemma bind_throw {A B} (e : exn) (k : A -> M B) :
  bind (throw e) k = throw e.
Proof. done. Qed.

Lemma bind_await {A B} (r : exn + A) (k : A -> M B) :
  bind (await r) k =
  match r with
  | inl e => ([], inl e)
  | inr a => k a
  end.
Proof. destruct r as [e|a]; [done|]. unfold bind, await. by destruct (k a). Qed.

Lemma bind_fetch {B} rt rq (k : upstream_response -> M B) :
  bind (fetch rt rq) k =
  after [EvFetch rq]
    match rt_fetch rt rq with
    | inl e => ([], inl e)
    | inr r => k r
    end.
Proof.
  unfold fetch, emit, await, bind, after. simpl.
  destruct (rt_fetch rt rq) as [e|r]; [done|]. by destruct (k r).
Qed.

Lemma rejects_nullish b f :
  b = JUndefined \/ b = JNull -> rejects f (field_of b f) = true.
Proof. intros [-> | ->]; by destruct f. Qed.

(** C3, as the specification states it, fails: without the mail
    configuration a preflight request is answered 500 with the
    configuration error, not 200 with an empty body. *)
Lemma preflight_counterexample :
  status (resp (Api.handler (runtime_with provider_ok) ∅
                  (request_of "OPTIONS" JUndefined))) = 500%N
  /\ body (resp (Api.handler (runtime_with provider_ok) ∅
                   (request_of "OPTIONS" JUndefined)))
     = Some Api.configuration_error.
Proof. split; reflexivity. Qed.

(** C3, amended. For every request with method OPTIONS: when the mail
    configuration (a non-empty RESEND_API_KEY and a non-empty TO_EMAIL) is
    present the handler answers with status 200 and no body; when one of the
    two is absent it answers with status 500 and the configuration error,
    because the configuration is checked before the method. In both cases no
    validator is called and nothing is sent. *)
Theorem preflight_short_circuit rt env req :
  method req = str "OPTIONS" ->
  (forall key to,
     Api.env_get env (str "RESEND_API_KEY") = Some key ->
     Api.env_get env (str "TO_EMAIL") = Some to ->
     status (resp (Api.handler rt env req)) = 200%N
     /\ body (resp (Api.handler rt env req)) = None
     /\ trace (Api.handler rt env req) = [])
  /\ (Api.env_get env (str "RESEND_API_KEY") = None
      \/ Api.env_get env (str "TO_EMAIL") = None ->
      status (resp (Api.handler rt env req)) = 500%N
      /\ body (resp (Api.handler rt env req)) = Some Api.configuration_error
      /\ trace (Api.handler rt env req) = []).
Proof.
  intros Hm. split.
  - intros key to Hkey Hto. unfold Api.handler.
    rewrite Hkey, Hto, Hm. by rewrite bool_decide_true by done.
  - unfold Api.handler. intros [-> | Hto]; [done|].
    destruct (Api.env_get env (str "RESEND_API_KEY")); [|done].
    by rewrite Hto.
Qed.

Lemma preflight_short_circuit_witness :
  status (resp (Api.handler (runtime_with provider_ok) env_configured
                  (request_of "OPTIONS" body_jane))) = 200%N
  /\ body (resp (Api.handler (runtime_with provider_ok) env_configured
                   (request_of "OPTIONS" body_jane))) = None
  /\ trace (Api.handler (runtime_with provider_ok) env_configured
              (request_of "OPTIONS" body_jane)) = [].
Proof.
  apply (proj1 (preflight_short_circuit (runtime_with provider_ok)
                  env_configured (request_of "OPTIONS" body_jane)
                  eq_refl)
           (str "re_test_key") (str "sales@example.com"));
    reflexivity.
Defined.

(** C4, as the specification states it, fails in the same way: without the
    mail configuration a GET request is answered 500 with the configuration
    error, not 405. *)
Lemma method_gate_counterexample :
  status (resp (Api.handler (runtime_with provider_ok) ∅
                  (request_of "GET" body_jane))) = 500%N
  /\ body (resp (Api.handler (runtime_with provider_ok) ∅
                   (request_of "GET" body_jane)))
     = Some Api.configuration_error.
Proof. split; reflexivity. Qed.

(** C4, amended. For every request whose method is neither POST nor
    OPTIONS, whatever its body: when the mail configuration is present the
    handler answers with status 405 and the method-not-allowed error; when
    it is absent it answers with status 500 and the configuration error. In
    both cases no validator is called and nothing is sent. *)
Theorem method_gate rt env req :
  method req <> str "POST" -> method req <> str "OPTIONS" ->
  (forall key to,
     Api.env_get env (str "RESEND_API_KEY") = Some key ->
     Api.env_get env (str "TO_EMAIL") = Some to ->
     status (resp (Api.handler rt env req)) = 405%N
     /\ body (resp (Api.handler rt env req))
        = Some (obj [(str "error", JStr (str "Method not allowed"))])
     /\ trace (Api.handler rt env req) = [])
  /\ (Api.env_get env (str "RESEND_API_KEY") = None
      \/ Api.env_get env (str "TO_EMAIL") = None ->
      status (resp (Api.handler rt env req)) = 500%N
      /\ body (resp (Api.handler rt env req)) = Some Api.configuration_error
      /\ trace (Api.handler rt env req) = []).
Proof.
  intros Hpost Hopt. split.
  - intros key to Hkey Hto. unfold Api.handler.
    rewrite Hkey, Hto. by rewrite !bool_decide_false by done.
  - unfold Api.handler. intros [-> | Hto]; [done|].
    destruct (Api.env_get env (str "RESEND_API_KEY")); [|done].
    by rewrite Hto.
Qed.

Lemma method_gate_witness :
  status (resp (Api.handler (runtime_with provider_ok) env_configured
                  (request_of "GET" body_jane))) = 405%N
  /\ body (resp (Api.handler (runtime_with provider_ok) env_configured
                   (request_of "GET" body_jane)))
     = Some (obj [(str "error", JStr (str "Method not allowed"))])
  /\ trace (Api.handler (runtime_with provider_ok) env_configured
              (request_of "GET" body_jane)) = [].
Proof.
  apply (proj1 (method_gate (runtime_with provider_ok) env_configured
                  (request_of "GET" body_jane)
                  ltac:(vm_compute; discriminate)
                  ltac:(vm_compute; discriminate))
           (str "re_test_key") (str "sales@example.com"));
    reflexivity.
Defined.

Lemma fields_in_order_complete f : In f fields_in_order.
Proof. destruct f; simpl; tauto. Qed.

Lemma destructure_cases b :
  destructure b = throw (TypeError (CannotDestructure b))
  \/ destructure b =
     ret (field_of b Name, field_of b Company, field_of b Email,
          field_of b Country, field_of b Products, field_of b Message).
Proof.
  destruct b; try (by left); right; by apply destructure_fields.
Qed.

Lemma no_fetch_in_validation_trace b rq : EvFetch rq ∉ validation_trace b.
Proof.
  unfold validation_trace.
  intros (f & Hf & _)%list_elem_of_In%in_map_iff. done.
Qed.

Section OutboundCall.
Context (rt : runtime) (env : gmap jsstring jsstring) (req : request).
Context (key to : jsstring).
Hypothesis Hkey : Api.env_get env (str "RESEND_API_KEY") = Some key.
Hypothesis Hto : Api.env_get env (str "TO_EMAIL") = Some to.

Let hs := Api.cors_headers req (Api.getAllowedOrigins env).
Let sender :=
  default (str "noreply@eperscapacitor.com")
    (Api.env_get env (str "FROM_EMAIL")).

(** The [try] block when no validator result is rejected: one outbound
    call, made with the configured key and recipient, and an exception
    whenever the answer to it is not a success. *)
Lemma try_block_accepted :
  (forall f, rejects f (field_of (req_body req) f) = false) ->
  exists rq r,
    Api.try_block rt key to sender hs req
    = (validation_trace (req_body req) ++ [EvFetch rq], r)
    /\ fr_authorization rq = str "Bearer " ++ key
    /\ em_to (fr_body rq) = [to]
    /\ (forall answer,
          rt_fetch rt rq = inr answer -> up_ok answer = false ->
          exists e, r = inl e).
Proof.
  intros Hall.
  assert (Hu : req_body req <> JUndefined).
  { intros Hb. specialize (Hall Name).
    rewrite rejects_nullish in Hall; [done|by left]. }
  assert (Hn : req_body req <> JNull).
  { intros Hb. specialize (Hall Name).
    rewrite rejects_nullish in Hall; [done|by right]. }
  unfold Api.try_block.
  rewrite destructure_fields, bind_ret by done.
  cbv beta iota. rewrite !bind_call.
  pose proof (Hall Name) as H1. pose proof (Hall Company) as H2.
  pose proof (Hall Email) as H3. pose proof (Hall Country) as H4.
  pose proof (Hall Products) as H5. pose proof (Hall Message) as H6.
  simpl in H1, H2, H3, H4, H5, H6.
  rewrite H1, H2, H3, H4, H5, H6. cbv zeta. rewrite bind_fetch.
  match goal with |- context [rt_fetch rt ?x] => set (rq := x) end.
  rewrite !after_after.
  exists rq.
  destruct (rt_fetch rt rq) as [e|answer] eqn:Hfetch.
  { eexists. split; [done|]. by repeat split. }
  destruct (up_ok answer) eqn:Hok; cbn [negb]; rewrite bind_await.
  - destruct (up_json answer); eexists; (split; [done|]);
      repeat split; intros ? [= <-]; congruence.
  - destruct (up_text answer); eexists; (split; [done|]);
      repeat split; intros ? [= <-] _; eauto.
Qed.

(** Every outbound call of the handler is the one call of an accepted POST:
    it uses the configured key and recipient, and ends in an exception
    whenever the answer to it is not a success. *)
Lemma handler_fetch_inv rq :
  EvFetch rq ∈ trace (Api.handler rt env req) ->
  method req = str "POST"
  /\ fr_authorization rq = str "Bearer " ++ key
  /\ em_to (fr_body rq) = [to]
  /\ exists r,
       Api.try_block rt key to sender hs req
       = (validation_trace (req_body req) ++ [EvFetch rq], r)
       /\ (forall answer,
             rt_fetch rt rq = inr answer -> up_ok answer = false ->
             exists e, r = inl e).
Proof.
  unfold Api.handler. cbv zeta. rewrite Hkey, Hto.
  case_bool_decide as Hopt; [by intros ?%elem_of_nil|].
  case_bool_decide as Hpost; cbn [negb]; [|by intros ?%elem_of_nil].
  destruct (find (fun f => rejects f (field_of (req_body req) f))
              fields_in_order) as [f|] eqn:Hfind.
  - destruct (destructure_cases (req_body req)) as [Hd|Hd].
    + unfold Api.try_block. rewrite Hd, bind_throw.
      by intros ?%elem_of_nil.
    + assert (req_body req <> JUndefined /\ req_body req <> JNull)
        as [Hu Hn].
      { split; intros Hb; rewrite Hb in Hd; discriminate. }
      rewrite (try_block_rejected rt env req key to f Hu Hn Hfind).
      by intros ?%no_fetch_in_validation_trace.
  - fold hs sender.
    destruct try_block_accepted as (rq' & r & Htry & Hauth & Hrcpt & Hfail).
    { intros f.
      apply (find_none _ _ Hfind f (fields_in_order_complete f)). }
    rewrite Htry. intros Hin.
    assert (rq = rq') as ->.
    { assert (Hin' : EvFetch rq ∈ validation_trace (req_body req)
                                  ++ [EvFetch rq']) by by destruct r.
      apply elem_of_app in Hin'
        as [?%no_fetch_in_validation_trace|Hin']; [done|].
      apply list_elem_of_singleton in Hin'. congruence. }
    repeat split; try done. by exists r.
Qed.
End OutboundCall.

(** ** The earlier handler *)

Lemma array_join_strings sep ps :
  Legacy.array_join sep (map JStr ps) = inr (join sep ps).
Proof.
  unfold Legacy.array_join.
  assert (H : Legacy.each
                (fun x => match x with
                          | JUndefined | JNull => inr []
                          | _ => Legacy.ToString x
                          end) (map JStr ps) = inr ps).
  { induction ps as [|p ps IH]; [done|]. simpl. simpl in IH. by rewrite IH. }
  by rewrite H.
Qed.

Lemma legacy_trace_shape rt req :
  trace (Legacy.handler rt req) = []
  \/ exists subject html reply_to,
       trace (Legacy.handler rt req)
       = [EvFetch (legacy_request subject html reply_to)].
Proof.
  unfold Legacy.handler.
  case_bool_decide as Hopt; [by left|].
  case_bool_decide as Hpost; cbn [negb]; [|by left].
  unfold Legacy.try_block.
  destruct (destructure_cases (req_body req)) as [-> | ->].
  { rewrite bind_throw. by left. }
  rewrite bind_ret. cbv beta iota.
  match goal with |- context [if ?c then _ else _] => destruct c end;
    [by left|].
  set (products_list := match field_of (req_body req) Products with
                        | JArr _ => _ | _ => _ end).
  assert (Hpl : (exists e, products_list = ([], inl e))
                \/ exists v, products_list = ret v).
  { unfold products_list.
    destruct (field_of (req_body req) Products); try (right; by eexists).
    rewrite bind_await.
    destruct (Legacy.array_join _ _); [left|right]; by eexists. }
  destruct Hpl as [[e ->]|[v ->]]; [by left|].
  rewrite bind_ret.
  repeat (rewrite bind_await;
          match goal with
          | |- context [match Legacy.ToString ?x with _ => _ end] =>
              destruct (Legacy.ToString x); [by left|]
          end).
  cbv zeta. rewrite bind_fetch. right. do 3 eexists.
  match goal with |- context [rt_fetch rt ?x] => set (rq := x) end.
  destruct (rt_fetch rt rq) as [e|answer]; [reflexivity|].
  destruct (up_ok answer); cbn [negb]; rewrite bind_await.
  - destruct (up_json answer) as [e|data]; [reflexivity|].
    by destruct (get_prop data (str "id")).
  - by destruct (up_text answer).
Qed.

(** C9, as the specification states it, fails at two kinds of body. With
    the body null (or with no body at all) every field is absent, yet the
    response is the generic 500, not a 400: reading the fields throws and
    no validator is called. With a name of spaces only and no company, the
    validator of name does not return null (it returns the empty string)
    and the first validator to return null is that of company, yet the
    response carries the error of name. *)
Lemma first_failure_counterexample :
  status (resp (Api.handler (runtime_with provider_ok) env_configured
                  (request_of "POST" JNull))) = 500%N
  /\ body (resp (Api.handler (runtime_with provider_ok) env_configured
                   (request_of "POST" JNull)))
     = Some Api.processing_error
  /\ trace (Api.handler (runtime_with provider_ok) env_configured
              (request_of "POST" JNull)) = []
  /\ status (resp (Api.handler (runtime_with provider_ok) env_configured
                     (request_of "POST" JUndefined))) = 500%N
  /\ validateName (field_of body_blank_name Name) = Some []
  /\ validateCompany (field_of body_blank_name Company) = None
  /\ resp (Api.handler (runtime_with provider_ok) env_configured
             (request_of "POST" body_blank_name))
     = json (Api.cors_headers (request_of "POST" body_blank_name) [])
         400 (Api.failure (Api.error_message Name))
  /\ Api.error_message Name <> Api.error_message Company.
Proof. repeat apply conj; try reflexivity. vm_compute. discriminate. Qed.

(** C9, amended. For every POST request with the mail configuration
    present: when the body is undefined or null the response is the generic
    500 error and no validator is called; otherwise, when the result of at
    least one validator is null or the empty string (absent fields, fields
    that are not strings and a products value that is not a non-empty array
    all give null; a name, company, country or message of white space only
    gives the empty string), the response has status 400 and carries the
    one error message of the first such field in the order name, company,
    email, country, products, message, the six validators are called and
    nothing is sent. *)
Theorem first_failure_is_reported rt env req key to :
  Api.env_get env (str "RESEND_API_KEY") = Some key ->
  Api.env_get env (str "TO_EMAIL") = Some to ->
  method req = str "POST" ->
  (req_body req = JUndefined \/ req_body req = JNull ->
   resp (Api.handler rt env req)
   = json (Api.cors_headers req (Api.getAllowedOrigins env)) 500
       Api.processing_error
   /\ trace (Api.handler rt env req) = [])
  /\ (forall f,
        req_body req <> JUndefined -> req_body req <> JNull ->
        List.find (fun f => rejects f (field_of (req_body req) f))
          fields_in_order = Some f ->
        resp (Api.handler rt env req)
        = json (Api.cors_headers req (Api.getAllowedOrigins env)) 400
            (Api.failure (Api.error_message f))
        /\ trace (Api.handler rt env req) = validation_trace (req_body req)
        /\ (forall rq, EvFetch rq ∉ trace (Api.handler rt env req))).
Proof.
  intros Hkey Hto Hm.
  rewrite (handler_post rt env req key to Hkey Hto Hm). split.
  - intros Hb. unfold Api.try_block.
    assert (destructure (req_body req)
            = throw (TypeError (CannotDestructure (req_body req)))) as ->
      by (by destruct Hb as [-> | ->]).
    by rewrite bind_throw.
  - intros f Hu Hn Hfind.
    rewrite (try_block_rejected rt env req key to f Hu Hn Hfind).
    split; [done|]. split; [done|].
    intros rq. apply no_fetch_in_validation_trace.
Qed.

Lemma first_failure_is_reported_witness :
  resp (Api.handler (runtime_with provider_ok) env_configured
          (request_of "POST" body_bad_email))
  = json (Api.cors_headers (request_of "POST" body_bad_email)
            (Api.getAllowedOrigins env_configured)) 400
      (Api.failure (Api.error_message Email))
  /\ trace (Api.handler (runtime_with provider_ok) env_configured
              (request_of "POST" body_bad_email))
     = validation_trace body_bad_email
  /\ (forall rq,
        EvFetch rq ∉ trace (Api.handler (runtime_with provider_ok)
                              env_configured
                              (request_of "POST" body_bad_email))).
Proof.
  apply (proj2 (first_failure_is_reported (runtime_with provider_ok)
                  env_configured (request_of "POST" body_bad_email)
                  (str "re_test_key") (str "sales@example.com")
                  eq_refl eq_refl eq_refl) Email);
    try reflexivity; vm_compute; discriminate.
Defined.

(** C5. When the six fields validate, the handler makes one outbound call;
    and whenever the mail provider answers an outbound call of the handler
    with a non-success status, the whole response of the handler is fixed
    by the request and the configuration alone: its headers are the CORS
    headers, its status is 500 and its body is the object with [success]
    false and the generic error text. Nothing of the provider's answer
    (status, status text, headers, body) is in the headers, the status or
    the body of the response, and that call is the only one made. *)
Theorem upstream_failure_is_generic rt env req :
  (forall key to,
     Api.env_get env (str "RESEND_API_KEY") = Some key ->
     Api.env_get env (str "TO_EMAIL") = Some to ->
     method req = str "POST" ->
     (forall f, rejects f (field_of (req_body req) f) = false) ->
     exists rq,
       trace (Api.handler rt env req)
       = validation_trace (req_body req) ++ [EvFetch rq])
  /\ (forall rq answer,
        EvFetch rq ∈ trace (Api.handler rt env req) ->
        rt_fetch rt rq = inr answer -> up_ok answer = false ->
        resp (Api.handler rt env req)
        = {| status := 500;
             res_headers := Api.cors_headers req (Api.getAllowedOrigins env);
             body :=
               Some (obj [(str "success", JBool false);
                          (str "error",
                           JStr (str "An error occurred while processing your request. Please try again later."))]) |}
        /\ trace (Api.handler rt env req)
           = validation_trace (req_body req) ++ [EvFetch rq]).
Proof.
  split.
  - intros key to Hkey Hto Hm Hall.
    destruct (try_block_accepted rt env req key to Hall)
      as (rq & r & Htry & _).
    exists rq. rewrite (handler_post rt env req key to Hkey Hto Hm), Htry.
    by destruct r.
  - intros rq answer Hin Hanswer Hok.
    destruct (Api.env_get env (str "RESEND_API_KEY")) as [key|] eqn:Hkey.
    2: { unfold Api.handler in Hin. rewrite Hkey in Hin.
         by apply elem_of_nil in Hin. }
    destruct (Api.env_get env (str "TO_EMAIL")) as [to|] eqn:Hto.
    2: { unfold Api.handler in Hin. rewrite Hkey, Hto in Hin.
         by apply elem_of_nil in Hin. }
    destruct (handler_fetch_inv rt env req key to Hkey Hto rq Hin)
      as (Hm & _ & _ & r & Htry & Hfail).
    rewrite (handler_post rt env req key to Hkey Hto Hm), Htry.
    by destruct (Hfail answer Hanswer Hok) as [e ->].
Qed.

Lemma upstream_failure_is_generic_witness :
  (exists rq,
     trace (Api.handler (runtime_with provider_refuses) env_configured
              (request_of "POST" body_jane))
     = validation_trace body_jane ++ [EvFetch rq])
  /\ resp (Api.handler (runtime_with provider_refuses) env_configured
             (request_of "POST" body_jane))
     = {| status := 500;
          res_headers :=
            [(str "Access-Control-Allow-Origin", JStr (str "*"));
             (str "Access-Control-Allow-Credentials", JBool true);
             (str "Access-Control-Allow-Methods", JStr allow_methods);
             (str "Access-Control-Allow-Headers", JStr allow_headers)];
          body :=
            Some (obj [(str "success", JBool false);
                       (str "error",
                        JStr (str "An error occurred while processing your request. Please try again later."))]) |}.
Proof.
  destruct (upstream_failure_is_generic (runtime_with provider_refuses)
              env_configured (request_of "POST" body_jane))
    as [Hsend Hgeneric].
  destruct (Hsend (str "re_test_key") (str "sales@example.com")
              eq_refl eq_refl eq_refl ltac:(intros []; reflexivity))
    as (rq & Htrace).
  split; [by exists rq|].
  destruct (Hgeneric rq provider_refuses) as [Hresp _]; [|reflexivity..|].
  - rewrite Htrace. apply elem_of_app. right. left.
  - rewrite Hresp. vm_compute. reflexivity.
Defined.

Lemma legacy_sends_raw rt req name company email country message ps :
  method req = str "POST" ->
  field_of (req_body req) Name = JStr name ->
  field_of (req_body req) Company = JStr company ->
  field_of (req_body req) Email = JStr email ->
  field_of (req_body req) Country = JStr country ->
  field_of (req_body req) Products = JArr (map JStr ps) ->
  field_of (req_body req) Message = JStr message ->
  name <> [] -> company <> [] -> email <> [] -> country <> [] ->
  message <> [] ->
  trace (Legacy.handler rt req)
  = [EvFetch
       (legacy_request
          (str "New Inquiry: " ++ name ++ str " from " ++ company)
          (emailHTML name company email country (join (str ", ") ps)
             message (rt_now rt))
          (JStr email))].
Proof.
  intros Hm Hname Hcompany Hemail Hcountry Hproducts Hmessage
    Nname Ncompany Nemail Ncountry Nmessage.
  unfold Legacy.handler. rewrite Hm.
  rewrite bool_decide_false by done.
  rewrite bool_decide_true by done. cbn [negb].
  unfold Legacy.try_block.
  destruct (destructure_cases (req_body req)) as [Hd|Hd].
  { unfold destructure in Hd. unfold field_of in Hname.
    simpl in Hname. by destruct (req_body req). }
  rewrite Hd, bind_ret. cbv beta iota.
  rewrite Hname, Hcompany, Hemail, Hcountry, Hproducts, Hmessage.
  cbn [Legacy.truthy].
  rewrite !bool_decide_false by done. cbn [negb orb].
  rewrite bind_await, array_join_strings, bind_ret.
  cbn [Legacy.ToString]. rewrite !bind_await. cbv zeta.
  rewrite bind_fetch.
  match goal with |- context [rt_fetch rt ?x] => set (rq := x) end.
  destruct (rt_fetch rt rq) as [e|answer]; [reflexivity|].
  destruct (up_ok answer); cbn [negb]; rewrite bind_await.
  - destruct (up_json answer) as [e|data]; [reflexivity|].
    by destruct (get_prop data (str "id")).
  - by destruct (up_text answer).
Qed.

(** C10. The earlier handler is not equivalent to the one of [api/]:
    - it makes no check beyond the presence of the fields and no
      sanitisation: a POST whose five text fields are non-empty strings and
      whose products field is an array of strings, whatever their content
      and length, is sent as received;
    - there is a request that both handlers accept and for which the
      subject and the HTML body sent by the earlier handler hold the field
      values as received, where those sent by the handler of [api/] hold
      the escaped values;
    - every outbound call of the earlier handler carries the credential,
      the sender and the recipient written in its source, where every
      outbound call of the handler of [api/] carries the key and the
      recipient of the configuration. *)
Theorem legacy_handler_differs :
  (forall rt req name company email country message ps,
     method req = str "POST" ->
     field_of (req_body req) Name = JStr name ->
     field_of (req_body req) Company = JStr company ->
     field_of (req_body req) Email = JStr email ->
     field_of (req_body req) Country = JStr country ->
     field_of (req_body req) Products = JArr (map JStr ps) ->
     field_of (req_body req) Message = JStr message ->
     name <> [] -> company <> [] -> email <> [] -> country <> [] ->
     message <> [] ->
     trace (Legacy.handler rt req)
     = [EvFetch
          (legacy_request
             (str "New Inquiry: " ++ name ++ str " from " ++ company)
             (emailHTML name company email country (join (str ", ") ps)
                message (rt_now rt))
             (JStr email))])
  /\ (let rt := runtime_with provider_ok in
      let req := request_of "POST" body_markup in
      status (resp (Legacy.handler rt req)) = 200%N
      /\ status (resp (Api.handler rt env_configured req)) = 200%N
      /\ trace (Legacy.handler rt req)
         = [EvFetch
              (legacy_request
                 (str "New Inquiry: <b>Jane</b> from Acme & Co")
                 (emailHTML (str "<b>Jane</b>") (str "Acme & Co")
                    (str "jane@acme.com") (str "USA") (str "CBB60")
                    (str "Please send a quote for 50 units.") (rt_now rt))
                 (JStr (str "jane@acme.com")))]
      /\ exists rq,
           trace (Api.handler rt env_configured req)
           = validation_trace body_markup ++ [EvFetch rq]
           /\ em_subject (fr_body rq)
              = str "New Inquiry: &lt;b&gt;Jane&lt;&#x2F;b&gt; from Acme &amp; Co"
           /\ em_html (fr_body rq)
              = emailHTML (str "&lt;b&gt;Jane&lt;&#x2F;b&gt;")
                  (str "Acme &amp; Co") (str "jane@acme.com") (str "USA")
                  (str "CBB60") (str "Please send a quote for 50 units.")
                  (rt_now rt))
  /\ (forall rt req rq,
        EvFetch rq ∈ trace (Legacy.handler rt req) ->
        fr_authorization rq
        = str "Bearer re_Wb6wExws_6bZtSDtaNp85tJTZt7Q8apVm"
        /\ em_from (fr_body rq)
           = str "Motor Run Capacitor <noreply@eperscapacitor.com>"
        /\ em_to (fr_body rq) = [str "sales@eperscapacitor.com"])
  /\ (forall rt env req rq,
        EvFetch rq ∈ trace (Api.handler rt env req) ->
        exists key to,
          Api.env_get env (str "RESEND_API_KEY") = Some key
          /\ Api.env_get env (str "TO_EMAIL") = Some to
          /\ fr_authorization rq = str "Bearer " ++ key
          /\ em_to (fr_body rq) = [to]).
Proof.
  split; [exact legacy_sends_raw|].
  split.
  { cbv zeta. repeat apply conj; try (vm_compute; reflexivity).
    eexists {| fr_url := _ |}. cbn [fr_body em_subject em_html].
    repeat apply conj; vm_compute; reflexivity. }
  split.
  - intros rt req rq Hin.
    destruct (legacy_trace_shape rt req) as [Hnil|(s & h & r & Hone)].
    + rewrite Hnil in Hin. by apply elem_of_nil in Hin.
    + rewrite Hone in Hin. apply list_elem_of_singleton in Hin.
      by injection Hin as ->.
  - intros rt env req rq Hin.
    destruct (Api.env_get env (str "RESEND_API_KEY")) as [key|] eqn:Hkey.
    2: { unfold Api.handler in Hin. rewrite Hkey in Hin.
         by apply elem_of_nil in Hin. }
    destruct (Api.env_get env (str "TO_EMAIL")) as [to|] eqn:Hto.
    2: { unfold Api.handler in Hin. rewrite Hkey, Hto in Hin.
         by apply elem_of_nil in Hin. }
    exists key, to. split; [done|]. split; [done|].
    by destruct (handler_fetch_inv rt env req key to Hkey Hto rq Hin)
      as (_ & ? & ? & _).
Qed.

(** * Further properties of the two handlers *)

(** ** String operations *)

Lemma startsWith_nil s : startsWith s [] = true.
Proof. by destruct s. Qed.

Lemma startsWith_prefix s p :
  startsWith s p = true <-> exists rest, s = p ++ rest.
Proof.
  revert s. induction p as [|a p IH]; intros s.
  - rewrite startsWith_nil. split; [intros _; by exists s|done].
  - destruct s as [|b s]; simpl.
    + split; [done|by intros (? & ?)].
    + rewrite andb_true_iff, N.eqb_eq, IH. split.
      * intros (-> & rest & ->). by exists rest.
      * intros (rest & [= -> ->]). split; [done|by exists rest].
Qed.

Lemma endsWith_suffix s p :
  endsWith s p = true <-> exists front, s = front ++ p.
Proof.
  unfold endsWith. rewrite startsWith_prefix. split.
  - intros (rest & Hrev). exists (rev rest).
    apply (f_equal (@rev N)) in Hrev.
    by rewrite rev_involutive, rev_app_distr, rev_involutive in Hrev.
  - intros (front & ->). exists (rev front). by rewrite rev_app_distr.
Qed.

Lemma includes_str_infix s p :
  includes_str s p = true <-> exists a b, s = a ++ p ++ b.
Proof.
  induction s as [|x s IH].
  - cbn [includes_str]. rewrite orb_false_r, startsWith_prefix. split.
    + intros (rest & ->). by exists [], rest.
    + intros (a & b & Heq). destruct a; [by exists b|done].
  - cbn [includes_str]. rewrite orb_true_iff, startsWith_prefix, IH. split.
    + intros [(rest & ->)|(a & b & ->)]; [by exists [], rest|].
      by exists (x :: a), b.
    + intros (a & b & Heq). destruct a as [|y a].
      * left. by exists b.
      * right. injection Heq as -> ->. by exists a, b.
Qed.

Lemma removelast_snoc (p : jsstring) c : removelast (p ++ [c]) = p.
Proof. apply removelast_last. Qed.

Lemma split_nonempty c s : split c s <> [].
Proof.
  destruct s as [|x s]; simpl; [done|].
  destruct (N.eqb x c); [done|]. by destruct (split c s).
Qed.

Lemma join_cons sep p q ps :
  join sep (p :: q :: ps) = p ++ sep ++ join sep (q :: ps).
Proof. done. Qed.

Lemma join_split c s : join [c] (split c s) = s.
Proof.
  induction s as [|x s IH]; [done|]. simpl.
  destruct (N.eqb_spec x c) as [->|Hx].
  - pose proof (split_nonempty c s).
    destruct (split c s) as [|w ws]; [done|].
    rewrite join_cons. simpl. by rewrite <- IH.
  - destruct (split c s) as [|w ws] eqn:Hs; [by destruct (split_nonempty c s)|].
    destruct ws as [|w' ws].
    + simpl in *. by rewrite IH.
    + rewrite join_cons. rewrite join_cons in IH. simpl. by rewrite <- IH.
Qed.

Lemma split_no_separator c s : Forall (fun w => c ∉ w) (split c s).
Proof.
  induction s as [|x s IH]; simpl.
  - constructor; [apply not_elem_of_nil|constructor].
  - destruct (N.eqb_spec x c) as [->|Hx].
    + constructor; [apply not_elem_of_nil|done].
    + destruct (split c s) as [|w ws]; [repeat constructor|].
      * by intros [->|?%elem_of_nil]%elem_of_cons.
      * inversion IH as [|? ? Hw Hws]; subst. constructor; [|done].
        by intros [->|?]%elem_of_cons.
Qed.

Lemma split_length c s :
  length (split c s) = S (length (List.filter (N.eqb c) s)).
Proof.
  induction s as [|x s IH]; [done|]. simpl.
  rewrite (N.eqb_sym c x).
  destruct (N.eqb x c); simpl; [by rewrite IH|].
  destruct (split c s) as [|w ws]; [done|]. done.
Qed.

Lemma trimStart_spaces s : all_space s -> trimStart s = [].
Proof.
  induction 1 as [|c s Hc _ IH]; [done|]. simpl. by rewrite Hc.
Qed.

Lemma trimStart_app_spaces a s :
  all_space a -> trimStart (a ++ s) = trimStart s.
Proof.
  induction 1 as [|c a Hc _ IH]; [done|]. simpl. by rewrite Hc.
Qed.

Lemma trimStart_head c s : is_space c = false -> trimStart (c :: s) = c :: s.
Proof. intros Hc. simpl. by rewrite Hc. Qed.

Lemma trimStart_split s :
  exists a, s = a ++ trimStart s /\ all_space a
            /\ (trimStart s = []
                \/ exists c t, trimStart s = c :: t /\ is_space c = false).
Proof.
  induction s as [|c s (a & Heq & Ha & Hhead)].
  - exists []. repeat split; [constructor|by left].
  - simpl. destruct (is_space c) eqn:Hc.
    + exists (c :: a). split; [by rewrite Heq at 1|].
      split; [by constructor|done].
    + exists []. repeat split; [constructor|]. right. by exists c, s.
Qed.

Lemma trimEnd_snoc_spaces s b : all_space b -> trimEnd (s ++ b) = trimEnd s.
Proof.
  intros Hb. unfold trimEnd. rewrite rev_app_distr.
  rewrite trimStart_app_spaces; [done|].
  unfold all_space. apply Forall_forall. intros x Hx.
  apply list_elem_of_In, in_rev, list_elem_of_In in Hx.
  unfold all_space in Hb. rewrite Forall_forall in Hb. by apply Hb.
Qed.

Lemma trimEnd_last s c : is_space c = false -> trimEnd (s ++ [c]) = s ++ [c].
Proof.
  intros Hc. unfold trimEnd. rewrite rev_app_distr. simpl.
  rewrite Hc. simpl. by rewrite rev_involutive.
Qed.

Lemma trimEnd_nil : trimEnd [] = [].
Proof. done. Qed.

Lemma trim_framed a m b :
  all_space a -> all_space b -> trimmed m -> trim (a ++ m ++ b) = m.
Proof.
  intros Ha Hb Hm. unfold trim. rewrite trimStart_app_spaces by done.
  destruct Hm as [->|[(c & t & -> & Hc) (t' & c' & Heq & Hc')]].
  - simpl. rewrite trimStart_spaces by done. done.
  - change ((c :: t) ++ b) with (c :: (t ++ b)).
    rewrite trimStart_head by done.
    change (c :: t ++ b) with ((c :: t) ++ b).
    rewrite trimEnd_snoc_spaces by done.
    rewrite Heq. by apply trimEnd_last.
Qed.

Lemma trimEnd_split s :
  exists b, s = trimEnd s ++ b /\ all_space b
            /\ (trimEnd s = []
                \/ exists t c, trimEnd s = t ++ [c] /\ is_space c = false).
Proof.
  destruct (trimStart_split (rev s)) as (a & Heq & Ha & Hhead).
  exists (rev a). unfold trimEnd. split.
  { rewrite <- rev_app_distr, <- Heq. by rewrite rev_involutive. }
  split.
  { apply Forall_forall. intros x Hx.
    apply list_elem_of_In, in_rev, list_elem_of_In in Hx.
    unfold all_space in Ha. rewrite Forall_forall in Ha. by apply Ha. }
  destruct Hhead as [->|(c & t & -> & Hc)]; [by left|].
  right. exists (rev t), c. by simpl.
Qed.

Lemma trim_split s :
  exists a b, s = a ++ trim s ++ b /\ all_space a /\ all_space b
              /\ trimmed (trim s).
Proof.
  destruct (trimStart_split s) as (a & Heq & Ha & Hhead).
  destruct (trimEnd_split (trimStart s)) as (b & Heq' & Hb & Hlast).
  exists a, b. unfold trim. split; [by rewrite <- Heq'|].
  split; [done|]. split; [done|].
  destruct Hlast as [Hnil|(t & c & Hl & Hc)]; [by left|].
  right. split; [|by exists t, c].
  destruct Hhead as [Hnil|(c0 & t0 & Hh & Hc0)].
  { rewrite Hnil in Hl. simpl in Hl. by destruct t. }
  rewrite Hl in Heq'. rewrite Hh in Heq'.
  destruct t as [|x t]; simpl in *.
  - injection Heq' as -> _. by exists c, [].
  - injection Heq' as -> _. rewrite Hl. by exists x, (t ++ [c]).
Qed.

Lemma trim_idempotent s : trim (trim s) = trim s.
Proof.
  destruct (trim_split s) as (a & b & _ & _ & _ & Hm).
  rewrite <- (app_nil_r (trim s)) at 1.
  change (trim s ++ []) with ([] ++ trim s ++ []).
  apply trim_framed; [constructor|constructor|done].
Qed.

Lemma trim_empty_iff s : trim s = [] <-> all_space s.
Proof.
  split.
  - intros Hnil. destruct (trim_split s) as (a & b & Heq & Ha & Hb & _).
    rewrite Hnil in Heq. rewrite Heq. simpl. by apply Forall_app.
  - intros Hs. rewrite <- (app_nil_r s).
    change (s ++ []) with (s ++ [] ++ []).
    apply trim_framed; [done|constructor|by left].
Qed.

Lemma trim_length s : (length (trim s) <= length s)%nat.
Proof.
  destruct (trim_split s) as (a & b & Heq & _).
  rewrite Heq at 2. rewrite !length_app. lia.
Qed.

(** ** More on escaping *)

Lemma escape_injective c d x y :
  escape c ++ x = escape d ++ y -> c = d /\ x = y.
Proof.
  unfold escape.
  repeat match goal with
         | |- context [N.eqb ?a ?b] => destruct (N.eqb_spec a b)
         end; subst; intros Heq; simplify_eq/=; done.
Qed.

Lemma escape_length_max c : (length (escape c) <= 6)%nat.
Proof.
  unfold escape.
  repeat match goal with
         | |- context [N.eqb ?a ?b] => destruct (N.eqb a b)
         end; vm_compute; lia.
Qed.

Lemma sanitizeHtml_length_max s :
  (length (sanitizeHtml (JStr s)) <= 6 * length s)%nat.
Proof.
  induction s as [|c s IH]; [done|].
  rewrite sanitizeHtml_cons, length_app. pose proof (escape_length_max c).
  simpl. lia.
Qed.

Lemma sanitizeHtml_empty_iff s : sanitizeHtml (JStr s) = [] <-> s = [].
Proof.
  split; [|by intros ->].
  intros Hnil. pose proof (sanitizeHtml_length s) as Hlen.
  rewrite Hnil in Hlen. destruct s; [done|simpl in Hlen; lia].
Qed.

(** X1. [sanitizeHtml] loses nothing: two strings with the same escaped
    form are the same string. *)
Theorem sanitizeHtml_injective s t :
  sanitizeHtml (JStr s) = sanitizeHtml (JStr t) <-> s = t.
Proof.
  split; [|by intros ->].
  revert t. induction s as [|c s IH]; intros t.
  - rewrite sanitizeHtml_nil. intros Heq. symmetry in Heq.
    by apply (proj1 (sanitizeHtml_empty_iff _)) in Heq as ->.
  - destruct t as [|d t].
    + rewrite sanitizeHtml_nil. intros Heq.
      by apply (proj1 (sanitizeHtml_empty_iff _)) in Heq.
    + rewrite !sanitizeHtml_cons.
      intros [-> Heq]%escape_injective. f_equal. by apply IH.
Qed.

(** X2. Escaping goes piece by piece and grows a string by a factor of six
    at most. *)
Theorem sanitizeHtml_pieces_and_size s t :
  sanitizeHtml (JStr (s ++ t))
  = sanitizeHtml (JStr s) ++ sanitizeHtml (JStr t)
  /\ (length s <= length (sanitizeHtml (JStr s)) <= 6 * length s)%nat.
Proof.
  split; [apply sanitizeHtml_app|].
  split; [apply sanitizeHtml_length|apply sanitizeHtml_length_max].
Qed.

(** ** What the handler accepts *)

Lemma falsy_text_some r : falsy_text (Some r) = false <-> r <> [].
Proof. by destruct r. Qed.

Lemma text_validator_accepts validate lo hi :
  (forall v, validate v =
             if negb (isValidLength v lo hi) then None
             else Some (sanitizeHtml (JStr (trim_of v)))) ->
  forall v,
    falsy_text (validate v) = false <->
    exists s, v = JStr s /\ lo <= Z.of_nat (length s) <= hi
              /\ ~ all_space s.
Proof.
  intros Hdef v. rewrite Hdef. split.
  - destruct v as [| | | |s| |]; try done.
    rewrite isValidLength_str. case_bool_decide as Hlen; [|done].
    cbn [negb trim_of]. rewrite falsy_text_some.
    rewrite sanitizeHtml_empty_iff, trim_empty_iff. by exists s.
  - intros (s & -> & Hlen & Hs).
    rewrite isValidLength_str, bool_decide_true by done.
    cbn [negb trim_of]. rewrite falsy_text_some.
    by rewrite sanitizeHtml_empty_iff, trim_empty_iff.
Qed.

Lemma email_shape_length t : email_shape t -> 5 <= Z.of_nat (length t).
Proof.
  intros (l & d1 & d2 & -> & Hl & Hd1 & Hd2 & _).
  destruct l, d1, d2; try done.
  rewrite !length_app. simpl. rewrite !length_app. simpl. lia.
Qed.

Lemma validateEmail_accepts v :
  falsy_text (validateEmail v) = false <->
  exists s, v = JStr s /\ 5 <= Z.of_nat (length s) <= 255
            /\ email_shape (trim s).
Proof.
  split.
  - destruct (validateEmail v) as [r|] eqn:He; [|done].
    apply validateEmail_some in He as (s & -> & Hlen & Hshape & _).
    intros _. by exists s.
  - intros (s & -> & Hlen & Hshape).
    assert (validateEmail (JStr s) = Some (sanitizeHtml (JStr (trim s))))
      as -> by (apply validateEmail_some; eauto).
    apply falsy_text_some. rewrite sanitizeHtml_empty_iff.
    apply email_shape_length in Hshape. by destruct (trim s).
Qed.

Lemma validateProducts_accepts v :
  falsy_list (validateProducts v) = false <->
  exists ps, v = JArr ps
             /\ Exists (fun p => p = JStr (str "CBB60")
                                 \/ p = JStr (str "CBB61")) ps.
Proof.
  split.
  - destruct v as [| | | | |ps|]; try done.
    rewrite validateProducts_array.
    destruct (List.filter (includes validProducts) ps) as [|q qs] eqn:Hf;
      [done|].
    intros _. exists ps. split; [done|].
    assert (Hq : In q (List.filter (includes validProducts) ps))
      by (rewrite Hf; by left).
    apply filter_In in Hq as [Hin Hq%includes_validProducts].
    apply Exists_exists. exists q. split; [by apply list_elem_of_In|done].
  - intros (ps & -> & Hex). rewrite validateProducts_array.
    apply Exists_exists in Hex as (p & Hin & Hp).
    assert (Hq : In p (List.filter (includes validProducts) ps)).
    { apply filter_In. split; [by apply list_elem_of_In|].
      by destruct Hp as [-> | ->]. }
    by destruct (List.filter (includes validProducts) ps).
Qed.

(** X3. What the handler accepts, field by field: a text field must be a
    string whose received length is within the bounds and that is not made
    of white space only; the email must moreover have the shape of
    [emailRegex] once trimmed; products must be an array with at least one
    whitelisted entry. *)
Theorem handler_accepts_exactly (v : jsval) :
  (rejects Name v = false <->
   exists s, v = JStr s /\ 1 <= Z.of_nat (length s) <= 100
             /\ ~ all_space s)
  /\ (rejects Company v = false <->
      exists s, v = JStr s /\ 1 <= Z.of_nat (length s) <= 200
                /\ ~ all_space s)
  /\ (rejects Email v = false <->
      exists s, v = JStr s /\ 5 <= Z.of_nat (length s) <= 255
                /\ email_shape (trim s))
  /\ (rejects Country v = false <->
      exists s, v = JStr s /\ 1 <= Z.of_nat (length s) <= 100
                /\ ~ all_space s)
  /\ (rejects Products v = false <->
      exists ps, v = JArr ps
                 /\ Exists (fun p => p = JStr (str "CBB60")
                                     \/ p = JStr (str "CBB61")) ps)
  /\ (rejects Message v = false <->
      exists s, v = JStr s /\ 10 <= Z.of_nat (length s) <= 5000
                /\ ~ all_space s).
Proof.
  split; [by apply (text_validator_accepts validateName 1 100)|].
  split; [by apply (text_validator_accepts validateCompany 1 200)|].
  split; [apply validateEmail_accepts|].
  split; [by apply (text_validator_accepts validateCountry 1 100)|].
  split; [apply validateProducts_accepts|].
  by apply (text_validator_accepts validateMessage 10 5000).
Qed.

(** X4. White space around a value does not change what a validator
    returns for it, as long as the received length passes the check: the
    received value and its trimmed form are validated alike. *)
Theorem validators_ignore_surrounding_space (s : jsstring) :
  trim s <> [] ->
  (Z.of_nat (length s) <= 100 ->
   validateName (JStr s) = validateName (JStr (trim s)))
  /\ (Z.of_nat (length s) <= 200 ->
      validateCompany (JStr s) = validateCompany (JStr (trim s)))
  /\ (Z.of_nat (length s) <= 255 -> isValidEmail (trim s) = true ->
      validateEmail (JStr s) = validateEmail (JStr (trim s)))
  /\ (Z.of_nat (length s) <= 100 ->
      validateCountry (JStr s) = validateCountry (JStr (trim s)))
  /\ (Z.of_nat (length s) <= 5000 -> 10 <= Z.of_nat (length (trim s)) ->
      validateMessage (JStr s) = validateMessage (JStr (trim s))).
Proof.
  intros Hne. pose proof (trim_length s) as Hlen.
  assert (1 <= Z.of_nat (length (trim s))) as Hone
    by (destruct (trim s); [done|simpl; lia]).
  repeat apply conj.
  - intros Hs.
    rewrite (proj1 (text_validator_spec validateName 1 100 ltac:(done)
                      s)) by lia.
    rewrite (proj1 (text_validator_spec validateName 1 100 ltac:(done)
                      (trim s)))
      by lia.
    by rewrite trim_idempotent.
  - intros Hs.
    rewrite (proj1 (text_validator_spec validateCompany 1 200 ltac:(done)
                      s)) by lia.
    rewrite (proj1 (text_validator_spec validateCompany 1 200 ltac:(done)
                      (trim s)))
      by lia.
    by rewrite trim_idempotent.
  - intros Hs Hvalid.
    pose proof (email_shape_length _ (proj1 (isValidEmail_shape _) Hvalid)).
    rewrite !validateEmail_str, trim_idempotent, Hvalid.
    rewrite !bool_decide_true by lia. done.
  - intros Hs.
    rewrite (proj1 (text_validator_spec validateCountry 1 100 ltac:(done)
                      s)) by lia.
    rewrite (proj1 (text_validator_spec validateCountry 1 100 ltac:(done)
                      (trim s)))
      by lia.
    by rewrite trim_idempotent.
  - intros Hs Hten.
    rewrite (proj1 (text_validator_spec validateMessage 10 5000 ltac:(done)
                      s)) by lia.
    rewrite (proj1 (text_validator_spec validateMessage 10 5000 ltac:(done)
                      (trim s)))
      by lia.
    by rewrite trim_idempotent.
Qed.

Lemma validators_ignore_surrounding_space_witness :
  validateName (JStr (str "  Jane Doe "))
  = validateName (JStr (trim (str "  Jane Doe ")))
  /\ validateEmail (JStr (str " jane@acme.com  "))
     = validateEmail (JStr (trim (str " jane@acme.com  "))).
Proof.
  split.
  - destruct (validators_ignore_surrounding_space (str "  Jane Doe ")
                ltac:(vm_compute; discriminate)) as (H & _).
    apply H. vm_compute. discriminate.
  - destruct (validators_ignore_surrounding_space (str " jane@acme.com  ")
                ltac:(vm_compute; discriminate)) as (_ & _ & H & _).
    apply H; [vm_compute; discriminate|reflexivity].
Defined.

(** ** The allow-list of origins *)

Lemma env_get_cases env k :
  (Api.env_get env k = None /\ (env !! k = None \/ env !! k = Some []))
  \/ (exists s, s <> [] /\ env !! k = Some s /\ Api.env_get env k = Some s).
Proof.
  unfold Api.env_get. destruct (env !! k) as [[|c s]|].
  - left. split; [done|by right].
  - right. by exists (c :: s).
  - left. split; [done|by left].
Qed.

Lemma entry_admits origin allowed :
  (if bool_decide (allowed = str "*") then true
   else if endsWith allowed (str "*") then
          startsWith origin (removelast allowed)
        else bool_decide (origin = allowed)) = true
  <-> admits origin allowed.
Proof.
  unfold admits. case_bool_decide as Hstar; [by split; [left|]|].
  destruct (endsWith allowed (str "*")) eqn:Hends.
  - apply endsWith_suffix in Hends as (front & ->).
    change (str "*") with [42%N]. rewrite removelast_snoc.
    change [42%N] with (str "*"). rewrite startsWith_prefix. split.
    + intros (rest & ->). right. left. by exists front, rest.
    + intros [?|[(p & rest & Heq & ->)| ->]]; [done| |].
      * apply app_inj_tail in Heq as [-> _]. by exists rest.
      * by exists (str "*").
  - rewrite bool_decide_eq_true. split; [by right; right|].
    intros [?|[(p & rest & -> & _)|?]]; [done| |done].
    assert (endsWith (p ++ str "*") (str "*") = true) as Htrue
      by (apply endsWith_suffix; by exists p).
    congruence.
Qed.

Lemma isOriginAllowed_admits origin allowedOrigins :
  Api.isOriginAllowed origin allowedOrigins = true
  <-> allowedOrigins = [] \/ Exists (admits origin) allowedOrigins.
Proof.
  unfold Api.isOriginAllowed. case_bool_decide as Hlen.
  - split; [|done]. intros _. left. by destruct allowedOrigins.
  - rewrite existsb_exists, Exists_exists. split.
    + intros (a & Hin & Ha). right. exists a.
      split; [by apply list_elem_of_In|by apply entry_admits].
    + intros [->|(a & Hin & Ha)]; [done|]. exists a.
      split; [by apply list_elem_of_In|by apply entry_admits].
Qed.

(** X5. [isOriginAllowed] allows an origin exactly when the allow-list is
    empty or one of its entries admits the origin: the entry is a lone
    star, or ends with a star and the origin starts with the rest of it, or
    equals the origin. *)
Theorem isOriginAllowed_exactly origin allowedOrigins :
  Api.isOriginAllowed origin allowedOrigins = true
  <-> allowedOrigins = [] \/ Exists (admits origin) allowedOrigins.
Proof. apply isOriginAllowed_admits. Qed.

Lemma trim_is_trimmed s : trimmed (trim s).
Proof. by destruct (trim_split s) as (a & b & _ & _ & _ & ?). Qed.

(** X6. [getAllowedOrigins] gives no entry when ALLOWED_ORIGINS is unset or
    empty. Otherwise it gives the pieces between the commas of the
    variable, each trimmed: one entry more than there are commas, so never
    an empty list, and an empty piece gives an empty entry. *)
Theorem getAllowedOrigins_entries (env : gmap jsstring jsstring) :
  (env !! str "ALLOWED_ORIGINS" = None
   \/ env !! str "ALLOWED_ORIGINS" = Some [] ->
   Api.getAllowedOrigins env = [])
  /\ (forall s,
        env !! str "ALLOWED_ORIGINS" = Some s -> s <> [] ->
        exists pieces,
          join (str ",") pieces = s
          /\ Forall (fun w => ch_comma ∉ w) pieces
          /\ Api.getAllowedOrigins env = map trim pieces
          /\ length (Api.getAllowedOrigins env)
             = S (length (List.filter (N.eqb ch_comma) s))
          /\ Forall trimmed (Api.getAllowedOrigins env)).
Proof.
  unfold Api.getAllowedOrigins, Api.env_get. split.
  - by intros [-> | ->].
  - intros s -> Hs. destruct s as [|c s]; [done|].
    exists (split ch_comma (c :: s)).
    split; [apply join_split|]. split; [apply split_no_separator|].
    split; [done|]. split.
    + by rewrite length_map, split_length.
    + apply Forall_forall. intros e He.
      apply list_elem_of_In, in_map_iff in He as (w & <- & _).
      apply trim_is_trimmed.
Qed.

Lemma getAllowedOrigins_entries_witness :
  exists pieces,
    join (str ",") pieces = str "https://a.example, ,https://b.example/*"
    /\ Forall (fun w => ch_comma ∉ w) pieces
    /\ Api.getAllowedOrigins
         {[ str "ALLOWED_ORIGINS"
            := str "https://a.example, ,https://b.example/*" ]}
       = map trim pieces
    /\ length (Api.getAllowedOrigins
                 {[ str "ALLOWED_ORIGINS"
                    := str "https://a.example, ,https://b.example/*" ]})
       = S (length (List.filter (N.eqb ch_comma)
                      (str "https://a.example, ,https://b.example/*")))
    /\ Forall trimmed
         (Api.getAllowedOrigins
            {[ str "ALLOWED_ORIGINS"
               := str "https://a.example, ,https://b.example/*" ]}).
Proof.
  apply (proj2 (getAllowedOrigins_entries
                  {[ str "ALLOWED_ORIGINS"
                     := str "https://a.example, ,https://b.example/*" ]})).
  - reflexivity.
  - vm_compute. discriminate.
Defined.

(** X7. The CORS headers. Credentials, methods and headers are always the
    same three. With an empty allow-list the allowed origin is the origin of
    the request, or the star when the request has none. With a non-empty
    allow-list the allowed origin is the origin of the request when an
    entry admits it, and no header allows an origin otherwise: the star is
    no fallback then. *)
Theorem cors_headers_rule (req : request) (allowedOrigins : list jsstring) :
  let hs := Api.cors_headers req allowedOrigins in
  let origin := default [] (req_headers req !! str "origin") in
  (exists first,
     hs = first
          ++ [(str "Access-Control-Allow-Credentials", JBool true);
              (str "Access-Control-Allow-Methods", JStr allow_methods);
              (str "Access-Control-Allow-Headers", JStr allow_headers)]
     /\ (first = []
         \/ exists v, first = [(str "Access-Control-Allow-Origin", v)]))
  /\ (allowedOrigins = [] ->
      allow_origin hs
      = Some (JStr (if bool_decide (origin = []) then str "*" else origin)))
  /\ (allowedOrigins <> [] ->
      (origin <> [] /\ Exists (admits origin) allowedOrigins ->
       allow_origin hs = Some (JStr origin))
      /\ (origin = [] \/ ~ Exists (admits origin) allowedOrigins ->
          allow_origin hs = None)).
Proof.
  cbv zeta. unfold Api.cors_headers.
  destruct (req_headers req !! str "origin") as [[|c o]|]; cbn [default].
  - split.
    { eexists. split; [done|]. case_bool_decide; [right|left]; eauto. }
    split; [by intros ->|]. intros Hne.
    rewrite bool_decide_false by by destruct allowedOrigins.
    split; [by intros [? _]|done].
  - pose proof (isOriginAllowed_admits (c :: o) allowedOrigins) as Hiff.
    destruct (Api.isOriginAllowed (c :: o) allowedOrigins) eqn:Hallowed.
    + split; [eexists; split; [done|right; eauto]|].
      split; [done|]. intros Hne. split; [done|].
      intros [?|Hno]; [done|]. destruct Hno.
      by destruct (proj1 Hiff eq_refl).
    + assert (Hne : allowedOrigins <> [] /\
                    ~ Exists (admits (c :: o)) allowedOrigins).
      { destruct Hiff as [_ Hback].
        split; intros H; [discriminate (Hback (or_introl H))|].
        discriminate (Hback (or_intror H)). }
      destruct Hne as [Hne Hno].
      rewrite bool_decide_false by by destruct allowedOrigins.
      split; [eexists; split; [done|by left]|].
      split; [done|]. intros _. split; [by intros [_ ?]|done].
  - split.
    { eexists. split; [done|]. case_bool_decide; [right|left]; eauto. }
    split; [by intros ->|]. intros Hne.
    rewrite bool_decide_false by by destruct allowedOrigins.
    split; [by intros [? _]|done].
Qed.

Section ApiCases.
Context (rt : runtime) (env : gmap jsstring jsstring) (req : request).
Context (key to : jsstring).
Hypothesis Hkey : Api.env_get env (str "RESEND_API_KEY") = Some key.
Hypothesis Hto : Api.env_get env (str "TO_EMAIL") = Some to.

Let hs := Api.cors_headers req (Api.getAllowedOrigins env).
Let sender :=
  default (str "noreply@eperscapacitor.com")
    (Api.env_get env (str "FROM_EMAIL")).

Lemma try_block_sends :
  (forall f, rejects f (field_of (req_body req) f) = false) ->
  Api.try_block rt key to sender hs req
  = (validation_trace (req_body req)
     ++ [EvFetch (api_request_of rt env key to (req_body req))],
     after_fetch hs
       (rt_fetch rt (api_request_of rt env key to (req_body req)))).
Proof.
  intros Hall.
  assert (Hu : req_body req <> JUndefined).
  { intros Hb. specialize (Hall Name).
    rewrite rejects_nullish in Hall; [done|by left]. }
  assert (Hn : req_body req <> JNull).
  { intros Hb. specialize (Hall Name).
    rewrite rejects_nullish in Hall; [done|by right]. }
  unfold Api.try_block.
  rewrite destructure_fields, bind_ret by done.
  cbv beta iota. rewrite !bind_call.
  pose proof (Hall Name) as H1. pose proof (Hall Company) as H2.
  pose proof (Hall Email) as H3. pose proof (Hall Country) as H4.
  pose proof (Hall Products) as H5. pose proof (Hall Message) as H6.
  simpl in H1, H2, H3, H4, H5, H6.
  rewrite H1, H2, H3, H4, H5, H6. cbv zeta. rewrite bind_fetch.
  rewrite !after_after.
  change {| fr_url := resend_url; fr_method := _; fr_authorization := _;
            fr_content_type := _; fr_body := _ |}
    with (api_request_of rt env key to (req_body req)).
  unfold after_fetch.
  destruct (rt_fetch rt _) as [e|answer]; [done|].
  destruct (up_ok answer); cbn [negb]; rewrite bind_await.
  - by destruct (up_json answer).
  - by destruct (up_text answer).
Qed.

(** The five ways in which a request ends once the configuration is
    there. *)
Lemma handler_cases :
  (method req = str "OPTIONS"
   /\ Api.handler rt env req = {| resp := end_ hs 200; trace := [] |})
  \/ (method req <> str "OPTIONS" /\ method req <> str "POST"
      /\ Api.handler rt env req
         = {| resp := json hs 405
                        (obj [(str "error",
                               JStr (str "Method not allowed"))]);
              trace := [] |})
  \/ (method req = str "POST"
      /\ (req_body req = JUndefined \/ req_body req = JNull)
      /\ Api.handler rt env req
         = {| resp := json hs 500 Api.processing_error; trace := [] |})
  \/ (method req = str "POST"
      /\ req_body req <> JUndefined /\ req_body req <> JNull
      /\ exists f,
           List.find (fun f => rejects f (field_of (req_body req) f))
             fields_in_order = Some f
           /\ Api.handler rt env req
              = {| resp := json hs 400 (Api.failure (Api.error_message f));
                   trace := validation_trace (req_body req) |})
  \/ (method req = str "POST"
      /\ (forall f, rejects f (field_of (req_body req) f) = false)
      /\ Api.handler rt env req
         = {| resp :=
                match after_fetch hs
                        (rt_fetch rt
                           (api_request_of rt env key to (req_body req)))
                with
                | inr r => r
                | inl _ => json hs 500 Api.processing_error
                end;
              trace :=
                validation_trace (req_body req)
                ++ [EvFetch (api_request_of rt env key to (req_body req))]
           |}).
Proof.
  destruct (decide (method req = str "OPTIONS")) as [Hopt|Hopt].
  { left. split; [done|]. unfold Api.handler.
    rewrite Hkey, Hto, Hopt. by rewrite bool_decide_true by done. }
  right.
  destruct (decide (method req = str "POST")) as [Hpost|Hpost].
  2: { left. split; [done|]. split; [done|]. unfold Api.handler.
       rewrite Hkey, Hto. by rewrite !bool_decide_false by done. }
  right. rewrite (handler_post rt env req key to Hkey Hto Hpost).
  fold hs sender.
  destruct (destructure_cases (req_body req)) as [Hd|Hd].
  { left. split; [done|]. split.
    - unfold destructure in Hd. destruct (req_body req); try done; eauto.
    - unfold Api.try_block. by rewrite Hd, bind_throw. }
  assert (req_body req <> JUndefined /\ req_body req <> JNull) as [Hu Hn].
  { split; intros Hb; rewrite Hb in Hd; discriminate. }
  right.
  destruct (find (fun f => rejects f (field_of (req_body req) f))
              fields_in_order) as [f|] eqn:Hfind.
  - left. split; [done|]. split; [done|]. split; [done|].
    exists f. split; [done|].
    unfold hs, sender.
    by rewrite (try_block_rejected rt env req key to f Hu Hn Hfind).
  - right. split; [done|].
    assert (Hall : forall f, rejects f (field_of (req_body req) f) = false).
    { intros f.
      apply (find_none _ _ Hfind f (fields_in_order_complete f)). }
    split; [done|]. rewrite (try_block_sends Hall).
    by destruct (after_fetch _ _).
Qed.
End ApiCases.

Lemma after_fetch_cases hs answer :
  (exists e, after_fetch hs answer = inl e)
  \/ after_fetch hs answer = inr (json hs 200 Api.success).
Proof.
  unfold after_fetch. destruct answer as [e|a]; [left; eauto|].
  destruct (up_ok a).
  - destruct (up_json a); [left; eauto|by right].
  - destruct (up_text a); left; eauto.
Qed.

Lemma handler_unconfigured rt env req :
  Api.env_get env (str "RESEND_API_KEY") = None
  \/ Api.env_get env (str "TO_EMAIL") = None ->
  Api.handler rt env req
  = {| resp := json [] 500 Api.configuration_error; trace := [] |}.
Proof.
  unfold Api.handler. intros [-> | Hto]; [done|].
  destruct (Api.env_get env (str "RESEND_API_KEY")); [|done].
  by rewrite Hto.
Qed.

Lemma configured_or_not env :
  (exists key to,
     Api.env_get env (str "RESEND_API_KEY") = Some key
     /\ Api.env_get env (str "TO_EMAIL") = Some to)
  \/ (Api.env_get env (str "RESEND_API_KEY") = None
      \/ Api.env_get env (str "TO_EMAIL") = None).
Proof.
  destruct (Api.env_get env (str "RESEND_API_KEY")) as [key|];
    [|by right; left].
  destruct (Api.env_get env (str "TO_EMAIL")) as [to|]; [|by right; right].
  left. by exists key, to.
Qed.

(** X8. The outcomes of the outbound call. When the six fields are accepted
    the handler makes the one call [api_request_of] for them. It answers
    200 with the success body when the provider's answer is a success whose
    body reads as JSON; it answers the generic 500 when the call itself
    fails, and also when the provider's answer is a success whose body
    does not read as JSON, although the message has been handed over. *)
Theorem dispatch_outcomes rt env req key to :
  Api.env_get env (str "RESEND_API_KEY") = Some key ->
  Api.env_get env (str "TO_EMAIL") = Some to ->
  method req = str "POST" ->
  (forall f, rejects f (field_of (req_body req) f) = false) ->
  let rq := api_request_of rt env key to (req_body req) in
  let hs := Api.cors_headers req (Api.getAllowedOrigins env) in
  trace (Api.handler rt env req)
  = validation_trace (req_body req) ++ [EvFetch rq]
  /\ (forall answer data,
        rt_fetch rt rq = inr answer -> up_ok answer = true ->
        up_json answer = inr data ->
        resp (Api.handler rt env req) = json hs 200 Api.success)
  /\ (forall answer e,
        rt_fetch rt rq = inr answer -> up_ok answer = true ->
        up_json answer = inl e ->
        resp (Api.handler rt env req) = json hs 500 Api.processing_error)
  /\ (forall e,
        rt_fetch rt rq = inl e ->
        resp (Api.handler rt env req) = json hs 500 Api.processing_error).
Proof.
  intros Hkey Hto Hm Hall rq hs.
  rewrite (handler_post rt env req key to Hkey Hto Hm).
  rewrite (try_block_sends rt env req key to Hall).
  fold rq hs. split.
  { by destruct (after_fetch hs (rt_fetch rt rq)). }
  repeat apply conj.
  - intros answer data -> Hok Hjson. cbn [after_fetch].
    by rewrite Hok, Hjson.
  - intros answer e -> Hok Hjson. cbn [after_fetch].
    by rewrite Hok, Hjson.
  - by intros e ->.
Qed.

Lemma dispatch_outcomes_witness :
  resp (Api.handler (runtime_with provider_ok) env_configured
          (request_of "POST" body_jane))
  = json (Api.cors_headers (request_of "POST" body_jane)
            (Api.getAllowedOrigins env_configured)) 200 Api.success.
Proof.
  destruct (dispatch_outcomes (runtime_with provider_ok) env_configured
              (request_of "POST" body_jane)
              (str "re_test_key") (str "sales@example.com")
              eq_refl eq_refl eq_refl ltac:(intros []; reflexivity))
    as (_ & Hok & _).
  apply (Hok provider_ok (obj [(str "id", JStr (str "49a3999c"))]));
    reflexivity.
Defined.

Lemma map_sanitizeHtml_escaped l :
  Forall html_escaped (map sanitizeHtml l).
Proof.
  induction l as [|p l IH]; constructor; [|done]. apply sanitizeHtml_escaped.
Qed.

Lemma text_result_escaped validate lo hi :
  (forall v, validate v =
             if negb (isValidLength v lo hi) then None
             else Some (sanitizeHtml (JStr (trim_of v)))) ->
  forall v, falsy_text (validate v) = false ->
            validate v = Some (Api.text_of (validate v))
            /\ html_escaped (Api.text_of (validate v)).
Proof.
  intros Hdef v Hv. destruct (validate v) as [r|] eqn:Hr; [|done].
  split; [done|]. by apply (text_validator_escaped validate lo hi Hdef v).
Qed.

(** X9. What reaches the mail provider. The text that the handler of [api/]
    puts into an outbound call is what the six validators returned and
    nothing else of the request: the subject holds the validated name and
    company, the reply address is the validated email, the HTML body is the
    template filled with the six validated values (the products joined by
    a comma and a space, the line feeds of the message turned into [<br>]),
    and each of the validated texts is HTML-escaped. *)
Theorem outbound_call_is_sanitized rt env req rq :
  EvFetch rq ∈ trace (Api.handler rt env req) ->
  exists name company email country products message,
    validateName (field_of (req_body req) Name) = Some name
    /\ validateCompany (field_of (req_body req) Company) = Some company
    /\ validateEmail (field_of (req_body req) Email) = Some email
    /\ validateCountry (field_of (req_body req) Country) = Some country
    /\ validateProducts (field_of (req_body req) Products) = Some products
    /\ validateMessage (field_of (req_body req) Message) = Some message
    /\ Forall html_escaped
         (name :: company :: email :: country :: message :: products)
    /\ em_subject (fr_body rq)
       = str "New Inquiry: " ++ name ++ str " from " ++ company
    /\ em_reply_to (fr_body rq) = JStr email
    /\ em_html (fr_body rq)
       = emailHTML name company email country (join (str ", ") products)
           (replaceAll ch_lf (str "<br>") message) (rt_now rt).
Proof.
  intros Hin.
  destruct (configured_or_not env) as [(key & to & Hkey & Hto)|Hno].
  2: { rewrite (handler_unconfigured rt env req Hno) in Hin.
       by apply elem_of_nil in Hin. }
  destruct (handler_cases rt env req key to Hkey Hto)
    as [[_ Heq]|[(_ & _ & Heq)|[(_ & _ & Heq)|[(_ & _ & _ & f & _ & Heq)
       |(_ & Hall & Heq)]]]]; rewrite Heq in Hin; cbn [trace] in Hin;
    try (by apply elem_of_nil in Hin);
    try (by apply no_fetch_in_validation_trace in Hin).
  apply elem_of_app in Hin as [?%no_fetch_in_validation_trace|Hin]; [done|].
  apply list_elem_of_singleton in Hin. injection Hin as ->.
  destruct (text_result_escaped validateName 1 100 ltac:(done) _ (Hall Name))
    as [Hn En].
  destruct (text_result_escaped validateCompany 1 200 ltac:(done) _
              (Hall Company)) as [Hc Ec].
  destruct (text_result_escaped validateCountry 1 100 ltac:(done) _
              (Hall Country)) as [Hco Eco].
  destruct (text_result_escaped validateMessage 10 5000 ltac:(done) _
              (Hall Message)) as [Hm Em].
  pose proof (Hall Email) as He. pose proof (Hall Products) as Hp.
  cbn [rejects] in He, Hp.
  destruct (validateEmail (field_of (req_body req) Email)) as [e|] eqn:Ee;
    [|done].
  destruct (validateProducts (field_of (req_body req) Products))
    as [ps|] eqn:Ep; [|done].
  eexists _, _, e, _, ps, _.
  split; [exact Hn|]. split; [exact Hc|]. split; [done|].
  split; [exact Hco|]. split; [done|]. split; [exact Hm|].
  split.
  2: { unfold api_request_of, api_request.
       cbn [fr_body em_subject em_reply_to em_html]. by rewrite Ee, Ep. }
  apply validateEmail_some in Ee as (s & _ & _ & _ & ->).
  repeat (constructor; [done || apply sanitizeHtml_escaped|]).
  destruct (field_of (req_body req) Products) as [| | | | |qs|]; try done.
  rewrite validateProducts_array in Ep.
  destruct (List.filter _ qs) as [|q qs']; [done|]. injection Ep as <-.
  apply (map_sanitizeHtml_escaped (q :: qs')).
Qed.

Lemma outbound_call_is_sanitized_witness :
  exists rq name company email country products message,
    EvFetch rq ∈ trace (Api.handler (runtime_with provider_ok)
                          env_configured (request_of "POST" body_markup))
    /\ validateName (field_of body_markup Name) = Some name
    /\ Forall html_escaped
         (name :: company :: email :: country :: message :: products)
    /\ em_subject (fr_body rq)
       = str "New Inquiry: " ++ name ++ str " from " ++ company.
Proof.
  eexists (api_request_of (runtime_with provider_ok) env_configured
             (str "re_test_key") (str "sales@example.com") body_markup).
  assert (Hin : EvFetch
                  (api_request_of (runtime_with provider_ok) env_configured
                     (str "re_test_key") (str "sales@example.com")
                     body_markup)
                ∈ trace (Api.handler (runtime_with provider_ok)
                           env_configured (request_of "POST" body_markup))).
  { assert (trace (Api.handler (runtime_with provider_ok) env_configured
                     (request_of "POST" body_markup))
            = validation_trace body_markup
              ++ [EvFetch
                    (api_request_of (runtime_with provider_ok)
                       env_configured (str "re_test_key")
                       (str "sales@example.com") body_markup)]) as ->
      by (vm_compute; reflexivity).
    apply elem_of_app. right. left. }
  destruct (outbound_call_is_sanitized _ _ _ _ Hin)
    as (n & c & e & co & ps & m & Hn & _ & _ & _ & _ & _ & Hesc & Hsub & _).
  exists n, c, e, co, ps, m. done.
Defined.

Lemma settle_after_fetch hs answer :
  settle hs (after_fetch hs answer) = json hs 500 Api.processing_error
  \/ (settle hs (after_fetch hs answer) = json hs 200 Api.success
      /\ exists a data,
           answer = inr a /\ up_ok a = true /\ up_json a = inr data).
Proof.
  unfold after_fetch. destruct answer as [e|a]; [by left|].
  destruct (up_ok a) eqn:Hok.
  - destruct (up_json a) as [e|data] eqn:Hjson; [by left|].
    right. split; [done|]. by exists a, data.
  - destruct (up_text a); by left.
Qed.

Lemma success_is_no_failure text : Api.success <> Api.failure text.
Proof.
  intros Heq. apply (f_equal (fun v => get_prop v (str "success"))) in Heq.
  vm_compute in Heq. discriminate.
Qed.

Lemma success_is_no_method_error :
  Api.success <> obj [(str "error", JStr (str "Method not allowed"))].
Proof.
  intros Heq. apply (f_equal (fun v => get_prop v (str "success"))) in Heq.
  vm_compute in Heq. discriminate.
Qed.

(** X10. The statuses and the calls. Every response of the handler of [api/]
    has status 200, 400, 405 or 500, and only the answer to a preflight
    request has no body. The handler calls either no validator or the six
    of them in their order, and makes at most one outbound call, after the
    six validations; a response with status 400 or 405 means that nothing
    was sent. *)
Theorem statuses_and_calls rt env req :
  status (resp (Api.handler rt env req)) ∈ [200; 400; 405; 500]%N
  /\ (body (resp (Api.handler rt env req)) = None ->
      method req = str "OPTIONS"
      /\ status (resp (Api.handler rt env req)) = 200%N)
  /\ (trace (Api.handler rt env req) = []
      \/ trace (Api.handler rt env req) = validation_trace (req_body req)
      \/ exists rq,
           trace (Api.handler rt env req)
           = validation_trace (req_body req) ++ [EvFetch rq])
  /\ (forall rq,
        EvFetch rq ∈ trace (Api.handler rt env req) ->
        status (resp (Api.handler rt env req)) ∈ [200; 500]%N).
Proof.
  destruct (configured_or_not env) as [(key & to & Hkey & Hto)|Hno].
  2: { rewrite (handler_unconfigured rt env req Hno).
       cbn [resp trace json status body].
       split; [compute_done|]. split; [done|]. split; [by left|].
       by intros rq ?%elem_of_nil. }
  destruct (handler_cases rt env req key to Hkey Hto)
    as [[Hm Heq]|[(_ & _ & Heq)|[(_ & _ & Heq)|[(_ & _ & _ & f & _ & Heq)
       |(_ & Hall & Heq)]]]];
    rewrite Heq; cbn [resp trace json end_ status body].
  - split; [compute_done|]. split; [done|]. split; [by left|].
    by intros rq ?%elem_of_nil.
  - split; [compute_done|]. split; [done|]. split; [by left|].
    by intros rq ?%elem_of_nil.
  - split; [compute_done|]. split; [done|]. split; [by left|].
    by intros rq ?%elem_of_nil.
  - split; [compute_done|]. split; [done|]. split; [by right; left|].
    by intros rq ?%no_fetch_in_validation_trace.
  - fold (settle (Api.cors_headers req (Api.getAllowedOrigins env))
            (after_fetch (Api.cors_headers req (Api.getAllowedOrigins env))
               (rt_fetch rt (api_request_of rt env key to (req_body req))))).
    destruct (settle_after_fetch
                (Api.cors_headers req (Api.getAllowedOrigins env))
                (rt_fetch rt (api_request_of rt env key to (req_body req))))
      as [-> | [-> _]]; cbn [json status body].
    + split; [compute_done|]. split; [done|]. split; [right; right; eauto|].
      intros _ _. compute_done.
    + split; [compute_done|]. split; [done|]. split; [right; right; eauto|].
      intros _ _. compute_done.
Qed.

(** X11. Success is reported for a delivery only. The response body is the
    success body exactly when the handler made an outbound call and the
    provider answered it with a success whose body reads as JSON. *)
Theorem success_means_delivered rt env req :
  body (resp (Api.handler rt env req)) = Some Api.success
  <-> exists rq answer data,
        EvFetch rq ∈ trace (Api.handler rt env req)
        /\ rt_fetch rt rq = inr answer /\ up_ok answer = true
        /\ up_json answer = inr data.
Proof.
  destruct (configured_or_not env) as [(key & to & Hkey & Hto)|Hno].
  2: { rewrite (handler_unconfigured rt env req Hno).
       cbn [resp trace json body]. split.
       - intros Heq%(inj Some). symmetry in Heq.
         by apply success_is_no_failure in Heq.
       - by intros (rq & _ & _ & ?%elem_of_nil & _). }
  destruct (handler_cases rt env req key to Hkey Hto)
    as [[Hm Heq]|[(_ & _ & Heq)|[(_ & _ & Heq)|[(_ & _ & _ & f & _ & Heq)
       |(_ & Hall & Heq)]]]]; rewrite Heq; cbn [resp trace json end_ body].
  - split; [done|]. by intros (rq & _ & _ & ?%elem_of_nil & _).
  - split.
    + intros Heq'%(inj Some). symmetry in Heq'.
      by apply success_is_no_method_error in Heq'.
    + by intros (rq & _ & _ & ?%elem_of_nil & _).
  - split.
    + intros Heq'%(inj Some). symmetry in Heq'.
      by apply success_is_no_failure in Heq'.
    + by intros (rq & _ & _ & ?%elem_of_nil & _).
  - split.
    + intros Heq'%(inj Some). symmetry in Heq'.
      by apply success_is_no_failure in Heq'.
    + by intros (rq & _ & _ & ?%no_fetch_in_validation_trace & _).
  - fold (settle (Api.cors_headers req (Api.getAllowedOrigins env))
            (after_fetch (Api.cors_headers req (Api.getAllowedOrigins env))
               (rt_fetch rt (api_request_of rt env key to (req_body req))))).
    split.
    + intros Hbody.
      destruct (settle_after_fetch
                  (Api.cors_headers req (Api.getAllowedOrigins env))
                  (rt_fetch rt
                     (api_request_of rt env key to (req_body req))))
        as [Hs|[Hs (a & data & Ha & Hok & Hjson)]]; rewrite Hs in Hbody.
      * apply (inj Some) in Hbody. symmetry in Hbody. rename Hbody into Heq'.
        by apply success_is_no_failure in Heq'.
      * exists (api_request_of rt env key to (req_body req)), a, data.
        split; [|done]. apply elem_of_app. right. left.
    + intros (rq & a & data & Hin & Hfetch & Hok & Hjson).
      apply elem_of_app in Hin
        as [?%no_fetch_in_validation_trace|Hin]; [done|].
      apply list_elem_of_singleton in Hin. injection Hin as ->.
      rewrite Hfetch. cbn [after_fetch]. by rewrite Hok, Hjson.
Qed.

Lemma settle_without_headers hs hs' answer :
  status (settle hs (after_fetch hs answer))
  = status (settle hs' (after_fetch hs' answer))
  /\ body (settle hs (after_fetch hs answer))
     = body (settle hs' (after_fetch hs' answer)).
Proof.
  unfold after_fetch. destruct answer as [e|a]; [done|].
  destruct (up_ok a); [by destruct (up_json a)|by destruct (up_text a)].
Qed.

Lemma handler_without_headers rt env req :
  status (resp (Api.handler rt env req))
  = status (resp (Api.handler rt env (without_headers req)))
  /\ body (resp (Api.handler rt env req))
     = body (resp (Api.handler rt env (without_headers req)))
  /\ trace (Api.handler rt env req)
     = trace (Api.handler rt env (without_headers req)).
Proof.
  destruct (configured_or_not env) as [(key & to & Hkey & Hto)|Hno].
  2: { by rewrite !(handler_unconfigured rt env _ Hno). }
  destruct (handler_cases rt env req key to Hkey Hto)
    as [[Hm Heq]|[(Hm1 & Hm2 & Heq)|[(Hm & Hb & Heq)
       |[(Hm & Hu & Hn & f & Hf & Heq)|(Hm & Hall & Heq)]]]];
    destruct (handler_cases rt env (without_headers req) key to Hkey Hto)
      as [[Hm' Heq']|[(Hm1' & Hm2' & Heq')|[(Hm' & Hb' & Heq')
         |[(Hm' & Hu' & Hn' & f' & Hf' & Heq')|(Hm' & Hall' & Heq')]]]];
    cbn [without_headers method req_body] in *;
    rewrite Heq, Heq'; cbn [resp trace json end_ status body];
    try done; try congruence.
  all: try (exfalso;
            match goal with
            | H1 : method ?r = str "OPTIONS", H2 : method ?r = str "POST"
              |- _ => rewrite H1 in H2; vm_compute in H2; discriminate
            | Hb : _ \/ _, Hu : req_body ?r <> JUndefined |- _ =>
                by destruct Hb
            | Hb : _ \/ _, H : forall f, rejects f _ = false |- _ =>
                specialize (H Name); rewrite rejects_nullish in H; done
            | Hf : find _ _ = Some _, H : forall f, rejects f _ = false
              |- _ =>
                pose proof (find_some _ _ Hf) as [_ Hrej];
                rewrite H in Hrej; done
            end).
  - assert (f = f') as -> by congruence. done.
  - fold (settle (Api.cors_headers req (Api.getAllowedOrigins env))
            (after_fetch (Api.cors_headers req (Api.getAllowedOrigins env))
               (rt_fetch rt (api_request_of rt env key to (req_body req))))).
    fold (settle
            (Api.cors_headers (without_headers req)
               (Api.getAllowedOrigins env))
            (after_fetch
               (Api.cors_headers (without_headers req)
                  (Api.getAllowedOrigins env))
               (rt_fetch rt (api_request_of rt env key to (req_body req))))).
    destruct (settle_without_headers
                (Api.cors_headers req (Api.getAllowedOrigins env))
                (Api.cors_headers (without_headers req)
                   (Api.getAllowedOrigins env))
                (rt_fetch rt (api_request_of rt env key to (req_body req))))
      as [-> ->]. done.
Qed.

Lemma env_get_none env key : Api.env_get env key = None <-> unset env key.
Proof.
  unfold Api.env_get, unset. destruct (env !! key) as [[|c s]|].
  - split; [by right|done].
  - split; [done|by intros [?|?]].
  - split; [by left|done].
Qed.

Lemma failure_text a b : Api.failure a = Api.failure b -> a = b.
Proof.
  intros Heq. apply (f_equal (fun v => get_prop v (str "error"))) in Heq.
  vm_compute in Heq. by injection Heq.
Qed.

Lemma no_configuration_error_message f :
  Api.error_message f <> str "Server configuration error".
Proof. destruct f; vm_compute; discriminate. Qed.

Lemma failure_is_no_method_error text :
  Api.failure text <> obj [(str "error", JStr (str "Method not allowed"))].
Proof.
  intros Heq. apply (f_equal (fun v => get_prop v (str "success"))) in Heq.
  vm_compute in Heq. discriminate.
Qed.

Lemma handler_headers rt env req key to :
  Api.env_get env (str "RESEND_API_KEY") = Some key ->
  Api.env_get env (str "TO_EMAIL") = Some to ->
  res_headers (resp (Api.handler rt env req))
  = Api.cors_headers req (Api.getAllowedOrigins env).
Proof.
  intros Hkey Hto.
  destruct (handler_cases rt env req key to Hkey Hto)
    as [[Hm Heq]|[(_ & _ & Heq)|[(_ & _ & Heq)|[(_ & _ & _ & f & _ & Heq)
       |(_ & Hall & Heq)]]]]; rewrite Heq; try done.
  cbn [resp].
  fold (settle (Api.cors_headers req (Api.getAllowedOrigins env))
          (after_fetch (Api.cors_headers req (Api.getAllowedOrigins env))
             (rt_fetch rt (api_request_of rt env key to (req_body req))))).
  by destruct (settle_after_fetch
                 (Api.cors_headers req (Api.getAllowedOrigins env))
                 (rt_fetch rt (api_request_of rt env key to (req_body req))))
    as [-> | [-> _]].
Qed.

(** X12. The configuration gate. When RESEND_API_KEY or TO_EMAIL is unset or
    empty, every request, whatever its method, headers and body, is
    answered 500 with the configuration error and without any header, and
    nothing else happens. When both are set, the response carries the CORS
    headers and its body is never the configuration error. *)
Theorem configuration_gate rt env req :
  (unset env (str "RESEND_API_KEY") \/ unset env (str "TO_EMAIL") ->
   resp (Api.handler rt env req) = json [] 500 Api.configuration_error
   /\ trace (Api.handler rt env req) = [])
  /\ (~ (unset env (str "RESEND_API_KEY") \/ unset env (str "TO_EMAIL")) ->
      res_headers (resp (Api.handler rt env req))
      = Api.cors_headers req (Api.getAllowedOrigins env)
      /\ body (resp (Api.handler rt env req))
         <> Some Api.configuration_error).
Proof.
  split.
  - intros Hunset.
    rewrite (handler_unconfigured rt env req); [done|].
    by rewrite !env_get_none.
  - intros Hset.
    destruct (configured_or_not env) as [(key & to & Hkey & Hto)|Hno].
    2: { destruct Hset. by rewrite <- !env_get_none. }
    split; [by apply (handler_headers rt env req key to)|].
    destruct (handler_cases rt env req key to Hkey Hto)
      as [[Hm Heq]|[(_ & _ & Heq)|[(_ & _ & Heq)|[(_ & _ & _ & f & _ & Heq)
         |(_ & Hall & Heq)]]]];
      rewrite Heq; cbn [resp json end_ body]; try done;
      try (intros Hbody%(inj Some);
           first
             [ symmetry in Hbody;
               by apply failure_is_no_method_error in Hbody
             | apply failure_text in Hbody;
               by apply no_configuration_error_message in Hbody
             | apply failure_text in Hbody; vm_compute in Hbody;
               discriminate ]).
    fold (settle (Api.cors_headers req (Api.getAllowedOrigins env))
              (after_fetch (Api.cors_headers req (Api.getAllowedOrigins env))
                 (rt_fetch rt
                    (api_request_of rt env key to (req_body req))))).
    destruct (settle_after_fetch
                (Api.cors_headers req (Api.getAllowedOrigins env))
                (rt_fetch rt
                   (api_request_of rt env key to (req_body req))))
      as [-> | [-> _]]; cbn [json body].
    + intros Hbody%(inj Some)%failure_text. vm_compute in Hbody.
      discriminate.
    + intros Hbody%(inj Some).
      by apply success_is_no_failure in Hbody.
Qed.

Lemma configuration_gate_witness :
  resp (Api.handler (runtime_with provider_ok)
          {[ str "RESEND_API_KEY" := str "re_test_key";
             str "TO_EMAIL" := [] ]}
          (request_of "POST" body_jane))
  = json [] 500 Api.configuration_error
  /\ trace (Api.handler (runtime_with provider_ok)
              {[ str "RESEND_API_KEY" := str "re_test_key";
                 str "TO_EMAIL" := [] ]}
              (request_of "POST" body_jane)) = [].
Proof.
  apply (proj1 (configuration_gate (runtime_with provider_ok)
                  {[ str "RESEND_API_KEY" := str "re_test_key";
                     str "TO_EMAIL" := [] ]}
                  (request_of "POST" body_jane))).
  right. right. reflexivity.
Defined.

(** X13. The CORS headers decide nothing. Two requests with the same method
    and the same body get the same status and the same response body, and
    cause the same validator calls and the same outbound call, whatever
    their headers are: an origin that is not allowed changes the headers of
    the response only. *)
Theorem headers_decide_nothing rt env req req' :
  method req = method req' -> req_body req = req_body req' ->
  status (resp (Api.handler rt env req))
  = status (resp (Api.handler rt env req'))
  /\ body (resp (Api.handler rt env req))
     = body (resp (Api.handler rt env req'))
  /\ trace (Api.handler rt env req) = trace (Api.handler rt env req').
Proof.
  intros Hm Hb.
  destruct (handler_without_headers rt env req) as (-> & -> & ->).
  destruct (handler_without_headers rt env req') as (-> & -> & ->).
  unfold without_headers. by rewrite Hm, Hb.
Qed.

Lemma headers_decide_nothing_witness :
  status (resp (Api.handler (runtime_with provider_ok)
                  (<[str "ALLOWED_ORIGINS" := str "https://a.example"]>
                     env_configured)
                  {| method := str "POST";
                     req_headers :=
                       {[ str "origin" := str "https://evil.example" ]};
                     req_body := body_jane |}))
  = status (resp (Api.handler (runtime_with provider_ok)
                    (<[str "ALLOWED_ORIGINS" := str "https://a.example"]>
                       env_configured)
                    (request_of "POST" body_jane)))
  /\ body (resp (Api.handler (runtime_with provider_ok)
                   (<[str "ALLOWED_ORIGINS" := str "https://a.example"]>
                      env_configured)
                   {| method := str "POST";
                      req_headers :=
                        {[ str "origin" := str "https://evil.example" ]};
                      req_body := body_jane |}))
     = body (resp (Api.handler (runtime_with provider_ok)
                     (<[str "ALLOWED_ORIGINS" := str "https://a.example"]>
                        env_configured)
                     (request_of "POST" body_jane)))
  /\ trace (Api.handler (runtime_with provider_ok)
              (<[str "ALLOWED_ORIGINS" := str "https://a.example"]>
                 env_configured)
              {| method := str "POST";
                 req_headers :=
                   {[ str "origin" := str "https://evil.example" ]};
                 req_body := body_jane |})
     = trace (Api.handler (runtime_with provider_ok)
                (<[str "ALLOWED_ORIGINS" := str "https://a.example"]>
                   env_configured)
                (request_of "POST" body_jane)).
Proof.
  apply headers_decide_nothing; reflexivity.
Defined.

Lemma legacy_all_truthy b :
  (negb (Legacy.truthy (field_of b Name))
   || negb (Legacy.truthy (field_of b Company))
   || negb (Legacy.truthy (field_of b Email))
   || negb (Legacy.truthy (field_of b Country))
   || negb (Legacy.truthy (field_of b Products))
   || negb (Legacy.truthy (field_of b Message))) = false
  <-> forall f, Legacy.truthy (field_of b f) = true.
Proof.
  split.
  - intros H f.
    repeat (apply orb_false_elim in H as [H ?]).
    destruct f; by apply negb_false_iff.
  - intros H.
    by rewrite (H Name), (H Company), (H Email), (H Country), (H Products),
      (H Message).
Qed.

Lemma legacy_some_falsy b :
  (negb (Legacy.truthy (field_of b Name))
   || negb (Legacy.truthy (field_of b Company))
   || negb (Legacy.truthy (field_of b Email))
   || negb (Legacy.truthy (field_of b Country))
   || negb (Legacy.truthy (field_of b Products))
   || negb (Legacy.truthy (field_of b Message))) = true
  <-> exists f, Legacy.truthy (field_of b f) = false.
Proof.
  split.
  - intros H.
    repeat (apply orb_prop in H as [H|H]);
      apply negb_true_iff in H; eauto.
  - intros [f Hf]. apply not_false_iff_true. intros Hall.
    pose proof (proj1 (legacy_all_truthy b) Hall f) as Ht.
    by rewrite Ht in Hf.
Qed.

(** The ways in which a POST request to the earlier handler ends. *)
Lemma legacy_cases rt req :
  method req = str "POST" ->
  ((req_body req = JUndefined \/ req_body req = JNull)
   /\ Legacy.handler rt req
      = {| resp :=
             legacy_catch rt (TypeError (CannotDestructure (req_body req)));
           trace := [] |})
  \/ (req_body req <> JUndefined /\ req_body req <> JNull
      /\ (exists f, Legacy.truthy (field_of (req_body req) f) = false)
      /\ Legacy.handler rt req
         = {| resp := json Legacy.cors_headers 400
                        (legacy_missing (req_body req));
              trace := [] |})
  \/ (req_body req <> JUndefined /\ req_body req <> JNull
      /\ (forall f, Legacy.truthy (field_of (req_body req) f) = true)
      /\ ((exists e,
             Legacy.handler rt req
             = {| resp := legacy_catch rt e; trace := [] |})
          \/ exists subject html,
               let rq :=
                 legacy_request subject html
                   (field_of (req_body req) Email) in
               Legacy.handler rt req
               = {| resp :=
                      legacy_settle rt (legacy_after_fetch (rt_fetch rt rq));
                    trace := [EvFetch rq] |})).
Proof.
  intros Hpost. unfold Legacy.handler. rewrite Hpost.
  rewrite bool_decide_false by done.
  rewrite bool_decide_true by done. cbn [negb].
  unfold Legacy.try_block.
  destruct (destructure_cases (req_body req)) as [Hd|Hd].
  { left. split.
    - unfold destructure in Hd. destruct (req_body req); try done; eauto.
    - by rewrite Hd, bind_throw. }
  assert (req_body req <> JUndefined /\ req_body req <> JNull) as [Hu Hn].
  { split; intros Hb; rewrite Hb in Hd; discriminate. }
  right. rewrite Hd, bind_ret. cbv beta iota.
  match goal with |- context [if ?c then _ else _] =>
    destruct c eqn:Hc end.
  { left. split; [done|]. split; [done|]. split; [|done].
    by apply legacy_some_falsy. }
  right. split; [done|]. split; [done|].
  split; [by apply legacy_all_truthy|].
  set (products_list := match field_of (req_body req) Products with
                        | JArr _ => _ | _ => _ end).
  assert (Hpl : (exists e, products_list = ([], inl e))
                \/ exists v, products_list = ret v).
  { unfold products_list.
    destruct (field_of (req_body req) Products); try (right; by eexists).
    rewrite bind_await.
    destruct (Legacy.array_join _ _); [left|right]; by eexists. }
  destruct Hpl as [[e ->]|[v ->]]; [left; by exists e|].
  rewrite bind_ret.
  repeat (rewrite bind_await;
          match goal with
          | |- context [match Legacy.ToString ?x with _ => _ end] =>
              destruct (Legacy.ToString x) as [e|?]; [left; by exists e|]
          end).
  cbv zeta. rewrite bind_fetch. right.
  match goal with |- context [rt_fetch rt ?x] => set (rq := x) end.
  exists (em_subject (fr_body rq)), (em_html (fr_body rq)).
  change (legacy_request _ _ _) with rq. cbv zeta.
  unfold legacy_after_fetch.
  destruct (rt_fetch rt rq) as [e|answer]; [reflexivity|].
  destruct (up_ok answer); cbn [negb]; rewrite bind_await.
  - destruct (up_json answer) as [e|data]; [reflexivity|].
    by destruct (get_prop data (str "id")).
  - by destruct (up_text answer).
Qed.

Lemma legacy_not_post rt req :
  method req <> str "POST" ->
  Legacy.handler rt req
  = (if bool_decide (method req = str "OPTIONS") then
       {| resp := end_ Legacy.cors_headers 200; trace := [] |}
     else
       {| resp := json Legacy.cors_headers 405
                    (obj [(str "error", JStr (str "Method not allowed"));
                          (str "received", JStr (method req))]);
          trace := [] |}).
Proof.
  intros Hpost. unfold Legacy.handler.
  case_bool_decide; [done|]. by rewrite bool_decide_false by done.
Qed.

Lemma legacy_after_fetch_cases answer :
  (exists e, legacy_after_fetch answer = inl e)
  \/ exists id,
       legacy_after_fetch answer
       = inr (json Legacy.cors_headers 200 (legacy_success id)).
Proof.
  unfold legacy_after_fetch. destruct answer as [e|a]; [left; by eexists|].
  destruct (up_ok a).
  - destruct (up_json a) as [e|data]; [left; by eexists|].
    destruct (get_prop data (str "id")); [right|left]; by eexists.
  - destruct (up_text a); left; by eexists.
Qed.

(** An outbound call of the earlier handler, traced back. *)
Lemma legacy_fetch_inv rt req rq :
  EvFetch rq ∈ trace (Legacy.handler rt req) ->
  method req = str "POST"
  /\ (forall f, Legacy.truthy (field_of (req_body req) f) = true)
  /\ (exists subject html,
        rq = legacy_request subject html (field_of (req_body req) Email))
  /\ Legacy.handler rt req
     = {| resp := legacy_settle rt (legacy_after_fetch (rt_fetch rt rq));
          trace := [EvFetch rq] |}.
Proof.
  intros Hin.
  destruct (decide (method req = str "POST")) as [Hpost|Hpost].
  2: { rewrite (legacy_not_post rt req Hpost) in Hin.
       case_bool_decide; by apply elem_of_nil in Hin. }
  split; [done|].
  destruct (legacy_cases rt req Hpost)
    as [[_ Heq]|[(_ & _ & _ & Heq)|(_ & _ & Hall & [[e Heq]|Hsent])]];
    try (rewrite Heq in Hin; by apply elem_of_nil in Hin).
  destruct Hsent as (subject & html & Heq). cbv zeta in Heq.
  rewrite Heq in Hin. cbn [trace] in Hin.
  apply list_elem_of_singleton in Hin. injection Hin as ->.
  split; [done|]. split; [by exists subject, html|done].
Qed.

(** X14. The answers of the earlier handler. Every response carries the same
    four CORS headers, with any origin allowed, and has status 200, 400,
    405 or 500; it has no body exactly for a preflight request; a request
    that is neither OPTIONS nor POST is answered 405 with the method
    echoed; and at most one outbound call is made. *)
Theorem legacy_answers rt req :
  res_headers (resp (Legacy.handler rt req)) = Legacy.cors_headers
  /\ status (resp (Legacy.handler rt req)) ∈ [200; 400; 405; 500]%N
  /\ (body (resp (Legacy.handler rt req)) = None
      <-> method req = str "OPTIONS")
  /\ (status (resp (Legacy.handler rt req)) = 405%N
      <-> method req <> str "OPTIONS" /\ method req <> str "POST")
  /\ (status (resp (Legacy.handler rt req)) = 405%N ->
      body (resp (Legacy.handler rt req))
      = Some (obj [(str "error", JStr (str "Method not allowed"));
                   (str "received", JStr (method req))]))
  /\ (trace (Legacy.handler rt req) = []
      \/ exists rq, trace (Legacy.handler rt req) = [EvFetch rq]).
Proof.
  destruct (decide (method req = str "POST")) as [Hpost|Hpost].
  - assert (Hopt : method req <> str "OPTIONS").
    { rewrite Hpost. intros Heq. vm_compute in Heq. discriminate. }
    assert (Hcases :
      exists r t,
        Legacy.handler rt req = {| resp := r; trace := t |}
        /\ res_headers r = Legacy.cors_headers
        /\ (status r = 200%N \/ status r = 400%N \/ status r = 500%N)
        /\ body r <> None
        /\ (t = [] \/ exists rq, t = [EvFetch rq])).
    { destruct (legacy_cases rt req Hpost)
        as [[_ Heq]|[(_ & _ & _ & Heq)|(_ & _ & _ & [[e Heq]|Hsent])]];
        try (do 2 eexists; split; [exact Heq|];
             cbn [legacy_catch json status res_headers body];
             split; [done|]; split; [tauto|]; split; [done|by left]).
      destruct Hsent as (subject & html & Heq). cbv zeta in Heq.
      do 2 eexists. split; [exact Heq|].
      destruct (legacy_after_fetch_cases
                  (rt_fetch rt
                     (legacy_request subject html
                        (field_of (req_body req) Email))))
        as [[e ->]|[id ->]];
        cbn [legacy_settle legacy_catch json status res_headers body];
        (split; [done|]; split; [tauto|]; split; [done|right; by eexists]). }
    destruct Hcases as (r & t & -> & Hh & Hs & Hb & Ht). cbn [resp trace].
    split; [done|]. split.
    { destruct Hs as [-> | [-> | ->]];
        [by left|right; by left|do 3 right; by left]. }
    split; [split; [by intros ?|by intros ?]|].
    split.
    { split; [|by intros [_ ?]].
      intros H405. destruct Hs as [Hs|[Hs|Hs]]; rewrite Hs in H405;
        discriminate. }
    split; [|done].
    intros H405. destruct Hs as [Hs|[Hs|Hs]]; rewrite Hs in H405;
      discriminate.
  - rewrite (legacy_not_post rt req Hpost).
    case_bool_decide as Hopt;
      cbn [resp trace end_ json status res_headers body].
    + split; [done|]. split; [by left|]. split; [done|].
      split; [split; [discriminate|by intros [? _]]|].
      split; [discriminate|by left].
    + split; [done|]. split; [do 2 right; by left|].
      split; [split; [discriminate|done]|].
      split; [done|]. split; [done|by left].
Qed.

(** X15. Missing fields in the earlier handler. For a POST request whose
    body is neither null nor undefined, the earlier handler answers 400
    exactly when one of the six fields is not truthy; the answer then
    carries the error text and the six values as they were received, and
    nothing is sent. *)
Theorem legacy_missing_fields rt req :
  method req = str "POST" ->
  req_body req <> JUndefined -> req_body req <> JNull ->
  (status (resp (Legacy.handler rt req)) = 400%N
   <-> exists f, Legacy.truthy (field_of (req_body req) f) = false)
  /\ (status (resp (Legacy.handler rt req)) = 400%N ->
      Legacy.handler rt req
      = {| resp := json Legacy.cors_headers 400
                     (legacy_missing (req_body req));
           trace := [] |}).
Proof.
  intros Hpost Hu Hn.
  destruct (legacy_cases rt req Hpost)
    as [[[?|?] _]|[(_ & _ & Hf & Heq)|(_ & _ & Hall & Hrest)]]; try done.
  - rewrite Heq. cbn [resp json status]. split; [done|done].
  - assert (Hs : status (resp (Legacy.handler rt req)) <> 400%N).
    { destruct Hrest as [[e ->]|(subject & html & Heq)].
      - cbn [resp legacy_catch json status]. discriminate.
      - cbv zeta in Heq. rewrite Heq. cbn [resp].
        destruct (legacy_after_fetch_cases
                    (rt_fetch rt
                       (legacy_request subject html
                          (field_of (req_body req) Email))))
          as [[e ->]|[id ->]];
          cbn [legacy_settle legacy_catch json status]; discriminate. }
    split; [|done]. split; [done|].
    intros [f Hf]. by rewrite Hall in Hf.
Qed.

Lemma legacy_missing_fields_witness :
  let req := request_of "POST" body_blank_name in
  status (resp (Legacy.handler (runtime_with provider_ok) req)) = 400%N
  /\ Legacy.handler (runtime_with provider_ok) req
     = {| resp := json Legacy.cors_headers 400 (legacy_missing body_blank_name);
          trace := [] |}.
Proof.
  cbv zeta.
  pose proof (legacy_missing_fields (runtime_with provider_ok)
                (request_of "POST" body_blank_name)) as H.
  destruct H as [H1 H2]; [reflexivity|discriminate|discriminate|].
  assert (Hs : status (resp (Legacy.handler (runtime_with provider_ok)
                               (request_of "POST" body_blank_name)))
               = 400%N).
  { apply H1. exists Company. vm_compute. reflexivity. }
  split; [exact Hs|exact (H2 Hs)].
Defined.

(** X16. The earlier handler passes the provider's text on. When the mail
    provider answers the call of the earlier handler with a non-success
    status and a readable body, the client gets a 500 whose error is the
    provider's status and the text of its body. *)
Theorem legacy_passes_provider_text rt req rq answer text :
  EvFetch rq ∈ trace (Legacy.handler rt req) ->
  rt_fetch rt rq = inr answer ->
  up_ok answer = false ->
  up_text answer = inr text ->
  resp (Legacy.handler rt req)
  = json Legacy.cors_headers 500
      (obj [(str "success", JBool false);
            (str "error",
             JStr (str "Resend API failed: "
                   ++ Legacy.decimal (up_status answer) ++ str " - "
                   ++ text))]).
Proof.
  intros Hin Hfetch Hok Htext.
  destruct (legacy_fetch_inv rt req rq Hin) as (_ & _ & _ & ->).
  cbn [resp]. unfold legacy_after_fetch.
  by rewrite Hfetch, Hok, Htext.
Qed.

Lemma legacy_passes_provider_text_witness :
  resp (Legacy.handler (runtime_with provider_refuses)
          (request_of "POST" body_jane))
  = json Legacy.cors_headers 500
      (obj [(str "success", JBool false);
            (str "error",
             JStr (tpl "Resend API failed: 403 - {`message`:`The domain is not verified`}"))]).
Proof.
  pose (rq :=
    legacy_request
      (str "New Inquiry: Jane Doe from Acme Corp")
      (emailHTML (str "Jane Doe") (str "Acme Corp")
         (str "jane@acme.com") (str "USA") (str "CBB60")
         (str "Please send a quote for 50 units.")
         (str "2025-01-01T00:00:00.000Z"))
      (JStr (str "jane@acme.com"))).
  assert (Htrace :
    trace (Legacy.handler (runtime_with provider_refuses)
             (request_of "POST" body_jane))
    = [EvFetch rq])
    by (vm_compute; reflexivity).
  rewrite (legacy_passes_provider_text (runtime_with provider_refuses)
             (request_of "POST" body_jane) rq provider_refuses
             (tpl "{`message`:`The domain is not verified`}"));
    [vm_compute; reflexivity| |reflexivity..].
  rewrite Htrace. by left.
Defined.

(** X17. The identifier in the earlier handler's success. When the mail
    provider accepts the call of the earlier handler and its answer parses
    as JSON, the client gets a 200 with the [id] of that JSON as [emailId]
    (undefined when it has none), unless the JSON is null, for which
    reading [id] throws and the client gets a 500 with the engine's
    message. *)
Theorem legacy_success_returns_id rt req rq answer data :
  EvFetch rq ∈ trace (Legacy.handler rt req) ->
  rt_fetch rt rq = inr answer ->
  up_ok answer = true ->
  up_json answer = inr data ->
  resp (Legacy.handler rt req)
  = match data with
    | JNull | JUndefined =>
        legacy_catch rt (TypeError (CannotReadProperty data (str "id")))
    | JObj props =>
        json Legacy.cors_headers 200
          (legacy_success (default JUndefined (props !! str "id")))
    | _ => json Legacy.cors_headers 200 (legacy_success JUndefined)
    end.
Proof.
  intros Hin Hfetch Hok Hjson.
  destruct (legacy_fetch_inv rt req rq Hin) as (_ & _ & _ & ->).
  cbn [resp]. unfold legacy_after_fetch.
  rewrite Hfetch, Hok, Hjson. by destruct data.
Qed.

Lemma legacy_success_returns_id_witness :
  resp (Legacy.handler (runtime_with provider_ok)
          (request_of "POST" body_jane))
  = json Legacy.cors_headers 200 (legacy_success (JStr (str "49a3999c"))).
Proof.
  pose (rq :=
    legacy_request
      (str "New Inquiry: Jane Doe from Acme Corp")
      (emailHTML (str "Jane Doe") (str "Acme Corp")
         (str "jane@acme.com") (str "USA") (str "CBB60")
         (str "Please send a quote for 50 units.")
         (str "2025-01-01T00:00:00.000Z"))
      (JStr (str "jane@acme.com"))).
  assert (Htrace :
    trace (Legacy.handler (runtime_with provider_ok)
             (request_of "POST" body_jane))
    = [EvFetch rq])
    by (vm_compute; reflexivity).
  rewrite (legacy_success_returns_id (runtime_with provider_ok)
             (request_of "POST" body_jane) rq provider_ok
             (obj [(str "id", JStr (str "49a3999c"))]));
    [vm_compute; reflexivity| |reflexivity..].
  rewrite Htrace. by left.
Defined.

(** X18. What the earlier handler needs to send. An outbound call of the
    earlier handler is made only for a POST request whose six fields are
    all truthy; it is the only call of the request, and its reply address
    is the email value as received, whatever its type. *)
Theorem legacy_call_needs_all_fields rt req rq :
  EvFetch rq ∈ trace (Legacy.handler rt req) ->
  method req = str "POST"
  /\ (forall f, Legacy.truthy (field_of (req_body req) f) = true)
  /\ em_reply_to (fr_body rq) = field_of (req_body req) Email
  /\ trace (Legacy.handler rt req) = [EvFetch rq].
Proof.
  intros Hin.
  destruct (legacy_fetch_inv rt req rq Hin)
    as (Hpost & Hall & (subject & html & Hrq) & Heq).
  split; [done|]. split; [done|]. split; [by rewrite Hrq|by rewrite Heq].
Qed.

Lemma legacy_call_needs_all_fields_witness :
  Legacy.truthy (field_of body_jane Products) = true
  /\ trace (Legacy.handler (runtime_with provider_ok)
              (request_of "POST" body_jane))
     = [EvFetch
          (legacy_request
             (str "New Inquiry: Jane Doe from Acme Corp")
             (emailHTML (str "Jane Doe") (str "Acme Corp")
                (str "jane@acme.com") (str "USA") (str "CBB60")
                (str "Please send a quote for 50 units.")
                (str "2025-01-01T00:00:00.000Z"))
             (JStr (str "jane@acme.com")))].
Proof.
  pose (rq :=
    legacy_request
      (str "New Inquiry: Jane Doe from Acme Corp")
      (emailHTML (str "Jane Doe") (str "Acme Corp")
         (str "jane@acme.com") (str "USA") (str "CBB60")
         (str "Please send a quote for 50 units.")
         (str "2025-01-01T00:00:00.000Z"))
      (JStr (str "jane@acme.com"))).
  assert (Htrace :
    trace (Legacy.handler (runtime_with provider_ok)
             (request_of "POST" body_jane))
    = [EvFetch rq])
    by (vm_compute; reflexivity).
  destruct (legacy_call_needs_all_fields (runtime_with provider_ok)
              (request_of "POST" body_jane) rq) as (_ & Hall & _ & Hone).
  { rewrite Htrace. by left. }
  split; [exact (Hall Products)|exact Hone].
Defined.

(** An outbound call of the handler of [api/] is the call for the body of
    the request. *)
Lemma handler_fetch_is_api_request rt env req rq :
  EvFetch rq ∈ trace (Api.handler rt env req) ->
  exists key to,
    Api.env_get env (str "RESEND_API_KEY") = Some key
    /\ Api.env_get env (str "TO_EMAIL") = Some to
    /\ rq = api_request_of rt env key to (req_body req).
Proof.
  intros Hin.
  destruct (configured_or_not env) as [(key & to & Hkey & Hto)|Hno].
  2: { rewrite (handler_unconfigured rt env req Hno) in Hin.
       by apply elem_of_nil in Hin. }
  exists key, to. split; [done|]. split; [done|].
  destruct (handler_cases rt env req key to Hkey Hto)
    as [[_ Heq]|[(_ & _ & Heq)|[(_ & _ & Heq)|[(_ & _ & _ & f & _ & Heq)
       |(_ & Hall & Heq)]]]]; rewrite Heq in Hin; cbn [trace] in Hin;
    try (by apply elem_of_nil in Hin);
    try (by apply no_fetch_in_validation_trace in Hin).
  apply elem_of_app in Hin as [?%no_fetch_in_validation_trace|Hin]; [done|].
  apply list_elem_of_singleton in Hin. by injection Hin as ->.
Qed.

(** X19. The envelope of the outbound call. Every outbound call of the
    handler of [api/] is a POST of JSON to the address of the mail
    provider, with the configured key as bearer credential and the
    configured recipient as only recipient. Its sender is FROM_EMAIL, or
    [noreply@eperscapacitor.com] when FROM_EMAIL is unset or empty; the
    sender is used as it is when it contains [resend.dev], and is put
    between angle brackets after the display name otherwise. *)
Theorem outbound_call_envelope rt env req rq :
  EvFetch rq ∈ trace (Api.handler rt env req) ->
  let sender :=
    default (str "noreply@eperscapacitor.com")
      (Api.env_get env (str "FROM_EMAIL")) in
  fr_url rq = str "https://api.resend.com/emails"
  /\ fr_method rq = str "POST"
  /\ fr_content_type rq = str "application/json"
  /\ (exists key,
        env !! str "RESEND_API_KEY" = Some key
        /\ fr_authorization rq = str "Bearer " ++ key)
  /\ (exists to,
        env !! str "TO_EMAIL" = Some to /\ em_to (fr_body rq) = [to])
  /\ ((exists a b, sender = a ++ str "resend.dev" ++ b) ->
      em_from (fr_body rq) = sender)
  /\ (~ (exists a b, sender = a ++ str "resend.dev" ++ b) ->
      em_from (fr_body rq)
      = str "Motor Run Capacitor <" ++ sender ++ str ">").
Proof.
  intros Hin sender.
  destruct (handler_fetch_is_api_request rt env req rq Hin)
    as (key & to & Hkey & Hto & ->).
  unfold api_request_of, api_request.
  cbn [fr_url fr_method fr_content_type fr_authorization fr_body em_to
         em_from].
  fold sender.
  split; [done|]. split; [done|]. split; [done|].
  split.
  { exists key. split; [|done].
    destruct (env_get_cases env (str "RESEND_API_KEY"))
      as [[Hnone _]|(s & _ & Hs & Hsome)]; [congruence|].
    congruence. }
  split.
  { exists to. split; [|done].
    destruct (env_get_cases env (str "TO_EMAIL"))
      as [[Hnone _]|(s & _ & Hs & Hsome)]; [congruence|].
    congruence. }
  destruct (includes_str sender (str "resend.dev")) eqn:Hinc.
  - split; [done|]. intros Hno. destruct Hno.
    by apply includes_str_infix.
  - split; [|done]. intros Hyes%includes_str_infix. congruence.
Qed.

Lemma outbound_call_envelope_witness :
  exists rq,
    EvFetch rq ∈ trace (Api.handler (runtime_with provider_ok)
                          env_configured (request_of "POST" body_jane))
    /\ fr_authorization rq = str "Bearer re_test_key"
    /\ em_to (fr_body rq) = [str "sales@example.com"]
    /\ em_from (fr_body rq)
       = str "Motor Run Capacitor <noreply@eperscapacitor.com>".
Proof.
  pose (rq := api_request_of (runtime_with provider_ok) env_configured
                (str "re_test_key") (str "sales@example.com") body_jane).
  assert (Hin : EvFetch rq
                ∈ trace (Api.handler (runtime_with provider_ok)
                           env_configured (request_of "POST" body_jane))).
  { assert (trace (Api.handler (runtime_with provider_ok) env_configured
                     (request_of "POST" body_jane))
            = validation_trace body_jane ++ [EvFetch rq]) as ->
      by (vm_compute; reflexivity).
    apply elem_of_app. right. left. }
  exists rq. split; [exact Hin|].
  destruct (outbound_call_envelope _ _ _ _ Hin)
    as (_ & _ & _ & (key & Hkey & Hauth) & (to & Hto & Hrcpt) & _ & Hfrom).
  vm_compute in Hkey. injection Hkey as <-.
  vm_compute in Hto. injection Hto as <-.
  split; [exact Hauth|]. split; [exact Hrcpt|].
  rewrite Hfrom; [vm_compute; reflexivity|].
  intros (a & b & Heq).
  assert (Hinc : includes_str (str "noreply@eperscapacitor.com")
                   (str "resend.dev") = true).
  { apply includes_str_infix. exists a, b. exact Heq. }
  vm_compute in Hinc. discriminate.
Defined.
